(** * STRIDE GPT MCP server: request guard, error sanitizer, tool registry
      and JSON-RPC dispatcher of [api/index.py], embedded in Rocq.

    Python values are modelled as follows.
    - A Python [str] is a list of Unicode code points ([pystr]); [len] is
      the length of that list.  Source literals are written with [u] on
      their ASCII parts, [dq] for a double quote and explicit code points
      for non-ASCII characters.
    - A parsed JSON value (the output of [json.loads]) is [json]; a Python
      [dict] built by [json.loads] is an association list in insertion
      order with distinct keys.  A JSON float is kept as its Python [repr].
    - Code that may raise runs in the monad [PyM]: a state monad over the
      [world] (the random source read by [uuid.uuid4] and the lines written
      to [sys.stderr]) with Python exceptions as errors. *)

From Stdlib Require Import ZArith List String Ascii Bool Btauto Lia.
From Stdlib Require Import Numbers.DecimalString.
Import ListNotations.
Open Scope Z_scope.
Open Scope list_scope.
#[global] Set Warnings "-register-all".


(** ** Python strings *)

Definition pystr := list Z.

Definition u (s : string) : pystr :=
  map (fun c => Z.of_nat (nat_of_ascii c)) (list_ascii_of_string s).

Definition dq : pystr := [34%Z].

(** [len(s)] *)
Definition str_len (s : pystr) : Z := Z.of_nat (List.length s).

Definition str_eqb (a b : pystr) : bool :=
  if list_eq_dec Z.eq_dec a b then true else false.

(** [str(n)] for a Python [int] *)
Definition str_of_Z (z : Z) : pystr := u (NilEmpty.string_of_int (Z.to_int z)).

(** [sub in s] for two strings *)
Fixpoint str_prefixb (p s : pystr) : bool :=
  match p, s with
  | [], _ => true
  | c :: p', d :: s' => Z.eqb c d && str_prefixb p' s'
  | _ :: _, [] => false
  end.

Fixpoint str_contains (s sub : pystr) : bool :=
  str_prefixb sub s ||
  match s with
  | [] => false
  | _ :: s' => str_contains s' sub
  end.

(** ** Parsed JSON values *)

Inductive json : Type :=
| JNull
| JBool (b : bool)
| JInt (z : Z)
| JFloat (r : pystr)
| JStr (s : pystr)
| JArr (xs : list json)
| JObj (kvs : list (pystr * json)).

Section json_induction.
Variable P : json -> Prop.
Hypothesis HNull : P JNull.
Hypothesis HBool : forall b, P (JBool b).
Hypothesis HInt : forall z, P (JInt z).
Hypothesis HFloat : forall r, P (JFloat r).
Hypothesis HStr : forall s, P (JStr s).
Hypothesis HArr : forall xs, Forall P xs -> P (JArr xs).
Hypothesis HObj : forall kvs, Forall (fun kv => P (snd kv)) kvs -> P (JObj kvs).

Fixpoint json_ind' (j : json) : P j :=
  match j with
  | JNull => HNull
  | JBool b => HBool b
  | JInt z => HInt z
  | JFloat r => HFloat r
  | JStr s => HStr s
  | JArr xs =>
      HArr xs ((fix go (l : list json) : Forall P l :=
                  match l with
                  | [] => Forall_nil _
                  | x :: l' => Forall_cons _ (json_ind' x) (go l')
                  end) xs)
  | JObj kvs =>
      HObj kvs ((fix go (l : list (pystr * json))
                   : Forall (fun kv => P (snd kv)) l :=
                  match l with
                  | [] => Forall_nil _
                  | kv :: l' => Forall_cons _ (json_ind' (snd kv)) (go l')
                  end) kvs)
  end.
End json_induction.

(** [d.get(k)] on a dict: the value of the (unique) entry for [k]. *)
Fixpoint dict_get (d : list (pystr * json)) (k : pystr) : option json :=
  match d with
  | [] => None
  | (k', v) :: d' => if str_eqb k k' then Some v else dict_get d' k
  end.

(** [d.get(k, default)] *)
Definition dict_get_default (d : list (pystr * json)) (k : pystr) (default : json) : json :=
  match dict_get d k with
  | Some v => v
  | None => default
  end.

(** [d.get(k)] (default [None]) *)
Definition dict_get_none (d : list (pystr * json)) (k : pystr) : json :=
  dict_get_default d k JNull.

(** [d[k] = v]: an existing key keeps its position, a new key goes last. *)
Fixpoint dict_setitem (d : list (pystr * json)) (k : pystr) (v : json) : list (pystr * json) :=
  match d with
  | [] => [(k, v)]
  | (k', v') :: d' =>
      if str_eqb k k' then (k', v) :: d' else (k', v') :: dict_setitem d' k v
  end.

(** ** Payload limits ([PAYLOAD_LIMITS]) *)

Definition MAX_PAYLOAD_SIZE : Z := 5242880.
Definition MAX_JSON_DEPTH : Z := 20.
Definition MAX_OBJECT_KEYS : Z := 500.
Definition MAX_ARRAY_LENGTH : Z := 2000.
Definition MAX_STRING_LENGTH : Z := 500000.

(** ** [validate_json_complexity] *)

(** The result dict [{'valid': ..., 'error': ...}]; [None] is Python's [None]. *)
Record validation_result := {
  valid : bool;
  error : option pystr
}.

Definition invalid (msg : pystr) : validation_result :=
  {| valid := false; error := Some msg |}.

Definition valid_result : validation_result := {| valid := true; error := None |}.

(** The [for key, value in data.items()] loop, with the recursive call
    passed as [validate]. *)
Fixpoint validate_items (validate : json -> Z -> validation_result)
    (kvs : list (pystr * json)) (next_depth : Z) : validation_result :=
  match kvs with
  | [] => valid_result
  | (key, value) :: rest =>
      if str_len key >? MAX_STRING_LENGTH then
        invalid (u "Object key length exceeds maximum of " ++ str_of_Z MAX_STRING_LENGTH)
      else
        let result := validate value next_depth in
        if negb (valid result) then result
        else validate_items validate rest next_depth
  end.

(** The [for item in data] loop. *)
Fixpoint validate_elems (validate : json -> Z -> validation_result)
    (xs : list json) (next_depth : Z) : validation_result :=
  match xs with
  | [] => valid_result
  | item :: rest =>
      let result := validate item next_depth in
      if negb (valid result) then result
      else validate_elems validate rest next_depth
  end.

Fixpoint validate_json_complexity (data : json) (current_depth : Z) : validation_result :=
  if current_depth >? MAX_JSON_DEPTH then
    invalid (u "JSON nesting depth exceeds maximum of " ++ str_of_Z MAX_JSON_DEPTH)
  else
    match data with
    | JObj kvs =>
        if Z.of_nat (List.length kvs) >? MAX_OBJECT_KEYS then
          invalid (u "Object contains " ++ str_of_Z (Z.of_nat (List.length kvs))
                   ++ u " keys, exceeds maximum of " ++ str_of_Z MAX_OBJECT_KEYS)
        else
          validate_items validate_json_complexity kvs (current_depth + 1)
    | JArr xs =>
        if Z.of_nat (List.length xs) >? MAX_ARRAY_LENGTH then
          invalid (u "Array length " ++ str_of_Z (Z.of_nat (List.length xs))
                   ++ u " exceeds maximum of " ++ str_of_Z MAX_ARRAY_LENGTH)
        else
          validate_elems validate_json_complexity xs (current_depth + 1)
    | JStr s =>
        if str_len s >? MAX_STRING_LENGTH then
          invalid (u "String length " ++ str_of_Z (str_len s)
                   ++ u " exceeds maximum of " ++ str_of_Z MAX_STRING_LENGTH)
        else valid_result
    | _ => valid_result
    end.

(** Specification side of the payload guard, following the spec's words:
    every node of a JSON value with its nesting depth (the root is at depth
    0, the members of a container one deeper), and the four limits a node
    may violate (depth, object key count and key length, array length,
    string length). *)
Fixpoint nodes_at (v : json) (depth : Z) : list (Z * json) :=
  (depth, v) ::
  match v with
  | JArr xs => flat_map (fun x => nodes_at x (depth + 1)) xs
  | JObj kvs => flat_map (fun '(_, x) => nodes_at x (depth + 1)) kvs
  | _ => []
  end.

Definition exceeds_limits (node : Z * json) : bool :=
  let '(depth, v) := node in
  (depth >? MAX_JSON_DEPTH) ||
  match v with
  | JObj kvs =>
      (Z.of_nat (List.length kvs) >? MAX_OBJECT_KEYS)
      || existsb (fun '(k, _) => str_len k >? MAX_STRING_LENGTH) kvs
  | JArr xs => Z.of_nat (List.length xs) >? MAX_ARRAY_LENGTH
  | JStr s => str_len s >? MAX_STRING_LENGTH
  | _ => false
  end.

Definition violates_limits (v : json) : Prop :=
  exists node, In node (nodes_at v 0) /\ exceeds_limits node = true.

(** ** Exceptions, the world and the [PyM] monad *)

(** A raised exception: [type(e).__name__], [str(e)] and the module of
    its class, [type(e).__module__]. *)
Record exc := {
  exc_type : pystr;
  exc_str : pystr;
  exc_module : pystr
}.

(** What the code reads from and writes to outside its arguments: the
    random source behind [os.urandom] (draw number [n] is [w_random n]),
    the number of draws made so far, the lines printed to [sys.stderr], and
    what [traceback.print_exc] prints of the stack: for the exception being
    handled, the lines of its chained exceptions and its frame lines. These
    depend on where the exception was raised and how it propagated, which
    this embedding does not track, so the world supplies them. *)
Record world := {
  w_random : nat -> Z;
  w_draws : nat;
  w_stderr : list pystr;
  w_traceback : exc -> list pystr * list pystr
}.

Definition PyM (A : Type) : Type := world -> (exc + A) * world.

Definition ret {A} (a : A) : PyM A := fun w => (inr a, w).

Definition bind {A B} (m : PyM A) (k : A -> PyM B) : PyM B :=
  fun w => match m w with
           | (inl e, w') => (inl e, w')
           | (inr a, w') => k a w'
           end.

Notation "x <- m ;; k" := (bind m (fun x => k))
  (at level 61, m at next level, right associativity).
Notation "' p <- m ;; k" := (bind m (fun x => match x with p => k end))
  (at level 61, p pattern, m at next level, right associativity).

Definition raise {A} (e : exc) : PyM A := fun w => (inl e, w).

(** [try: m except Exception as e: handler(e)] *)
Definition try_except {A} (m : PyM A) (handler : exc -> PyM A) : PyM A :=
  fun w => match m w with
           | (inl e, w') => handler e w'
           | (inr a, w') => (inr a, w')
           end.

(** [print(line, file=sys.stderr)] *)
Definition print_stderr (line : pystr) : PyM unit :=
  fun w => (inr tt, {| w_random := w_random w; w_draws := w_draws w;
                       w_stderr := w_stderr w ++ [line]; w_traceback := w_traceback w |}).

(** 128 random bits ([int.from_bytes(os.urandom(16))]). *)
Definition urandom_128 : PyM Z :=
  fun w => (inr (w_random w (w_draws w) mod 2 ^ 128),
            {| w_random := w_random w; w_draws := S (w_draws w);
               w_stderr := w_stderr w; w_traceback := w_traceback w |}).

(** [type(x).__name__] for a JSON value *)
Definition type_name (v : json) : pystr :=
  match v with
  | JNull => u "NoneType"
  | JBool _ => u "bool"
  | JInt _ => u "int"
  | JFloat _ => u "float"
  | JStr _ => u "str"
  | JArr _ => u "list"
  | JObj _ => u "dict"
  end.

(** [x.get(...)]: only a dict has [get]; any other value raises
    [AttributeError]. *)
Definition as_dict (v : json) : PyM (list (pystr * json)) :=
  match v with
  | JObj kvs => ret kvs
  | _ => raise {| exc_type := u "AttributeError";
                  exc_str := u "'" ++ type_name v ++ u "' object has no attribute 'get'" ;
                  exc_module := u "builtins" |}
  end.

(** [x == 'lit'] for a JSON value [x] and a string literal *)
Definition is_str (v : json) (lit : pystr) : bool :=
  match v with
  | JStr s => str_eqb s lit
  | _ => false
  end.

(** [needle in hay] for a string [needle]: substring test on a str, key
    test on a dict, element equality on a list; [TypeError] otherwise. *)
Definition py_in (needle : pystr) (hay : json) : PyM bool :=
  match hay with
  | JStr s => ret (str_contains s needle)
  | JObj kvs => ret (existsb (fun '(k, _) => str_eqb k needle) kvs)
  | JArr xs => ret (existsb (fun x => is_str x needle) xs)
  | _ => raise {| exc_type := u "TypeError";
                  exc_str := u "argument of type '" ++ type_name hay ++ u "' is not iterable" ;
                  exc_module := u "builtins" |}
  end.

(** [s.lower()] on a JSON value: [AttributeError] unless it is a str.  The
    two results of [lower()] in the code are never read; ASCII letters are
    mapped, other code points are kept. *)
Definition py_lower (v : json) : PyM pystr :=
  match v with
  | JStr s => ret (map (fun c => if (65 <=? c) && (c <=? 90) then c + 32 else c) s)
  | _ => raise {| exc_type := u "AttributeError";
                  exc_str := u "'" ++ type_name v ++ u "' object has no attribute 'lower'" ;
                  exc_module := u "builtins" |}
  end.

(** ** [uuid.uuid4()] and [sanitize_error] *)

(** [uuid.UUID(bytes=os.urandom(16), version=4).int]: variant and version bits set. *)
Definition uuid4_int (r : Z) : Z :=
  let i := Z.land r (Z.lnot (Z.shiftl 49152 48)) in   (* ~(0xc000 << 48) *)
  let i := Z.lor i (Z.shiftl 32768 48) in              (* 0x8000 << 48 *)
  let i := Z.land i (Z.lnot (Z.shiftl 61440 64)) in   (* ~(0xf000 << 64) *)
  Z.lor i (Z.shiftl 4 76).

Definition uuid4 : PyM Z := r <- urandom_128 ;; ret (uuid4_int r).

Definition hex_char (n : Z) : Z := if n <? 10 then 48 + n else 87 + n.

(** [format(n, '0<width>x')] for [0 <= n < 16 ^ width] *)
Fixpoint hex_fixed (width : nat) (n : Z) : pystr :=
  match width with
  | O => []
  | S w => hex_fixed w (Z.shiftr n 4) ++ [hex_char (Z.land n 15)]
  end.

Definition slice (lo hi : nat) (s : pystr) : pystr := firstn (hi - lo) (skipn lo s).

(** [str(uuid)]: ['%032x' % int] split 8-4-4-4-12 by dashes. *)
Definition uuid_str (i : Z) : pystr :=
  let hex := hex_fixed 32 i in
  slice 0 8 hex ++ u "-" ++ slice 8 12 hex ++ u "-" ++ slice 12 16 hex ++ u "-"
  ++ slice 16 20 hex ++ u "-" ++ skipn 20 hex.

(** The class name [format_exception_only] prints: [__module__.__name__],
    the module left out when it is [builtins] or [__main__]. *)
Definition exc_qualname (error : exc) : pystr :=
  if str_eqb (exc_module error) (u "builtins") || str_eqb (exc_module error) (u "__main__")
  then exc_type error
  else exc_module error ++ u "." ++ exc_type error.

(** The last line of a traceback: [Name: message], or [Name] alone when
    [str(e)] is empty. *)
Definition exc_final_line (error : exc) : pystr :=
  match exc_str error with
  | [] => exc_qualname error
  | msg => exc_qualname error ++ u ": " ++ msg
  end.

(** [traceback.print_exc(file=sys.stderr)] inside the [except] block of
    [error]: the chained exceptions, the header, the frame lines, then the
    last line. *)
Definition print_exc (error : exc) : PyM unit :=
  fun w =>
    (inr tt, {| w_random := w_random w; w_draws := w_draws w;
                w_stderr := w_stderr w ++ fst (w_traceback w error)
                            ++ u "Traceback (most recent call last):" :: snd (w_traceback w error)
                            ++ [exc_final_line error];
                w_traceback := w_traceback w |}).

Definition sanitize_error (error : exc) (error_context : pystr) : PyM (pystr * pystr) :=
  i <- uuid4 ;;
  let error_id := slice 0 8 (uuid_str i) in
  _ <- print_stderr (u "[ERROR " ++ error_id ++ u "] Context: " ++ error_context) ;;
  _ <- print_stderr (u "[ERROR " ++ error_id ++ u "] Exception Type: " ++ exc_type error) ;;
  _ <- print_stderr (u "[ERROR " ++ error_id ++ u "] Exception Message: " ++ exc_str error) ;;
  _ <- print_stderr (u "[ERROR " ++ error_id ++ u "] Stack Trace:") ;;
  _ <- print_exc error ;;
  let sanitized_message := u "An internal error occurred. Error ID: " ++ error_id in
  ret (error_id, sanitized_message).

(** ** [ERROR_CODES] *)

Inductive error_code_name :=
| INVALID_PARAMETER
| TOOL_EXECUTION_FAILED
| INTERNAL_ERROR
| PAYLOAD_TOO_LARGE
| PAYLOAD_TOO_COMPLEX.

Definition ERROR_CODES (name : error_code_name) : Z :=
  match name with
  | INVALID_PARAMETER => -32603
  | TOOL_EXECUTION_FAILED => -32604
  | INTERNAL_ERROR => -32603
  | PAYLOAD_TOO_LARGE => -32600
  | PAYLOAD_TOO_COMPLEX => -32600
  end.

(** ** [json.dumps(obj, indent=2)] *)

(** [py_encode_basestring_ascii] ([ensure_ascii=True]): escapes, and every
    code point outside [' '..'~'] as [\uXXXX] (a surrogate pair above
    U+FFFF). *)
Definition escape_u (n : Z) : pystr := u "\u" ++ hex_fixed 4 n.

Definition encode_char (c : Z) : pystr :=
  if c =? 92 then u "\\"
  else if c =? 34 then u "\" ++ dq
  else if c =? 8 then u "\b"
  else if c =? 12 then u "\f"
  else if c =? 10 then u "\n"
  else if c =? 13 then u "\r"
  else if c =? 9 then u "\t"
  else if (32 <=? c) && (c <=? 126) then [c]
  else if c <? 65536 then escape_u c
  else
    let n := c - 65536 in
    escape_u (Z.lor 55296 (Z.land (Z.shiftr n 10) 1023))
    ++ escape_u (Z.lor 56320 (Z.land n 1023)).

Definition encode_basestring_ascii (s : pystr) : pystr :=
  dq ++ flat_map encode_char s ++ dq.

(** [float.__repr__] except for the three special values *)
Definition floatstr (r : pystr) : pystr :=
  if str_eqb r (u "nan") then u "NaN"
  else if str_eqb r (u "inf") then u "Infinity"
  else if str_eqb r (u "-inf") then u "-Infinity"
  else r.

Fixpoint join (sep : pystr) (parts : list pystr) : pystr :=
  match parts with
  | [] => []
  | [p] => p
  | p :: ps => p ++ sep ++ join sep ps
  end.

(** ['\n' + ' ' * indent * level] with [indent = 2] *)
Definition newline_indent (level : nat) : pystr := 10 :: repeat 32 (2 * level)%nat.

(** The pure-Python [_make_iterencode] used when [indent] is set: item
    separator [','], key separator [': ']. *)
Fixpoint iterencode (v : json) (level : nat) : pystr :=
  match v with
  | JNull => u "null"
  | JBool true => u "true"
  | JBool false => u "false"
  | JInt z => str_of_Z z
  | JFloat r => floatstr r
  | JStr s => encode_basestring_ascii s
  | JArr [] => u "[]"
  | JArr xs =>
      u "[" ++ newline_indent (S level)
      ++ join (u "," ++ newline_indent (S level)) (map (fun x => iterencode x (S level)) xs)
      ++ newline_indent level ++ u "]"
  | JObj [] => u "{}"
  | JObj kvs =>
      u "{" ++ newline_indent (S level)
      ++ join (u "," ++ newline_indent (S level))
              (map (fun '(k, x) => encode_basestring_ascii k ++ u ": " ++ iterencode x (S level)) kvs)
      ++ newline_indent level ++ u "}"
  end.

Definition json_dumps_indent2 (v : json) : pystr := iterencode v 0.

(** ** The tool handlers

    Each handler receives the [arguments] value of the call; its
    [args.get(...)] raises [AttributeError] when that value is not a dict.
    The returned dicts are transcribed from the source literals. *)

Definition get_stride_threat_framework (args : json) : PyM json :=
  args_d <- as_dict args ;;
  let app_description := dict_get_default args_d (u "app_description") (JStr []) in
  let app_type := dict_get_default args_d (u "app_type") (JStr (u "Web Application")) in
  let auth_methods := dict_get_default args_d (u "authentication_methods") (JArr [JStr (u "Username/Password")]) in
  let internet_facing := dict_get_default args_d (u "internet_facing") (JBool true) in
  let sensitive_data := dict_get_default args_d (u "sensitive_data_types") (JArr [JStr (u "User Data")]) in
  ret (JObj [
    (u "stride_framework", JObj [
      (u "description", JStr (u "STRIDE threat modeling methodology for systematic security analysis"));
      (u "categories", JObj [
        (u "S", JObj [
          (u "name", JStr (u "Spoofing"));
          (u "description", JStr (u "Impersonating something or someone else"));
          (u "threat_examples", JArr [
            JStr (u "Authentication bypass");
            JStr (u "Identity theft/impersonation");
            JStr (u "Credential compromise");
            JStr (u "Session hijacking");
            JStr (u "Certificate/token forgery")
          ])
        ]);
        (u "T", JObj [
          (u "name", JStr (u "Tampering"));
          (u "description", JStr (u "Modifying data or code"));
          (u "threat_examples", JArr [
            JStr (u "Data manipulation/corruption");
            JStr (u "Code injection attacks");
            JStr (u "Configuration modification");
            JStr (u "Message/request tampering");
            JStr (u "File/database alteration")
          ])
        ]);
        (u "R", JObj [
          (u "name", JStr (u "Repudiation"));
          (u "description", JStr (u "Claiming to have not performed an action"));
          (u "threat_examples", JArr [
            JStr (u "Insufficient audit logging");
            JStr (u "Log tampering/deletion");
            JStr (u "Non-repudiation failures");
            JStr (u "Transaction denial");
            JStr (u "Accountability gaps")
          ])
        ]);
        (u "I", JObj [
          (u "name", JStr (u "Information Disclosure"));
          (u "description", JStr (u "Exposing information to unauthorized individuals"));
          (u "threat_examples", JArr [
            JStr (u "Unauthorized data access");
            JStr (u "Sensitive information leakage");
            JStr (u "Privacy violations");
            JStr (u "Reconnaissance/enumeration");
            JStr (u "Metadata exposure")
          ])
        ]);
        (u "D", JObj [
          (u "name", JStr (u "Denial of Service"));
          (u "description", JStr (u "Denying or degrading service availability"));
          (u "threat_examples", JArr [
            JStr (u "Resource exhaustion");
            JStr (u "Service flooding/overload");
            JStr (u "Infrastructure disruption");
            JStr (u "Performance degradation");
            JStr (u "Availability attacks")
          ])
        ]);
        (u "E", JObj [
          (u "name", JStr (u "Elevation of Privilege"));
          (u "description", JStr (u "Gaining capabilities without proper authorization"));
          (u "threat_examples", JArr [
            JStr (u "Authorization bypass");
            JStr (u "Privilege escalation");
            JStr (u "Access control violations");
            JStr (u "Administrative compromise");
            JStr (u "Permission boundary failures")
          ])
        ])
      ]);
      (u "extended_threat_domains", JObj [
        (u "traditional_web", JArr [
          JStr (u "SQL injection, XSS, CSRF");
          JStr (u "Authentication/authorization flaws");
          JStr (u "Session management issues");
          JStr (u "Input validation failures")
        ]);
        (u "cloud_infrastructure", JArr [
          JStr (u "Misconfigured services/permissions");
          JStr (u "Container/orchestration vulnerabilities");
          JStr (u "API gateway security issues");
          JStr (u "Serverless function attacks")
        ]);
        (u "ai_ml_systems", JArr [
          JStr (u "Prompt injection attacks");
          JStr (u "Training data poisoning");
          JStr (u "Model extraction/inversion");
          JStr (u "Adversarial examples");
          JStr (u "Excessive AI agency");
          JStr (u "AI decision manipulation")
        ]);
        (u "iot_embedded", JArr [
          JStr (u "Firmware tampering");
          JStr (u "Device impersonation");
          JStr (u "Communication protocol attacks");
          JStr (u "Physical access threats")
        ]);
        (u "mobile_applications", JArr [
          JStr (u "App tampering/repackaging");
          JStr (u "Device-specific attacks");
          JStr (u "Platform integration issues");
          JStr (u "Local data storage threats")
        ]);
        (u "api_microservices", JArr [
          JStr (u "Service-to-service authentication");
          JStr (u "API abuse/rate limiting");
          JStr (u "Inter-service communication");
          JStr (u "Service mesh security")
        ])
      ])
    ]);
    (u "application_context", JObj [
      (u "app_description", app_description);
      (u "app_type", app_type);
      (u "authentication_methods", auth_methods);
      (u "internet_facing", internet_facing);
      (u "sensitive_data_types", sensitive_data)
    ]);
    (u "analysis_guidance", JStr (u "Use this STRIDE framework to systematically identify specific threats for the described application. Consider which extended threat domains are relevant based on the application's architecture, technology stack, and deployment model. The LLM client should analyze the application context and select appropriate threats from each STRIDE category and relevant threat domain."));
    (u "next_steps", JObj [
      (u "recommended_workflow", JArr [
        JStr (u "1. Analyze application using STRIDE framework to identify specific threats");
        JStr (u "2. Document each threat with ID, category, and description");
        JStr (u "3. Call calculate_threat_risk_scores with your threat list");
        JStr (u "4. Call validate_threat_coverage to check completeness");
        JStr (u "5. Generate mitigations for high-priority threats")
      ]);
      (u "optional_tools", JArr [
        JStr (u "create_threat_attack_trees - Visualize attack paths");
        JStr (u "generate_security_tests - Create test cases")
      ])
    ])
  ]).

Definition generate_threat_mitigations (args : json) : PyM json :=
  args_d <- as_dict args ;;
  let threats := dict_get_default args_d (u "threats") (JArr []) in
  let priority_filter := dict_get_default args_d (u "priority_filter") (JStr (u "all")) in
  ret (JObj [
    (u "mitigation_framework", JObj [
      (u "description", JStr (u "Structured approach to generate threat mitigations"));
      (u "categories", JObj [
        (u "Preventive", JStr (u "Controls that prevent threats from occurring"));
        (u "Detective", JStr (u "Controls that detect when threats occur"));
        (u "Corrective", JStr (u "Controls that respond to and recover from threats"))
      ]);
      (u "difficulty_levels", JObj [
        (u "Easy", JStr (u "Can be implemented quickly with existing tools/processes"));
        (u "Medium", JStr (u "Requires moderate effort and possibly new tools"));
        (u "Hard", JStr (u "Requires significant resources, time, or architectural changes"))
      ]);
      (u "priority_levels", JObj [
        (u "High", JStr (u "Critical security controls that should be implemented immediately"));
        (u "Medium", JStr (u "Important controls that should be planned for near-term implementation"));
        (u "Low", JStr (u "Nice-to-have controls for comprehensive defense"))
      ])
    ]);
    (u "threat_context", threats);
    (u "priority_filter", priority_filter);
    (u "analysis_guidance", JStr (u "For each threat provided, generate specific, actionable mitigation strategies. Consider defense-in-depth principles and prioritize based on risk level and implementation difficulty."));
    (u "next_steps", JObj [
      (u "after_mitigations", JArr [
        JStr (u "1. Call generate_security_tests to create test cases");
        JStr (u "2. Call create_threat_attack_trees to visualize attack paths");
        JStr (u "3. Call generate_threat_report to create deliverable document");
        JStr (u "4. Implement high-priority preventive controls first")
      ])
    ])
  ]).

Definition calculate_threat_risk_scores (args : json) : PyM json :=
  args_d <- as_dict args ;;
  let threats := dict_get_default args_d (u "threats") (JArr []) in
  let scoring_guidance := dict_get_default args_d (u "scoring_guidance") (JObj []) in
  ret (JObj [
    (u "dread_framework", JObj [
      (u "description", JStr (u "DREAD risk assessment methodology for threat prioritization"));
      (u "scoring_criteria", JObj [
        (u "Damage", JObj [
          (u "description", JStr (u "How bad would an attack be?"));
          (u "scale", JStr (u "1-10 (1=minimal damage, 10=complete system compromise)"));
          (u "factors", JArr [
            JStr (u "Financial impact");
            JStr (u "Data sensitivity");
            JStr (u "Regulatory consequences");
            JStr (u "Business continuity")
          ])
        ]);
        (u "Reproducibility", JObj [
          (u "description", JStr (u "How easy is it to reproduce the attack?"));
          (u "scale", JStr (u "1-10 (1=very difficult, 10=very easy)"));
          (u "factors", JArr [
            JStr (u "Attack complexity");
            JStr (u "Required tools/skills");
            JStr (u "Environmental dependencies")
          ])
        ]);
        (u "Exploitability", JObj [
          (u "description", JStr (u "How much work is it to launch the attack?"));
          (u "scale", JStr (u "1-10 (1=very hard, 10=very easy)"));
          (u "factors", JArr [
            JStr (u "Technical skill required");
            JStr (u "Time investment");
            JStr (u "Resource requirements")
          ])
        ]);
        (u "Affected_Users", JObj [
          (u "description", JStr (u "How many users would be impacted?"));
          (u "scale", JStr (u "1-10 (1=few users, 10=all users)"));
          (u "factors", JArr [
            JStr (u "User base size");
            JStr (u "Impact scope");
            JStr (u "Cascading effects")
          ])
        ]);
        (u "Discoverability", JObj [
          (u "description", JStr (u "How easy is it to discover the threat?"));
          (u "scale", JStr (u "1-10 (1=very hard, 10=very easy)"));
          (u "factors", JArr [
            JStr (u "Visibility of attack surface");
            JStr (u "Documentation availability");
            JStr (u "Common vulnerability")
          ])
        ])
      ]);
      (u "risk_levels", JObj [
        (u "Critical", JStr (u "40-50 points - Immediate action required"));
        (u "High", JStr (u "30-39 points - High priority for remediation"));
        (u "Medium", JStr (u "20-29 points - Medium priority"));
        (u "Low", JStr (u "5-19 points - Low priority but should be addressed"))
      ])
    ]);
    (u "calibration_guidance", JObj [
      (u "damage", JObj [
        (u "1-3", JStr (u "Minimal: Affects single user, non-critical functionality, easily recoverable"));
        (u "4-6", JStr (u "Moderate: Affects multiple users, important functionality, recovery required"));
        (u "7-9", JStr (u "High: Affects most users, critical functionality, difficult recovery"));
        (u "10", JStr (u "Catastrophic: Complete system compromise, all users affected, irrecoverable"))
      ]);
      (u "reproducibility", JObj [
        (u "1-3", JStr (u "Difficult: Requires specific timing, race conditions, or rare circumstances"));
        (u "4-6", JStr (u "Moderate: Requires specific configuration or user actions"));
        (u "7-9", JStr (u "Easy: Reproducible with standard tools and documentation"));
        (u "10", JStr (u "Always: 100% reproducible, deterministic"))
      ]);
      (u "exploitability", JObj [
        (u "1-3", JStr (u "Expert: Requires deep expertise, custom tools, significant time investment"));
        (u "4-6", JStr (u "Intermediate: Requires moderate skill, some tool customization"));
        (u "7-9", JStr (u "Basic: Standard tools and scripts available, minimal expertise needed"));
        (u "10", JStr (u "Trivial: No technical skill required, fully automated tools exist"))
      ]);
      (u "affected_users", JObj [
        (u "1-3", JStr (u "Few: < 10% of users, isolated impact"));
        (u "4-6", JStr (u "Some: 10-50% of users, limited scope"));
        (u "7-9", JStr (u "Most: 50-90% of users, widespread impact"));
        (u "10", JStr (u "All: 100% of users affected, system-wide impact"))
      ]);
      (u "discoverability", JObj [
        (u "1-3", JStr (u "Hidden: Requires source code review, insider knowledge, or deep analysis"));
        (u "4-6", JStr (u "Obscure: Requires investigation, testing, or documentation review"));
        (u "7-9", JStr (u "Obvious: Visible through normal usage or basic testing"));
        (u "10", JStr (u "Public: Documented, well-known, or immediately apparent"))
      ])
    ]);
    (u "scoring_examples", JArr [
      JObj [
        (u "threat", JStr (u "SQL Injection in public-facing API endpoint"));
        (u "context", JStr (u "E-commerce website with customer database"));
        (u "dread_breakdown", JObj [
          (u "Damage", JObj [
            (u "score", JInt 10);
            (u "rationale", JStr (u "Complete database compromise, customer PII exposure, financial data theft"))
          ]);
          (u "Reproducibility", JObj [
            (u "score", JInt 9);
            (u "rationale", JStr (u "Easily reproducible with standard tools (SQLMap), well-documented technique"))
          ]);
          (u "Exploitability", JObj [
            (u "score", JInt 8);
            (u "rationale", JStr (u "Requires basic SQL knowledge, automated tools available, public exploits exist"))
          ]);
          (u "Affected_Users", JObj [
            (u "score", JInt 10);
            (u "rationale", JStr (u "All users' data potentially exposed, entire database accessible"))
          ]);
          (u "Discoverability", JObj [
            (u "score", JInt 9);
            (u "rationale", JStr (u "Common vulnerability, easily detected by automated scanners, OWASP Top 10"))
          ]);
          (u "total", JInt 46);
          (u "priority", JStr (u "Critical"))
        ])
      ];
      JObj [
        (u "threat", JStr (u "Insufficient audit logging for admin actions"));
        (u "context", JStr (u "Internal business application"));
        (u "dread_breakdown", JObj [
          (u "Damage", JObj [
            (u "score", JInt 6);
            (u "rationale", JStr (u "Enables malicious activity without detection, complicates forensics, compliance risk"))
          ]);
          (u "Reproducibility", JObj [
            (u "score", JInt 10);
            (u "rationale", JStr (u "Always reproducible - logging is either present or not"))
          ]);
          (u "Exploitability", JObj [
            (u "score", JInt 5);
            (u "rationale", JStr (u "Requires legitimate admin access first, not directly exploitable"))
          ]);
          (u "Affected_Users", JObj [
            (u "score", JInt 7);
            (u "rationale", JStr (u "Affects incident response capability, impacts all users indirectly"))
          ]);
          (u "Discoverability", JObj [
            (u "score", JInt 6);
            (u "rationale", JStr (u "Requires code review or documentation review to discover"))
          ]);
          (u "total", JInt 34);
          (u "priority", JStr (u "High"))
        ])
      ];
      JObj [
        (u "threat", JStr (u "Weak password policy (minimum 6 characters, no complexity)"));
        (u "context", JStr (u "Consumer web application"));
        (u "dread_breakdown", JObj [
          (u "Damage", JObj [
            (u "score", JInt 7);
            (u "rationale", JStr (u "Individual account compromise, potential for credential stuffing"))
          ]);
          (u "Reproducibility", JObj [
            (u "score", JInt 8);
            (u "rationale", JStr (u "Brute force attacks are reliable with weak passwords"))
          ]);
          (u "Exploitability", JObj [
            (u "score", JInt 7);
            (u "rationale", JStr (u "Requires password hash access or online brute force, standard tools available"))
          ]);
          (u "Affected_Users", JObj [
            (u "score", JInt 6);
            (u "rationale", JStr (u "Affects users who choose weak passwords, not all users"))
          ]);
          (u "Discoverability", JObj [
            (u "score", JInt 8);
            (u "rationale", JStr (u "Easily discoverable during registration or password change"))
          ]);
          (u "total", JInt 36);
          (u "priority", JStr (u "High"))
        ])
      ];
      JObj [
        (u "threat", JStr (u "Missing CSRF protection on low-impact form"));
        (u "context", JStr (u "User preference settings update"));
        (u "dread_breakdown", JObj [
          (u "Damage", JObj [
            (u "score", JInt 3);
            (u "rationale", JStr (u "Limited to changing non-critical user preferences"))
          ]);
          (u "Reproducibility", JObj [
            (u "score", JInt 8);
            (u "rationale", JStr (u "Easily reproducible with standard CSRF techniques"))
          ]);
          (u "Exploitability", JObj [
            (u "score", JInt 6);
            (u "rationale", JStr (u "Requires social engineering to get user to visit malicious page"))
          ]);
          (u "Affected_Users", JObj [
            (u "score", JInt 4);
            (u "rationale", JStr (u "Affects individual users who fall victim to social engineering"))
          ]);
          (u "Discoverability", JObj [
            (u "score", JInt 7);
            (u "rationale", JStr (u "Detectable with automated security scanners"))
          ]);
          (u "total", JInt 28);
          (u "priority", JStr (u "Medium"))
        ])
      ];
      JObj [
        (u "threat", JStr (u "Information disclosure via verbose error messages"));
        (u "context", JStr (u "Stack traces exposed to users in production"));
        (u "dread_breakdown", JObj [
          (u "Damage", JObj [
            (u "score", JInt 5);
            (u "rationale", JStr (u "Reveals internal structure, file paths, technology versions - aids reconnaissance"))
          ]);
          (u "Reproducibility", JObj [
            (u "score", JInt 7);
            (u "rationale", JStr (u "Reproducible by triggering error conditions"))
          ]);
          (u "Exploitability", JObj [
            (u "score", JInt 6);
            (u "rationale", JStr (u "Requires ability to trigger errors, not directly exploitable"))
          ]);
          (u "Affected_Users", JObj [
            (u "score", JInt 5);
            (u "rationale", JStr (u "Information disclosure to potential attackers, indirect user impact"))
          ]);
          (u "Discoverability", JObj [
            (u "score", JInt 8);
            (u "rationale", JStr (u "Easily discovered through normal usage and error triggering"))
          ]);
          (u "total", JInt 31);
          (u "priority", JStr (u "High"))
        ])
      ]
    ]);
    (u "threats", threats);
    (u "scoring_guidance", scoring_guidance);
    (u "analysis_guidance", JStr (u "Score each threat using the DREAD criteria. Provide justification for each score based on the specific threat characteristics and application context."));
    (u "next_steps", JObj [
      (u "after_scoring", JArr [
        JStr (u "1. Prioritize threats by DREAD score (Critical: 40-50, High: 30-39)");
        JStr (u "2. Call validate_threat_coverage to ensure no gaps");
        JStr (u "3. Call generate_threat_mitigations for high-priority threats");
        JStr (u "4. Consider create_threat_attack_trees for critical threats")
      ])
    ])
  ]).

Definition create_threat_attack_trees (args : json) : PyM json :=
  args_d <- as_dict args ;;
  let threats := dict_get_default args_d (u "threats") (JArr []) in
  let max_depth := dict_get_default args_d (u "max_depth") (JInt 3) in
  let output_format := dict_get_default args_d (u "output_format") (JStr (u "both")) in
  ret (JObj [
    (u "attack_tree_framework", JObj [
      (u "description", JStr (u "Hierarchical representation of attack paths and methods"));
      (u "structure", JObj [
        (u "root_goal", JStr (u "Primary objective the attacker wants to achieve"));
        (u "sub_goals", JStr (u "Intermediate objectives that support the root goal"));
        (u "attack_methods", JStr (u "Specific techniques or vulnerabilities that enable each sub-goal"));
        (u "prerequisites", JStr (u "Conditions or access required for each attack method"))
      ]);
      (u "common_patterns", JObj [
        (u "reconnaissance", JArr [
          JStr (u "Information gathering");
          JStr (u "System enumeration");
          JStr (u "Social engineering")
        ]);
        (u "initial_access", JArr [
          JStr (u "Phishing");
          JStr (u "Credential stuffing");
          JStr (u "Vulnerability exploitation")
        ]);
        (u "privilege_escalation", JArr [
          JStr (u "Local exploits");
          JStr (u "Credential theft");
          JStr (u "Authorization bypass")
        ]);
        (u "persistence", JArr [
          JStr (u "Backdoors");
          JStr (u "Scheduled tasks");
          JStr (u "Registry modification")
        ]);
        (u "exfiltration", JArr [
          JStr (u "Data staging");
          JStr (u "Command and control");
          JStr (u "Covert channels")
        ])
      ])
    ]);
    (u "output_formats", JObj [
      (u "text", JObj [
        (u "description", JStr (u "ASCII tree structure using " ++ [9492; 9472; 9472] ++ u " and " ++ [9500; 9472; 9472] ++ u " characters"));
        (u "example", JStr (u "Goal: Steal API Keys
" ++ [9500; 9472; 9472] ++ u " [OR] Exploit Public Deployment
" ++ [9474] ++ u "   " ++ [9500; 9472; 9472] ++ u " Access public instance
" ++ [9474] ++ u "   " ++ [9492; 9472; 9472] ++ u " Extract from browser
" ++ [9492; 9472; 9472] ++ u " [OR] Exploit Local Deployment
    " ++ [9492; 9472; 9472] ++ u " Read .env file"))
      ]);
      (u "mermaid", JObj [
        (u "description", JStr (u "Mermaid.js graph syntax for rendering diagrams"));
        (u "example", JStr (u "graph TD
    A[Steal API Keys] --> B{OR}
    B --> C[Exploit Public]
    B --> D[Exploit Local]
    C --> E[Access instance]
    C --> F[Extract from browser]
    D --> G[Read .env file]"))
      ]);
      (u "json", JObj [
        (u "description", JStr (u "Structured JSON representation"));
        (u "example", JObj [
          (u "root", JStr (u "Steal API Keys"));
          (u "type", JStr (u "OR"));
          (u "children", JArr [
            JObj [
              (u "goal", JStr (u "Exploit Public Deployment"));
              (u "methods", JArr [JStr (u "Access instance"); JStr (u "Extract from browser")])
            ]
          ])
        ])
      ]);
      (u "both", JObj [
        (u "description", JStr (u "Returns both text and mermaid formats"));
        (u "note", JStr (u "Current default, provides multiple visualization options"))
      ])
    ]);
    (u "threat_context", threats);
    (u "max_depth", max_depth);
    (u "output_format", output_format);
    (u "analysis_guidance", JStr (u "Create attack trees showing how threats could be realized. Start with high-level attack goals and decompose into specific attack vectors and prerequisites."))
  ]).

Definition generate_security_tests (args : json) : PyM json :=
  args_d <- as_dict args ;;
  let threats := dict_get_default args_d (u "threats") (JArr []) in
  let test_type := dict_get_default args_d (u "test_type") (JStr (u "mixed")) in
  let format_type := dict_get_default args_d (u "format_type") (JStr (u "gherkin")) in
  ret (JObj [
    (u "security_testing_framework", JObj [
      (u "description", JStr (u "Structured approach to validate threat mitigations through testing"));
      (u "test_types", JObj [
        (u "unit", JStr (u "Test individual security controls in isolation"));
        (u "integration", JStr (u "Test security controls working together"));
        (u "penetration", JStr (u "Simulate real-world attack scenarios"));
        (u "compliance", JStr (u "Verify adherence to security standards"))
      ]);
      (u "test_formats", JObj [
        (u "gherkin", JStr (u "Given-When-Then behavior-driven format"));
        (u "procedural", JStr (u "Step-by-step test procedures"));
        (u "checklist", JStr (u "Verification checklists"))
      ]);
      (u "coverage_areas", JObj [
        (u "authentication", JStr (u "Identity verification and access controls"));
        (u "authorization", JStr (u "Permission and privilege validation"));
        (u "input_validation", JStr (u "Data sanitization and bounds checking"));
        (u "encryption", JStr (u "Data protection in transit and at rest"));
        (u "logging", JStr (u "Security event detection and recording"))
      ])
    ]);
    (u "use_cases", JObj [
      (u "unit_testing", JObj [
        (u "description", JStr (u "Generate unit tests for security functions"));
        (u "example", JStr (u "Test input validation, authentication checks, authorization logic"))
      ]);
      (u "integration_testing", JObj [
        (u "description", JStr (u "Generate integration tests for security flows"));
        (u "example", JStr (u "Test end-to-end authentication, authorization workflows"))
      ]);
      (u "manual_testing", JObj [
        (u "description", JStr (u "Generate test cases for manual security testing"));
        (u "example", JStr (u "Penetration testing checklists, security review procedures"))
      ]);
      (u "automated_security_scanning", JObj [
        (u "description", JStr (u "Generate test scenarios for security scanners"));
        (u "example", JStr (u "DAST tool configurations, security test automation"))
      ])
    ]);
    (u "format_examples", JObj [
      (u "gherkin", JObj [
        (u "description", JStr (u "Behavior-driven development test scenarios"));
        (u "example", JStr (u "Feature: API Authentication
  Scenario: Unauthorized access attempt
    Given I am not authenticated
    When I attempt to access protected endpoint
    Then I should receive 401 Unauthorized
    And no sensitive data should be returned"))
      ]);
      (u "checklist", JObj [
        (u "description", JStr (u "Manual testing checklist"));
        (u "example", JStr (u "## SQL Injection Testing
- [ ] Test input validation with SQL metacharacters
- [ ] Verify parameterized queries are used
- [ ] Check error messages don't reveal database structure
- [ ] Test time-based blind injection"))
      ]);
      (u "markdown", JObj [
        (u "description", JStr (u "Structured test documentation"));
        (u "example", JStr (u "### Test Case: XSS Protection
**Objective**: Verify XSS prevention in user input fields
**Steps**:
1. Submit XSS payload in username field
2. Verify output is properly escaped
3. Check CSP headers are present
**Expected**: Script tags rendered as text, not executed"))
      ])
    ]);
    (u "threat_context", threats);
    (u "test_type", test_type);
    (u "format_type", format_type);
    (u "analysis_guidance", JStr (u "Generate specific test cases to validate that security controls effectively mitigate the identified threats. Include both positive and negative test scenarios."))
  ]).

(** [template.format(name=value)] for a template whose only replacement
    fields are [{name}] (the case of the report's last section). *)
Fixpoint format_field_go (tpl field value : pystr) (skip : nat) : pystr :=
  match tpl with
  | [] => []
  | c :: rest =>
      match skip with
      | S k => format_field_go rest field value k
      | O =>
          if str_prefixb field tpl
          then value ++ format_field_go rest field value (pred (List.length field))
          else c :: format_field_go rest field value O
      end
  end.

Definition str_format (tpl name value : pystr) : pystr :=
  format_field_go tpl (u "{" ++ name ++ u "}") value O.

(** Returns the markdown report as a str. *)
Definition generate_threat_report (args : json) : PyM pystr :=
  args_d <- as_dict args ;;
  let threat_model := dict_get_default args_d (u "threat_model") (JArr []) in
  let mitigations := dict_get_default args_d (u "mitigations") (JArr []) in
  let dread_scores := dict_get_default args_d (u "dread_scores") (JArr []) in
  let attack_trees := dict_get_default args_d (u "attack_trees") (JArr []) in
  let include_sections := dict_get_default args_d (u "include_sections") (JArr [
    JStr (u "executive_summary");
    JStr (u "threats");
    JStr (u "mitigations");
    JStr (u "risk_scores")
  ]) in
  let report := u "# STRIDE Threat Model Report

" in
  b_summary <- py_in (u "executive_summary") include_sections ;;
  let report := if b_summary then report ++ u "## Executive Summary

*This section should provide a high-level overview of the threat modeling exercise, key findings, and recommended actions.*

**Instructions for LLM client:**
- Summarize the total number of threats identified across STRIDE categories
- Highlight critical and high-priority threats
- Provide key recommendations for immediate action
- Include risk assessment summary

" else report in
  let report := report ++ u "## Application Overview

*Describe the application architecture, components, and security-relevant characteristics based on the application context used for threat modeling.*

" in
  b_threats <- py_in (u "threats") include_sections ;;
  let report := if b_threats then report ++ u "## Threat Analysis

*Detail the identified threats organized by STRIDE category. For each threat, include:*
- Threat ID
- Description
- STRIDE category
- Attack scenarios
- Potential impact

### Spoofing Threats
*List and describe spoofing-related threats (identity impersonation, authentication bypass)*

### Tampering Threats
*List and describe tampering-related threats (data/code modification)*

### Repudiation Threats
*List and describe repudiation-related threats (insufficient logging, accountability gaps)*

### Information Disclosure Threats
*List and describe information disclosure threats (unauthorized data access, privacy violations)*

### Denial of Service Threats
*List and describe denial of service threats (resource exhaustion, availability attacks)*

### Elevation of Privilege Threats
*List and describe privilege escalation threats (authorization bypass, access control violations)*

" else report in
  b_risk <- py_in (u "risk_scores") include_sections ;;
  let report := if b_risk then report ++ u "## Risk Assessment

*Provide DREAD scores and risk prioritization for identified threats.*

### Critical Priority Threats (DREAD: 40-50)
*Threats requiring immediate action*

### High Priority Threats (DREAD: 30-39)
*Threats requiring prompt remediation*

### Medium Priority Threats (DREAD: 20-29)
*Threats for near-term planning*

### Low Priority Threats (DREAD: 5-19)
*Threats for long-term consideration*

" else report in
  b_mitigations <- py_in (u "mitigations") include_sections ;;
  let report := if b_mitigations then report ++ u "## Recommended Mitigations

*Detail specific mitigation strategies organized by priority. For each mitigation:*
- Control type (Preventive/Detective/Corrective)
- Implementation difficulty (Easy/Medium/Hard)
- Priority level
- Specific implementation guidance

### High Priority Mitigations
*Critical security controls for immediate implementation*

### Medium Priority Mitigations
*Important controls for near-term planning*

### Low Priority Mitigations
*Additional defensive measures for comprehensive security*

" else report in
  let threat_count :=
    match threat_model with
    | JArr xs => Z.of_nat (List.length xs)
    | _ => 0
    end in
  let report := report ++ str_format (u "## Security Testing Plan

*Outline test cases to validate mitigation effectiveness. Include:*
- Test scenarios for each major threat
- Acceptance criteria
- Testing methodology (unit, integration, penetration)

## Implementation Roadmap

*Provide timeline and sequencing for mitigation implementation:*
- Phase 1 (0-30 days): Critical mitigations
- Phase 2 (30-90 days): High-priority mitigations
- Phase 3 (90+ days): Medium and low-priority mitigations

## Appendix

### Threat Model Data
*Technical details about the threat model*

**Total Threats Identified:** {threat_count}

### STRIDE Coverage
*Breakdown of threats by STRIDE category*

### References
*Standards, frameworks, and resources referenced*
- STRIDE Threat Modeling Methodology
- DREAD Risk Assessment Framework
- OWASP Top 10
- CWE/SANS Top 25

---

**Report Generated:** [Date]
**Threat Modeling Framework:** STRIDE
**Risk Scoring Method:** DREAD

*This report was generated using the STRIDE GPT MCP Server threat modeling framework. The LLM client should populate each section with specific analysis based on the provided threat model data.*
") (u "threat_count") (str_of_Z threat_count) in
  ret report.

Definition validate_threat_coverage (args : json) : PyM json :=
  args_d <- as_dict args ;;
  let threat_model := dict_get_default args_d (u "threat_model") (JArr []) in
  let app_context := dict_get_default args_d (u "app_context") (JObj []) in
  ret (JObj [
    (u "coverage_framework", JObj [
      (u "description", JStr (u "Systematic validation of STRIDE threat model completeness"));
      (u "stride_categories", JObj [
        (u "S", JStr (u "Spoofing - Verify all identity-related threats are considered"));
        (u "T", JStr (u "Tampering - Verify all data/code integrity threats are considered"));
        (u "R", JStr (u "Repudiation - Verify all accountability threats are considered"));
        (u "I", JStr (u "Information Disclosure - Verify all confidentiality threats are considered"));
        (u "D", JStr (u "Denial of Service - Verify all availability threats are considered"));
        (u "E", JStr (u "Elevation of Privilege - Verify all authorization threats are considered"))
      ]);
      (u "validation_criteria", JObj [
        (u "completeness", JStr (u "All STRIDE categories addressed for each trust boundary"));
        (u "specificity", JStr (u "Threats are specific to the application context"));
        (u "actionability", JStr (u "Threats lead to implementable mitigations"));
        (u "risk_alignment", JStr (u "High-risk threats receive appropriate attention"))
      ]);
      (u "common_gaps", JObj [
        (u "trust_boundaries", JStr (u "Missing threats at component interfaces"));
        (u "data_flows", JStr (u "Insufficient consideration of data in transit"));
        (u "privileged_operations", JStr (u "Inadequate coverage of admin functions"));
        (u "error_conditions", JStr (u "Missing threat consideration for edge cases"))
      ])
    ]);
    (u "threat_model", threat_model);
    (u "app_context", app_context);
    (u "analysis_guidance", JStr (u "Review the threat model against this framework to identify coverage gaps. Ensure each STRIDE category is adequately represented for all trust boundaries and data flows."))
  ]).

Definition get_repository_analysis_guide (args : json) : PyM json :=
  args_d <- as_dict args ;;
  let analysis_stage := dict_get_default args_d (u "analysis_stage") (JStr (u "initial")) in
  let repo_context := dict_get_default args_d (u "repository_context") (JObj []) in
  let base_framework := [
    (u "analysis_framework", JObj [
      (u "description", JStr (u "Structured approach to repository analysis for threat modeling"));
      (u "stages", JObj [
        (u "initial", JObj [
          (u "objective", JStr (u "Quick scan to understand tech stack, architecture, and deployment model"));
          (u "target_files", JStr (u "3-5 key files"));
          (u "focus", JStr (u "High-level only"));
          (u "output", JStr (u "Tech stack, deployment model, basic architecture"))
        ]);
        (u "deep_dive", JObj [
          (u "objective", JStr (u "Extract detailed security context for threat modeling"));
          (u "target_files", JStr (u "10-15 targeted files/searches"));
          (u "focus", JStr (u "Security-critical components only"));
          (u "output", JStr (u "Trust boundaries, sensitive data, access controls"))
        ]);
        (u "validation", JObj [
          (u "objective", JStr (u "Verify sufficient context for threat modeling"));
          (u "target_files", JStr (u "Review completeness"));
          (u "output", JStr (u "Readiness assessment or identified gaps"))
        ])
      ])
    ]);
    (u "context_management", JObj [
      (u "description", JStr (u "Efficient analysis principles to preserve context for threat modeling"));
      (u "optimization_principles", JArr [
        JStr (u "When in doubt, search instead of read");
        JStr (u "STOP after 3-5 file reads in initial stage - assess readiness");
        JStr (u "STOP after 8-12 searches/reads in deep_dive - assess readiness");
        JStr (u "Don't re-read files - reference previous reads by file path");
        JStr (u "Search returns snippets; full reads return entire files");
        JStr (u "Use file path references in threat descriptions, not code snippets")
      ]);
      (u "stopping_checkpoints", JObj [
        (u "after_initial", JStr (u "After 3-5 file reads, STOP and ask: Can I identify app type, tech stack, deployment model? If yes, proceed to deep_dive. If no, read 1-2 more specific files."));
        (u "after_deep_dive", JStr (u "After 8-12 searches/reads, STOP and ask: Can I populate the output_template fields? If yes, start threat modeling. If no, search for specific missing info only."));
        (u "principle", JStr (u "Don't read for completeness - read until you have enough. More files = wasted context."))
      ]);
      (u "decision_guidance", JObj [
        (u "read_full_file_when", JArr [
          JStr (u "You need specific configuration values (.env.example, config files)");
          JStr (u "File type is typically small (package.json, docker-compose.yml, README)");
          JStr (u "You need the complete architecture overview")
        ]);
        (u "use_search_when", JArr [
          JStr (u "Looking for patterns (authentication methods, authorization checks)");
          JStr (u "Examining application code (controllers, services, middleware)");
          JStr (u "File type is typically large (application logic, route handlers)");
          JStr (u "You need to understand 'how' something works, not specific values")
        ])
      ])
    ])
  ] in
  base_framework <-
    (if is_str analysis_stage (u "initial") then
       let base_framework :=
         dict_setitem base_framework (u "prioritized_reading_strategy") (JObj [
          (u "description", JStr (u "File reading strategy based on information value and typical file sizes"));
          (u "read_these_files", JObj [
            (u "priority", JStr (u "Read first - typically small with high information density"));
            (u "files", JArr [
              JStr (u "README.md - architecture overview");
              JStr (u "package.json / requirements.txt / pom.xml - tech stack identification");
              JStr (u "docker-compose.yml / Dockerfile - deployment model");
              JStr (u ".env.example - integrations and required services")
            ]);
            (u "characteristics", JStr (u "Config and documentation files are usually small, contain specific values needed for threat modeling"));
            (u "method", JStr (u "Use mcp__github__get_file_contents"))
          ]);
          (u "search_instead_of_read", JObj [
            (u "priority", JStr (u "Use code search to extract relevant snippets - avoid full reads"));
            (u "patterns", JArr [
              JStr (u "OpenAPI/Swagger specs - search for endpoint definitions");
              JStr (u "Auth middleware - search for 'authenticate' OR 'jwt.verify' patterns");
              JStr (u "Database models - search for 'model' OR 'schema' patterns");
              JStr (u "Controllers/routes - search for specific endpoints or patterns")
            ]);
            (u "characteristics", JStr (u "Application code files are typically large; search gives you relevant snippets without full file content"));
            (u "method", JStr (u "Use mcp__github__search_code with targeted queries"))
          ]);
          (u "avoid_or_skip", JObj [
            (u "priority", JStr (u "Never read these fully - always use search or skip entirely"));
            (u "files", JArr [
              JStr (u "Application code files (controllers, services, handlers) - search instead");
              JStr (u "Database migrations - infer schema from models or search");
              JStr (u "Test files - usually not needed for threat modeling");
              JStr (u "Generated code / build artifacts - not relevant");
              JStr (u "Large documentation files - search for specific sections if needed")
            ]);
            (u "alternative", JStr (u "Use mcp__github__search_code with specific keywords"))
          ])
        ]) in
       ret (dict_setitem base_framework (u "initial_reconnaissance") (JObj [
          (u "files_to_examine_first", JObj [
            (u "documentation", JArr [
              JStr (u "README.md");
              JStr (u "ARCHITECTURE.md");
              JStr (u "docs/architecture.*");
              JStr (u "docs/design.*")
            ]);
            (u "package_managers", JArr [
              JStr (u "package.json");
              JStr (u "requirements.txt");
              JStr (u "pom.xml");
              JStr (u "Cargo.toml");
              JStr (u "go.mod");
              JStr (u "Gemfile");
              JStr (u "composer.json")
            ]);
            (u "containerization", JArr [
              JStr (u "docker-compose.yml");
              JStr (u "Dockerfile");
              JStr (u "docker-compose.yaml");
              JStr (u ".dockerignore")
            ]);
            (u "configuration", JArr [
              JStr (u ".env.example");
              JStr (u "config/");
              JStr (u "*.config.js");
              JStr (u "*.config.ts");
              JStr (u "application.yml");
              JStr (u "appsettings.json")
            ]);
            (u "infrastructure", JArr [
              JStr (u "terraform/");
              JStr (u "*.tf");
              JStr (u "cloudformation/");
              JStr (u "*.yaml");
              JStr (u "kubernetes/");
              JStr (u "k8s/");
              JStr (u ".github/workflows/");
              JStr (u ".gitlab-ci.yml")
            ]);
            (u "api_specs", JArr [
              JStr (u "openapi.yaml");
              JStr (u "swagger.json");
              JStr (u "schema.graphql");
              JStr (u "*.proto")
            ])
          ]);
          (u "extraction_patterns", JObj [
            (u "authentication_mechanisms", JObj [
              (u "JWT", JArr [
                JStr (u "jsonwebtoken");
                JStr (u "pyjwt");
                JStr (u "jose");
                JStr (u "jwt-decode");
                JStr (u "auth0")
              ]);
              (u "OAuth_2.0", JArr [
                JStr (u "passport");
                JStr (u "passport-oauth2");
                JStr (u "authlib");
                JStr (u "spring-security-oauth2");
                JStr (u "oauth2client")
              ]);
              (u "Session-based", JArr [
                JStr (u "express-session");
                JStr (u "django.contrib.sessions");
                JStr (u "flask-session");
                JStr (u "rack-session")
              ]);
              (u "API_Keys", JArr [
                JStr (u "API key validation patterns in code");
                JStr (u "x-api-key headers")
              ]);
              (u "SAML_SSO", JArr [JStr (u "saml2"); JStr (u "passport-saml"); JStr (u "ruby-saml")]);
              (u "Multi-factor", JArr [
                JStr (u "speakeasy");
                JStr (u "pyotp");
                JStr (u "authy");
                JStr (u "totp")
              ])
            ]);
            (u "deployment_model", JObj [
              (u "Containerized_microservices", JArr [
                JStr (u "Dockerfile AND kubernetes/");
                JStr (u "docker-compose with multiple services")
              ]);
              (u "Serverless_functions", JArr [
                JStr (u "serverless.yml");
                JStr (u "sam-template.yaml");
                JStr (u "netlify.toml");
                JStr (u "vercel.json with functions")
              ]);
              (u "Multi-container_application", JArr [JStr (u "docker-compose.yml with multiple services")]);
              (u "Client-side_SPA", JArr [
                JStr (u "Static hosting config");
                JStr (u "Build output to dist/ or build/")
              ]);
              (u "Traditional_server", JArr [
                JStr (u "Server configuration files");
                JStr (u "No containerization")
              ])
            ]);
            (u "technology_stack", JObj [
              (u "Frontend", JObj [
                (u "React", JArr [JStr (u "react"); JStr (u "react-dom in dependencies")]);
                (u "Vue", JArr [JStr (u "vue in dependencies")]);
                (u "Angular", JArr [JStr (u "@angular/core")]);
                (u "Svelte", JArr [JStr (u "svelte in dependencies")]);
                (u "Next.js", JArr [JStr (u "next in dependencies")])
              ]);
              (u "Backend", JObj [
                (u "Express", JArr [JStr (u "express in dependencies")]);
                (u "FastAPI", JArr [JStr (u "fastapi in requirements")]);
                (u "Django", JArr [JStr (u "django in requirements")]);
                (u "Spring_Boot", JArr [JStr (u "spring-boot in pom.xml/gradle")]);
                (u "Rails", JArr [JStr (u "rails in Gemfile")]);
                (u "Flask", JArr [JStr (u "flask in requirements")])
              ]);
              (u "Database", JObj [
                (u "PostgreSQL", JArr [JStr (u "pg"); JStr (u "psycopg2"); JStr (u "postgresql")]);
                (u "MongoDB", JArr [JStr (u "mongodb"); JStr (u "mongoose"); JStr (u "pymongo")]);
                (u "MySQL", JArr [JStr (u "mysql"); JStr (u "mysql2"); JStr (u "mysqlclient")]);
                (u "Redis", JArr [JStr (u "redis"); JStr (u "ioredis")]);
                (u "DynamoDB", JArr [JStr (u "aws-sdk dynamodb"); JStr (u "boto3 dynamodb")])
              ]);
              (u "Message_Queues", JArr [
                JStr (u "rabbitmq");
                JStr (u "kafka");
                JStr (u "aws-sdk sqs");
                JStr (u "celery")
              ]);
              (u "Caching", JArr [JStr (u "redis"); JStr (u "memcached"); JStr (u "node-cache")])
            ])
          ])
        ]))
     else if is_str analysis_stage (u "deep_dive") then
       repo_context_d <- as_dict repo_context ;;
       primary_lang <- py_lower (dict_get_default repo_context_d (u "primary_language") (JStr [])) ;;
       repo_context_d <- as_dict repo_context ;;
       framework <- py_lower (dict_get_default repo_context_d (u "framework_detected") (JStr [])) ;;
       let base_framework :=
         dict_setitem base_framework (u "deep_dive_analysis") (JObj [
          (u "trust_boundaries", JObj [
            (u "external_boundaries", JObj [
              (u "description", JStr (u "Entry points from untrusted sources"));
              (u "locations_to_examine", JArr [
                JStr (u "Public API endpoints (routes, controllers, handlers)");
                JStr (u "Authentication entry points (login, registration, password reset)");
                JStr (u "File upload handlers and multipart form processors");
                JStr (u "Webhook receivers and callback endpoints");
                JStr (u "GraphQL/gRPC/WebSocket endpoints");
                JStr (u "Public-facing web pages and forms")
              ])
            ]);
            (u "internal_boundaries", JObj [
              (u "description", JStr (u "Trust transitions within the system"));
              (u "locations_to_examine", JArr [
                JStr (u "Service-to-service communication (microservices)");
                JStr (u "Database access layers and query builders");
                JStr (u "Admin/privileged functionality and dashboards");
                JStr (u "Background job processors and queues");
                JStr (u "Third-party API integrations and SDKs");
                JStr (u "Shared libraries and common modules")
              ])
            ])
          ]);
          (u "code_patterns_to_analyze", JObj [
            (u "sensitive_data_handling", JObj [
              (u "user_models", JStr (u "Models/schemas with email, password, name, address, phone, SSN"));
              (u "payment_processing", JStr (u "Stripe, PayPal, payment gateway integrations"));
              (u "healthcare_data", JStr (u "HIPAA-related fields, patient records, PHI"));
              (u "financial_data", JStr (u "Transaction models, account balances, trading data"));
              (u "credentials_secrets", JStr (u "API keys, tokens, certificates, encryption keys"));
              (u "files_to_check", JArr [
                JStr (u "models/");
                JStr (u "schemas/");
                JStr (u "entities/");
                JStr (u "domain/");
                JStr (u "database/migrations/")
              ])
            ]);
            (u "access_control_patterns", JObj [
              (u "middleware_decorators", JStr (u "@require_auth, @admin_only, @permission_required, authenticate middleware"));
              (u "rbac_implementations", JStr (u "Role and permission models, access control lists"));
              (u "row_level_security", JStr (u "Multi-tenancy, data isolation patterns"));
              (u "admin_functionality", JStr (u "Admin panels, privileged operations"));
              (u "files_to_check", JArr [
                JStr (u "middleware/");
                JStr (u "decorators/");
                JStr (u "guards/");
                JStr (u "policies/");
                JStr (u "permissions/")
              ])
            ]);
            (u "data_flow_analysis", JObj [
              (u "request_handling", JStr (u "Request " ++ [8594] ++ u " Validation " ++ [8594] ++ u " Processing " ++ [8594] ++ u " Storage flow"));
              (u "user_input", JStr (u "Form handling, API body parsing, query parameters"));
              (u "serialization", JStr (u "Data transformation, API responses, template rendering"));
              (u "logging_audit", JStr (u "Security event logging, audit trails, activity logs"));
              (u "files_to_check", JArr [
                JStr (u "routes/");
                JStr (u "controllers/");
                JStr (u "handlers/");
                JStr (u "api/");
                JStr (u "views/")
              ])
            ]);
            (u "external_dependencies", JObj [
              (u "third_party_apis", JStr (u "Payment, authentication, analytics services"));
              (u "cloud_services", JStr (u "AWS S3, SQS, Lambda, Azure, GCP services"));
              (u "cdn_assets", JStr (u "Static asset hosting, CDN configuration"));
              (u "communication", JStr (u "Email (SendGrid, SES), SMS (Twilio)"));
              (u "monitoring", JStr (u "Sentry, DataDog, New Relic, logging services"));
              (u "files_to_check", JArr [
                JStr (u "package.json/requirements.txt dependencies");
                JStr (u "config/");
                JStr (u "services/");
                JStr (u "integrations/")
              ])
            ])
          ])
        ]) in
       ret (dict_setitem base_framework (u "technology_guides") (JObj [
          (u "web_applications", JObj [
            (u "applicable_if", JStr (u "React/Vue/Angular + Node.js/Django/Rails + Database"));
            (u "key_files", JArr [
              JStr (u "src/routes/ or src/controllers/ - API endpoints and routing");
              JStr (u "src/middleware/auth.* - Authentication and authorization");
              JStr (u "src/models/ or src/schemas/ - Database schemas and sensitive fields");
              JStr (u "src/services/ - Business logic and external integrations");
              JStr (u ".env.example - Configuration template and required secrets")
            ]);
            (u "security_focus", JArr [
              JStr (u "API authentication and authorization patterns");
              JStr (u "CORS configuration and origin validation");
              JStr (u "Session management and token handling");
              JStr (u "Input validation and sanitization libraries");
              JStr (u "Database query patterns (prepared statements vs. string concatenation)")
            ])
          ]);
          (u "api_services", JObj [
            (u "applicable_if", JStr (u "FastAPI, Express, Django REST, Spring Boot, ASP.NET Core"));
            (u "key_files", JArr [
              JStr (u "Route/endpoint definitions and handlers");
              JStr (u "Authentication middleware and security filters");
              JStr (u "Input validation schemas (Pydantic, Joi, Bean Validation)");
              JStr (u "Database ORM models and repositories");
              JStr (u "API documentation (OpenAPI/Swagger specs)")
            ]);
            (u "security_focus", JArr [
              JStr (u "OAuth 2.0 / JWT implementation and validation");
              JStr (u "Rate limiting and request throttling");
              JStr (u "API versioning and backward compatibility");
              JStr (u "Input validation and type safety");
              JStr (u "Error handling and information disclosure prevention")
            ])
          ]);
          (u "cloud_infrastructure", JObj [
            (u "applicable_if", JStr (u "Terraform, CloudFormation, Pulumi, CDK"));
            (u "key_files", JArr [
              JStr (u "*.tf or *.yaml - Infrastructure definitions");
              JStr (u "IAM roles, policies, and permission boundaries");
              JStr (u "Security groups, NACLs, firewall rules");
              JStr (u "KMS keys and secrets management configuration");
              JStr (u "CI/CD pipeline definitions and deployment workflows")
            ]);
            (u "security_focus", JArr [
              JStr (u "IAM least privilege principle");
              JStr (u "Network segmentation and isolation");
              JStr (u "Encryption in transit (TLS) and at rest (KMS)");
              JStr (u "Secrets rotation and management");
              JStr (u "Resource exposure (public vs. private endpoints)")
            ])
          ]);
          (u "ai_ml_systems", JObj [
            (u "applicable_if", JStr (u "Python ML stack, LangChain, vector databases, model serving"));
            (u "key_files", JArr [
              JStr (u "Model serving and inference code");
              JStr (u "Training pipelines and data preprocessing");
              JStr (u "Vector database configurations (Pinecone, Weaviate, ChromaDB)");
              JStr (u "RAG system implementations and prompt templates");
              JStr (u "Agent/tool configurations and permissions")
            ]);
            (u "security_focus", JArr [
              JStr (u "Prompt injection and jailbreak vectors");
              JStr (u "Training data provenance and validation");
              JStr (u "Model access controls and API authentication");
              JStr (u "Inference API rate limiting and abuse prevention");
              JStr (u "AI agent boundaries, tool permissions, and autonomy limits")
            ])
          ]);
          (u "mobile_applications", JObj [
            (u "applicable_if", JStr (u "React Native, Flutter, iOS/Android native"));
            (u "key_files", JArr [
              JStr (u "API client and network layer");
              JStr (u "Local storage and keychain/keystore usage");
              JStr (u "Authentication and token management");
              JStr (u "Deep linking and URL scheme handling");
              JStr (u "App permissions and entitlements")
            ]);
            (u "security_focus", JArr [
              JStr (u "Certificate pinning and TLS validation");
              JStr (u "Secure local storage (encrypted databases)");
              JStr (u "Token storage in secure enclaves");
              JStr (u "Code obfuscation and reverse engineering protection");
              JStr (u "Platform-specific security features (biometrics, sandboxing)")
            ])
          ])
        ]))
     else if is_str analysis_stage (u "validation") then
       ret (dict_setitem base_framework (u "validation_checklist") (JObj [
          (u "architecture_understanding", JObj [
            (u "application_type", JStr (u "Web app, API, mobile, infrastructure, AI/ML system identified"));
            (u "technology_stack", JStr (u "Primary languages, frameworks, and platforms documented"));
            (u "deployment_model", JStr (u "Cloud, on-premise, hybrid, serverless determined"));
            (u "system_components", JStr (u "Major components and their interactions mapped"))
          ]);
          (u "security_context", JObj [
            (u "authentication_methods", JStr (u "All auth mechanisms identified (JWT, OAuth, sessions, etc.)"));
            (u "authorization_approach", JStr (u "RBAC, ABAC, or custom authorization understood"));
            (u "sensitive_data_types", JStr (u "PII, payment data, health data, credentials catalogued"));
            (u "trust_boundaries", JStr (u "External and internal boundaries identified"));
            (u "external_dependencies", JStr (u "Third-party services and APIs mapped"))
          ]);
          (u "deployment_operations", JObj [
            (u "internet_exposure", JStr (u "Public, private, or hybrid exposure determined"));
            (u "infrastructure_config", JStr (u "Cloud resources, networking, security groups analyzed"));
            (u "cicd_security", JStr (u "Deployment pipeline and artifact security reviewed"));
            (u "secrets_management", JStr (u "How secrets are stored and accessed identified"))
          ]);
          (u "readiness_assessment", JObj [
            (u "minimum_requirements", JArr [
              JStr (u "app_description can be written (2-4 sentences)");
              JStr (u "app_type is clear");
              JStr (u "At least one authentication_method identified");
              JStr (u "internet_facing status is known");
              JStr (u "At least one sensitive_data_type identified")
            ]);
            (u "quality_indicators", JArr [
              JStr (u "Trust boundaries are clearly understood");
              JStr (u "Data flow patterns have been traced");
              JStr (u "External dependencies are documented");
              JStr (u "Access control patterns are identified")
            ])
          ])
        ]))
     else ret base_framework) ;;
  let base_framework := dict_setitem base_framework (u "output_template") (JObj [
      (u "description", JStr (u "Structured format for calling get_stride_threat_framework"));
      (u "threat_modeling_input", JObj [
        (u "app_description", JObj [
          (u "template", JStr (u "[App Type] with [Key Components]. Uses [Frontend Tech] frontend, [Backend Tech] backend, [Database Tech] for persistence. Handles [Key Functionality]. Deployed as [Deployment Model]. Integrates with [External Services]."));
          (u "example", JStr (u "E-commerce web application with product catalog, shopping cart, and checkout. Uses React frontend, Node.js/Express backend, PostgreSQL for persistence. Handles payment processing via Stripe. Deployed as Docker containers on AWS ECS. Integrates with SendGrid for emails and S3 for product images."));
          (u "extraction_guidance", JStr (u "Synthesize repository analysis into a concise architectural description (2-4 sentences) focusing on components, data flows, and external dependencies."))
        ]);
        (u "app_type", JObj [
          (u "valid_values", JArr [
            JStr (u "Web Application");
            JStr (u "API Service");
            JStr (u "Mobile Application");
            JStr (u "Cloud Infrastructure");
            JStr (u "AI/ML System");
            JStr (u "IoT System")
          ]);
          (u "extraction_guidance", JStr (u "Choose the primary application category based on repository structure and purpose."))
        ]);
        (u "authentication_methods", JObj [
          (u "common_patterns", JObj [
            (u "JWT", JArr [JStr (u "jsonwebtoken"); JStr (u "pyjwt"); JStr (u "jose libraries")]);
            (u "OAuth 2.0", JArr [
              JStr (u "passport");
              JStr (u "authlib");
              JStr (u "spring-security-oauth2")
            ]);
            (u "Session-based", JArr [JStr (u "express-session"); JStr (u "django.contrib.sessions")]);
            (u "API Keys", JArr [JStr (u "API key validation in headers/query params")]);
            (u "Multi-factor", JArr [JStr (u "speakeasy"); JStr (u "pyotp"); JStr (u "authy")]);
            (u "None/Public", JArr [JStr (u "No authentication found - public API or static site")])
          ]);
          (u "extraction_guidance", JStr (u "Identify ALL authentication mechanisms by analyzing auth middleware, security configuration, and dependency usage. Provide as an array."))
        ]);
        (u "internet_facing", JObj [
          (u "indicators", JObj [
            (u "true", JArr [
              JStr (u "Public API endpoints");
              JStr (u "Frontend assets");
              JStr (u "CDN configuration");
              JStr (u "Public load balancers");
              JStr (u "Domain/DNS configuration")
            ]);
            (u "false", JArr [
              JStr (u "VPN requirements");
              JStr (u "Private subnets only");
              JStr (u "Internal service mesh");
              JStr (u "No public ingress");
              JStr (u "Localhost only")
            ]);
            (u "partial", JArr [
              JStr (u "Admin panel behind VPN");
              JStr (u "Public API + private admin");
              JStr (u "Hybrid architecture")
            ])
          ]);
          (u "extraction_guidance", JStr (u "Analyze deployment configuration and network architecture to determine internet exposure. Use boolean true/false."))
        ]);
        (u "sensitive_data_types", JObj [
          (u "detection_patterns", JObj [
            (u "PII", JArr [
              JStr (u "User models with email, name, address, phone");
              JStr (u "GDPR compliance mentions")
            ]);
            (u "Payment Cards", JArr [
              JStr (u "Stripe/PayPal integration");
              JStr (u "PCI compliance references");
              JStr (u "Payment/transaction models")
            ]);
            (u "Healthcare Data", JArr [
              JStr (u "HIPAA compliance");
              JStr (u "Patient/medical record models");
              JStr (u "PHI handling")
            ]);
            (u "Authentication Credentials", JArr [
              JStr (u "Password hashing");
              JStr (u "Token storage");
              JStr (u "Session data")
            ]);
            (u "Financial Data", JArr [
              JStr (u "Transaction models");
              JStr (u "Account balances");
              JStr (u "Trading/investment data")
            ]);
            (u "Proprietary Data", JArr [
              JStr (u "Trade secrets");
              JStr (u "Algorithms");
              JStr (u "Business logic");
              JStr (u "Source code")
            ])
          ]);
          (u "extraction_guidance", JStr (u "Examine data models, API payloads, and compliance documentation to identify ALL sensitive data types. Provide as an array."))
        ])
      ]);
      (u "validation", JObj [
        (u "description", JStr (u "Verify extraction completeness before calling get_stride_threat_framework"));
        (u "required_fields", JArr [
          JStr (u "app_description");
          JStr (u "app_type");
          JStr (u "authentication_methods");
          JStr (u "internet_facing");
          JStr (u "sensitive_data_types")
        ]);
        (u "quality_checks", JObj [
          (u "app_description", JStr (u "Should be 2-4 sentences covering architecture, components, and key functionality"));
          (u "authentication_methods", JStr (u "At least one method identified, or explicitly state ['None/Public'] if truly unauthenticated"));
          (u "sensitive_data_types", JStr (u "At least one type identified based on data models and functionality, or ['User Data'] as minimum"))
        ])
      ])
    ]) in
  let base_framework := dict_setitem base_framework (u "github_mcp_integration") (JObj [
      (u "description", JStr (u "Optimized workflow using GitHub MCP server - prefer search over full file reads"));
      (u "initial_stage_workflow", JObj [
        (u "step_1", JObj [
          (u "tool", JStr (u "mcp__github__get_file_contents"));
          (u "params_example", JStr (u "{" ++ dq ++ u "owner" ++ dq ++ u ": " ++ dq ++ u "org" ++ dq ++ u ", " ++ dq ++ u "repo" ++ dq ++ u ": " ++ dq ++ u "repo" ++ dq ++ u ", " ++ dq ++ u "path" ++ dq ++ u ": " ++ dq ++ u "README.md" ++ dq ++ u "}"));
          (u "purpose", JStr (u "Architecture overview"));
          (u "rationale", JStr (u "README files contain structured overview; worth reading in full"))
        ]);
        (u "step_2", JObj [
          (u "tool", JStr (u "mcp__github__get_file_contents"));
          (u "params_example", JStr (u "{" ++ dq ++ u "owner" ++ dq ++ u ": " ++ dq ++ u "org" ++ dq ++ u ", " ++ dq ++ u "repo" ++ dq ++ u ": " ++ dq ++ u "repo" ++ dq ++ u ", " ++ dq ++ u "path" ++ dq ++ u ": " ++ dq ++ u "package.json" ++ dq ++ u "}"));
          (u "purpose", JStr (u "Tech stack identification"));
          (u "rationale", JStr (u "Package manifests are typically small config files"))
        ]);
        (u "step_3", JObj [
          (u "tool", JStr (u "mcp__github__get_file_contents"));
          (u "params_example", JStr (u "{" ++ dq ++ u "owner" ++ dq ++ u ": " ++ dq ++ u "org" ++ dq ++ u ", " ++ dq ++ u "repo" ++ dq ++ u ": " ++ dq ++ u "repo" ++ dq ++ u ", " ++ dq ++ u "path" ++ dq ++ u ": " ++ dq ++ u "docker-compose.yml" ++ dq ++ u "}"));
          (u "purpose", JStr (u "Deployment model"));
          (u "rationale", JStr (u "Docker configs are small, contain specific deployment info"))
        ]);
        (u "checkpoint", JObj [
          (u "action", JStr (u "STOP - Can you identify: app type, tech stack, deployment model?"));
          (u "if_yes", JStr (u "Proceed to deep_dive stage"));
          (u "if_no", JStr (u "Read .env.example or one more config file, then proceed"))
        ])
      ]);
      (u "deep_dive_workflow", JObj [
        (u "prefer_search_for_patterns", JObj [
          (u "authentication", JObj [
            (u "tool", JStr (u "mcp__github__search_code"));
            (u "query", JStr (u "repo:org/repo " ++ dq ++ u "passport.authenticate" ++ dq ++ u " OR " ++ dq ++ u "jwt.verify" ++ dq));
            (u "rationale", JStr (u "Search returns relevant auth code snippets without full middleware files"))
          ]);
          (u "data_models", JObj [
            (u "tool", JStr (u "mcp__github__search_code"));
            (u "query", JStr (u "repo:org/repo path:models/ OR path:schemas/"));
            (u "rationale", JStr (u "Search shows model structure without full file content"))
          ]);
          (u "authorization", JObj [
            (u "tool", JStr (u "mcp__github__search_code"));
            (u "query", JStr (u "repo:org/repo " ++ dq ++ u "@require" ++ dq ++ u " OR " ++ dq ++ u "@admin" ++ dq ++ u " OR " ++ dq ++ u "authorize" ++ dq));
            (u "rationale", JStr (u "Search finds authorization patterns across codebase"))
          ])
        ]);
        (u "read_for_specific_values", JObj [
          (u "configuration", JObj [
            (u "tool", JStr (u "mcp__github__get_file_contents"));
            (u "path", JStr (u ".env.example"));
            (u "rationale", JStr (u "Config files are small and contain specific integration details"))
          ])
        ]);
        (u "checkpoint", JObj [
          (u "action", JStr (u "STOP after 8-12 searches/reads - Can you populate output_template fields?"));
          (u "if_yes", JStr (u "Start threat modeling with get_stride_threat_framework"));
          (u "if_no", JStr (u "Do 1-2 targeted searches for specific missing info only"))
        ])
      ]);
      (u "search_patterns", JObj [
        (u "authentication", JStr (u "repo:owner/repo " ++ dq ++ u "jwt.verify" ++ dq ++ u " OR " ++ dq ++ u "passport.authenticate" ++ dq ++ u " OR " ++ dq ++ u "auth.check" ++ dq));
        (u "authorization", JStr (u "repo:owner/repo " ++ dq ++ u "@require" ++ dq ++ u " OR " ++ dq ++ u "@admin" ++ dq ++ u " OR " ++ dq ++ u "permission.check" ++ dq ++ u " OR " ++ dq ++ u "authorize" ++ dq));
        (u "sensitive_data", JStr (u "repo:owner/repo path:models/ " ++ dq ++ u "password" ++ dq ++ u " OR " ++ dq ++ u "email" ++ dq ++ u " OR " ++ dq ++ u "ssn" ++ dq ++ u " OR " ++ dq ++ u "credit_card" ++ dq));
        (u "input_validation", JStr (u "repo:owner/repo " ++ dq ++ u "validate(" ++ dq ++ u " OR " ++ dq ++ u "sanitize(" ++ dq ++ u " OR " ++ dq ++ u "escape(" ++ dq));
        (u "database_queries", JStr (u "repo:owner/repo " ++ dq ++ u "query(" ++ dq ++ u " OR " ++ dq ++ u "execute(" ++ dq ++ u " OR " ++ dq ++ u "SELECT" ++ dq ++ u " OR " ++ dq ++ u "INSERT" ++ dq));
        (u "api_endpoints", JStr (u "repo:owner/repo " ++ dq ++ u "app.get" ++ dq ++ u " OR " ++ dq ++ u "app.post" ++ dq ++ u " OR " ++ dq ++ u "@route" ++ dq ++ u " OR " ++ dq ++ u "@endpoint" ++ dq))
      ])
    ]) in
  let '(guidance, base_framework) :=
    if is_str analysis_stage (u "initial") then
      ((u "INITIAL RECONNAISSANCE STAGE:

1. Read 3-5 small, high-value files (README, package.json/requirements.txt, docker-compose.yml)
2. STOP after 3-5 file reads - assess readiness to proceed
3. Don't read for completeness - read until you have enough

Goal: Quickly identify app type, tech stack, and deployment model with minimal context usage.

Stopping Checkpoint: After 3-5 files, ask yourself:
- Can I identify the application type?
- Do I know the tech stack?
- Is the deployment model clear?

If YES " ++ [8594] ++ u " Proceed to deep_dive stage
If NO " ++ [8594] ++ u " Read 1-2 more specific files, then proceed anyway"),
       dict_setitem base_framework (u "next_steps") (JObj [
          (u "after_initial_analysis", JArr [
            JStr (u "STOP after 3-5 file reads");
            JStr (u "If you have: app type, tech stack, deployment model");
            JStr ([8594] ++ u " Proceed to analysis_stage='deep_dive'");
            JStr [];
            JStr (u "If missing critical info:");
            JStr ([8594] ++ u " Read 1-2 more targeted files, then proceed to deep_dive")
          ]);
          (u "stopping_checkpoint", JArr [
            JStr (u "After 3-5 file reads, STOP and assess");
            JStr (u "Don't read more files for completeness");
            JStr (u "Move to deep_dive even if some details are unclear")
          ]);
          (u "github_mcp_tips", JArr [
            JStr (u "Use mcp__github__get_file_contents for README.md, package.json/requirements.txt, docker-compose.yml");
            JStr (u "Config and documentation files are typically small; safe to read in full");
            JStr (u "STOP after 3-5 files - don't keep reading")
          ])
        ]))
    else if is_str analysis_stage (u "deep_dive") then
      ((u "DEEP DIVE ANALYSIS STAGE:

1. Use code SEARCH (not file reads) to find security patterns:
   - Search for authentication patterns (jwt.verify, passport.authenticate)
   - Search for data models (path:models/, path:schemas/)
   - Search for authorization patterns (@require, @admin, authorize)

2. Only read full files for configs (.env.example) - search application code instead

3. STOP after 8-12 searches/reads and assess readiness

Goal: Extract security context using targeted searches, not exhaustive file reading.

Stopping Checkpoint: After 8-12 searches/reads, ask yourself:
- Can I populate the output_template fields (auth methods, sensitive data, etc.)?
- Do I know enough about trust boundaries?

If YES " ++ [8594] ++ u " Proceed to validation stage
If NO " ++ [8594] ++ u " Do 1-2 targeted searches for specific missing info, then proceed anyway"),
       dict_setitem base_framework (u "next_steps") (JObj [
          (u "after_deep_dive", JArr [
            JStr (u "STOP after 8-12 searches/reads");
            JStr (u "If you can populate output_template fields:");
            JStr ([8594] ++ u " Proceed to analysis_stage='validation'");
            JStr [];
            JStr (u "If missing specific details:");
            JStr ([8594] ++ u " Do 1-2 targeted searches, then proceed to validation")
          ]);
          (u "stopping_checkpoint", JArr [
            JStr (u "After 8-12 searches/reads, STOP and assess");
            JStr (u "Don't search for completeness - search until you have enough");
            JStr (u "Move to validation even if some details are unclear")
          ]);
          (u "github_mcp_tips", JArr [
            JStr (u "PREFER mcp__github__search_code over mcp__github__get_file_contents");
            JStr (u "Search examples: 'repo:org/repo " ++ dq ++ u "jwt.verify" ++ dq ++ u " OR " ++ dq ++ u "passport.authenticate" ++ dq ++ u "'");
            JStr (u "Search returns relevant snippets; full reads return entire files");
            JStr (u "Only read full files for config/documentation; search application code")
          ])
        ]))
    else if is_str analysis_stage (u "validation") then
      ((u "VALIDATION STAGE:

Check if you can populate the minimum required fields for threat modeling:
- app_description (2-4 sentences)
- app_type
- authentication_methods (at least one)
- internet_facing (true/false)
- sensitive_data_types (at least one)

If YES " ++ [8594] ++ u " Call get_stride_threat_framework and start threat modeling
If NO " ++ [8594] ++ u " Do 1-2 targeted searches for missing info, then start threat modeling anyway

Don't aim for perfect information - aim for sufficient information to identify threats."),
       dict_setitem base_framework (u "next_steps") (JObj [
          (u "if_validation_passes", JArr [
            JStr (u "1. Format your findings using the output_template");
            JStr (u "2. Call get_stride_threat_framework with extracted data");
            JStr (u "3. Begin STRIDE threat identification")
          ]);
          (u "if_validation_fails", JArr [
            JStr (u "1. Identify 1-2 specific missing pieces");
            JStr (u "2. Do targeted searches for those specific items only");
            JStr (u "3. Proceed to threat modeling even if gaps remain")
          ]);
          (u "minimum_required_for_stride", JArr [
            JStr (u "app_description (2-4 sentences)");
            JStr (u "app_type (e.g., Web Application, API Service)");
            JStr (u "authentication_methods (at least one, or 'None/Public')");
            JStr (u "internet_facing (true/false)");
            JStr (u "sensitive_data_types (at least one, or 'User Data' as default)")
          ])
        ]))
    else
      (u "Unknown analysis stage. Valid stages: 'initial', 'deep_dive', 'validation'", base_framework) in
  let base_framework := dict_setitem base_framework (u "analysis_guidance") (JStr guidance) in
  let base_framework := dict_setitem base_framework (u "current_stage") analysis_stage in
  let base_framework := dict_setitem base_framework (u "repository_context") repo_context in
  ret (JObj base_framework).

(** ** The dispatcher ([handle_mcp_request]) *)

(** The tool descriptors listed by [tools/list]. *)
Definition tools : json := JArr [
    JObj [
      (u "name", JStr (u "get_stride_threat_framework"));
      (u "description", JStr (u "Get comprehensive STRIDE threat modeling framework and guidance for threat analysis"));
      (u "inputSchema", JObj [
        (u "type", JStr (u "object"));
        (u "properties", JObj [
          (u "app_description", JObj [
            (u "type", JStr (u "string"));
            (u "description", JStr (u "Detailed description of the application architecture and functionality"))
          ]);
          (u "app_type", JObj [
            (u "type", JStr (u "string"));
            (u "description", JStr (u "Type of application"));
            (u "default", JStr (u "Web Application"))
          ]);
          (u "authentication_methods", JObj [
            (u "type", JStr (u "array"));
            (u "items", JObj [
              (u "type", JStr (u "string"))
            ]);
            (u "description", JStr (u "List of authentication methods used"));
            (u "default", JArr [JStr (u "Username/Password")])
          ]);
          (u "internet_facing", JObj [
            (u "type", JStr (u "boolean"));
            (u "description", JStr (u "Whether the application is accessible from the internet"));
            (u "default", JBool true)
          ]);
          (u "sensitive_data_types", JObj [
            (u "type", JStr (u "array"));
            (u "items", JObj [
              (u "type", JStr (u "string"))
            ]);
            (u "description", JStr (u "Types of sensitive data handled"));
            (u "default", JArr [JStr (u "User Data")])
          ])
        ]);
        (u "required", JArr [JStr (u "app_description")])
      ])
    ];
    JObj [
      (u "name", JStr (u "generate_threat_mitigations"));
      (u "description", JStr (u "Generate actionable security mitigations for identified threats"));
      (u "inputSchema", JObj [
        (u "type", JStr (u "object"));
        (u "properties", JObj [
          (u "threats", JObj [
            (u "type", JStr (u "array"));
            (u "items", JObj [
              (u "type", JStr (u "object"));
              (u "additionalProperties", JBool true)
            ]);
            (u "description", JStr (u "Array of threat objects"))
          ]);
          (u "priority_filter", JObj [
            (u "type", JStr (u "string"));
            (u "description", JStr (u "Filter by priority"));
            (u "default", JStr (u "all"))
          ])
        ]);
        (u "required", JArr [JStr (u "threats")])
      ])
    ];
    JObj [
      (u "name", JStr (u "create_threat_attack_trees"));
      (u "description", JStr (u "Generate application-wide attack tree showing common attack vectors"));
      (u "inputSchema", JObj [
        (u "type", JStr (u "object"));
        (u "properties", JObj [
          (u "threats", JObj [
            (u "type", JStr (u "array"));
            (u "items", JObj [
              (u "type", JStr (u "object"));
              (u "additionalProperties", JBool true)
            ]);
            (u "description", JStr (u "Array of threat objects (used for context)"))
          ]);
          (u "max_depth", JObj [
            (u "type", JStr (u "integer"));
            (u "description", JStr (u "Maximum tree depth"));
            (u "default", JInt 3)
          ]);
          (u "output_format", JObj [
            (u "type", JStr (u "string"));
            (u "description", JStr (u "Output format"));
            (u "default", JStr (u "both"))
          ])
        ]);
        (u "required", JArr [JStr (u "threats")])
      ])
    ];
    JObj [
      (u "name", JStr (u "calculate_threat_risk_scores"));
      (u "description", JStr (u "Calculate DREAD risk scores to prioritize threats by severity"));
      (u "inputSchema", JObj [
        (u "type", JStr (u "object"));
        (u "properties", JObj [
          (u "threats", JObj [
            (u "type", JStr (u "array"));
            (u "items", JObj [
              (u "type", JStr (u "object"));
              (u "additionalProperties", JBool true)
            ]);
            (u "description", JStr (u "Array of threat objects"))
          ]);
          (u "scoring_guidance", JObj [
            (u "type", JStr (u "object"));
            (u "additionalProperties", JBool true);
            (u "description", JStr (u "Optional guidance for scoring adjustments"))
          ])
        ]);
        (u "required", JArr [JStr (u "threats")])
      ])
    ];
    JObj [
      (u "name", JStr (u "generate_security_tests"));
      (u "description", JStr (u "Generate security test cases to validate threat mitigations"));
      (u "inputSchema", JObj [
        (u "type", JStr (u "object"));
        (u "properties", JObj [
          (u "threats", JObj [
            (u "type", JStr (u "array"));
            (u "items", JObj [
              (u "type", JStr (u "object"));
              (u "additionalProperties", JBool true)
            ]);
            (u "description", JStr (u "Array of threat objects"))
          ]);
          (u "test_type", JObj [
            (u "type", JStr (u "string"));
            (u "description", JStr (u "Type of tests"));
            (u "default", JStr (u "mixed"))
          ]);
          (u "format_type", JObj [
            (u "type", JStr (u "string"));
            (u "description", JStr (u "Output format"));
            (u "default", JStr (u "gherkin"))
          ])
        ]);
        (u "required", JArr [JStr (u "threats")])
      ])
    ];
    JObj [
      (u "name", JStr (u "generate_threat_report"));
      (u "description", JStr (u "Format complete threat analysis as professional markdown report"));
      (u "inputSchema", JObj [
        (u "type", JStr (u "object"));
        (u "properties", JObj [
          (u "threat_model", JObj [
            (u "type", JStr (u "array"));
            (u "items", JObj [
              (u "type", JStr (u "object"));
              (u "additionalProperties", JBool true)
            ]);
            (u "description", JStr (u "Array of threat objects"))
          ]);
          (u "mitigations", JObj [
            (u "type", JStr (u "array"));
            (u "items", JObj [
              (u "type", JStr (u "object"));
              (u "additionalProperties", JBool true)
            ]);
            (u "description", JStr (u "Optional array of mitigation strategies"))
          ]);
          (u "dread_scores", JObj [
            (u "type", JStr (u "array"));
            (u "items", JObj [
              (u "type", JStr (u "object"));
              (u "additionalProperties", JBool true)
            ]);
            (u "description", JStr (u "Optional array of DREAD scores"))
          ]);
          (u "attack_trees", JObj [
            (u "type", JStr (u "array"));
            (u "items", JObj [
              (u "type", JStr (u "object"));
              (u "additionalProperties", JBool true)
            ]);
            (u "description", JStr (u "Optional array of attack trees"))
          ]);
          (u "include_sections", JObj [
            (u "type", JStr (u "array"));
            (u "items", JObj [
              (u "type", JStr (u "string"))
            ]);
            (u "description", JStr (u "Sections to include in report"));
            (u "default", JArr [
              JStr (u "executive_summary");
              JStr (u "threats");
              JStr (u "mitigations");
              JStr (u "risk_scores")
            ])
          ])
        ]);
        (u "required", JArr [JStr (u "threat_model")])
      ])
    ];
    JObj [
      (u "name", JStr (u "validate_threat_coverage"));
      (u "description", JStr (u "Validate STRIDE coverage completeness and suggest threat model enhancements"));
      (u "inputSchema", JObj [
        (u "type", JStr (u "object"));
        (u "properties", JObj [
          (u "threat_model", JObj [
            (u "type", JStr (u "array"));
            (u "items", JObj [
              (u "type", JStr (u "object"));
              (u "additionalProperties", JBool true)
            ]);
            (u "description", JStr (u "Array of threat objects to validate"))
          ]);
          (u "app_context", JObj [
            (u "type", JStr (u "object"));
            (u "additionalProperties", JBool true);
            (u "description", JStr (u "Application context information"))
          ])
        ]);
        (u "required", JArr [JStr (u "threat_model"); JStr (u "app_context")])
      ])
    ];
    JObj [
      (u "name", JStr (u "get_repository_analysis_guide"));
      (u "description", JStr (u "Get structured framework for extracting threat modeling inputs from repository analysis using GitHub MCP or similar tools"));
      (u "inputSchema", JObj [
        (u "type", JStr (u "object"));
        (u "properties", JObj [
          (u "analysis_stage", JObj [
            (u "type", JStr (u "string"));
            (u "description", JStr (u "Analysis stage: 'initial' (quick scan), 'deep_dive' (detailed security analysis), or 'validation' (readiness check)"));
            (u "enum", JArr [JStr (u "initial"); JStr (u "deep_dive"); JStr (u "validation")]);
            (u "default", JStr (u "initial"))
          ]);
          (u "repository_context", JObj [
            (u "type", JStr (u "object"));
            (u "description", JStr (u "Optional context about the repository"));
            (u "properties", JObj [
              (u "primary_language", JObj [
                (u "type", JStr (u "string"));
                (u "description", JStr (u "Primary programming language detected"))
              ]);
              (u "framework_detected", JObj [
                (u "type", JStr (u "string"));
                (u "description", JStr (u "Primary framework or platform detected"))
              ]);
              (u "repository_type", JObj [
                (u "type", JStr (u "string"));
                (u "description", JStr (u "Type of repository"));
                (u "enum", JArr [
                  JStr (u "application");
                  JStr (u "library");
                  JStr (u "infrastructure");
                  JStr (u "unknown")
                ])
              ])
            ])
          ])
        ]);
        (u "required", JArr [])
      ])
    ]
  ].

Section Dispatcher.

(** [str.isprintable()] of one non-ASCII code point, as given by the
    Unicode character database; it only affects how [repr] escapes
    characters in the two error messages that embed a caller value. *)
Variable unicode_isprintable : Z -> bool.

(** [repr(s)] of a str ([unicode_repr]). *)
Definition repr_char (quote c : Z) : pystr :=
  if (c =? quote) || (c =? 92) then [92; c]
  else if c =? 9 then u "\t"
  else if c =? 10 then u "\n"
  else if c =? 13 then u "\r"
  else if (c <? 32) || (c =? 127) then u "\x" ++ hex_fixed 2 c
  else if c <? 127 then [c]
  else if unicode_isprintable c then [c]
  else if c <=? 255 then u "\x" ++ hex_fixed 2 c
  else if c <=? 65535 then u "\u" ++ hex_fixed 4 c
  else u "\U" ++ hex_fixed 8 c.

Definition repr_str (s : pystr) : pystr :=
  let quote := if existsb (Z.eqb 39) s && negb (existsb (Z.eqb 34) s) then 34 else 39 in
  [quote] ++ flat_map (repr_char quote) s ++ [quote].

Fixpoint py_repr (v : json) : pystr :=
  match v with
  | JNull => u "None"
  | JBool true => u "True"
  | JBool false => u "False"
  | JInt z => str_of_Z z
  | JFloat r => r
  | JStr s => repr_str s
  | JArr xs => u "[" ++ join (u ", ") (map py_repr xs) ++ u "]"
  | JObj kvs =>
      u "{" ++ join (u ", ") (map (fun '(k, x) => repr_str k ++ u ": " ++ py_repr x) kvs) ++ u "}"
  end.

(** [str(v)], as used by an f-string *)
Definition py_str (v : json) : pystr :=
  match v with
  | JStr s => s
  | _ => py_repr v
  end.

Definition handle_mcp_request (body : list (pystr * json)) : PyM json :=
  let method := dict_get_none body (u "method") in
  let params := dict_get_default body (u "params") (JObj []) in
  let request_id := dict_get_none body (u "id") in
  if is_str method (u "initialize") then
    ret (JObj [
      (u "jsonrpc", JStr (u "2.0"));
      (u "result", JObj [
        (u "protocolVersion", JStr (u "2025-03-26"));
        (u "capabilities", JObj [
          (u "tools", JObj [
            (u "listChanged", JBool false)
          ])
        ]);
        (u "serverInfo", JObj [
          (u "name", JStr (u "STRIDE GPT MCP Server"));
          (u "version", JStr (u "0.1.0"))
        ]);
        (u "instructions", JStr (u "Professional threat modeling server using the STRIDE methodology."))
      ]);
      (u "id", request_id)
    ])
  else if is_str method (u "tools/list") then
    ret (JObj [
      (u "jsonrpc", JStr (u "2.0"));
      (u "result", JObj [
        (u "tools", tools)
      ]);
      (u "id", request_id)
    ])
  else if is_str method (u "tools/call") then
    params_d <- as_dict params ;;
    let tool_name := dict_get_none params_d (u "name") in
    params_d <- as_dict params ;;
    let arguments := dict_get_default params_d (u "arguments") (JObj []) in
    try_except
      (if is_str tool_name (u "get_stride_threat_framework") then
         result <- get_stride_threat_framework arguments ;;
         ret (JObj [
            (u "jsonrpc", JStr (u "2.0"));
            (u "result", JObj [
              (u "content", JArr [
                JObj [
                  (u "type", JStr (u "text"));
                  (u "text", JStr (json_dumps_indent2 result))
                ]
              ])
            ]);
            (u "id", request_id)
          ])
       else if is_str tool_name (u "generate_threat_mitigations") then
         result <- generate_threat_mitigations arguments ;;
         ret (JObj [
            (u "jsonrpc", JStr (u "2.0"));
            (u "result", JObj [
              (u "content", JArr [
                JObj [
                  (u "type", JStr (u "text"));
                  (u "text", JStr (json_dumps_indent2 result))
                ]
              ])
            ]);
            (u "id", request_id)
          ])
       else if is_str tool_name (u "calculate_threat_risk_scores") then
         result <- calculate_threat_risk_scores arguments ;;
         ret (JObj [
            (u "jsonrpc", JStr (u "2.0"));
            (u "result", JObj [
              (u "content", JArr [
                JObj [
                  (u "type", JStr (u "text"));
                  (u "text", JStr (json_dumps_indent2 result))
                ]
              ])
            ]);
            (u "id", request_id)
          ])
       else if is_str tool_name (u "create_threat_attack_trees") then
         result <- create_threat_attack_trees arguments ;;
         ret (JObj [
            (u "jsonrpc", JStr (u "2.0"));
            (u "result", JObj [
              (u "content", JArr [
                JObj [
                  (u "type", JStr (u "text"));
                  (u "text", JStr (json_dumps_indent2 result))
                ]
              ])
            ]);
            (u "id", request_id)
          ])
       else if is_str tool_name (u "generate_security_tests") then
         result <- generate_security_tests arguments ;;
         ret (JObj [
            (u "jsonrpc", JStr (u "2.0"));
            (u "result", JObj [
              (u "content", JArr [
                JObj [
                  (u "type", JStr (u "text"));
                  (u "text", JStr (json_dumps_indent2 result))
                ]
              ])
            ]);
            (u "id", request_id)
          ])
       else if is_str tool_name (u "generate_threat_report") then
         report <- generate_threat_report arguments ;;
         let result := JStr report in
         ret (JObj [
            (u "jsonrpc", JStr (u "2.0"));
            (u "result", JObj [
              (u "content", JArr [
                JObj [
                  (u "type", JStr (u "text"));
                  (u "text", result)
                ]
              ])
            ]);
            (u "id", request_id)
          ])
       else if is_str tool_name (u "validate_threat_coverage") then
         result <- validate_threat_coverage arguments ;;
         ret (JObj [
            (u "jsonrpc", JStr (u "2.0"));
            (u "result", JObj [
              (u "content", JArr [
                JObj [
                  (u "type", JStr (u "text"));
                  (u "text", JStr (json_dumps_indent2 result))
                ]
              ])
            ]);
            (u "id", request_id)
          ])
       else if is_str tool_name (u "get_repository_analysis_guide") then
         result <- get_repository_analysis_guide arguments ;;
         ret (JObj [
            (u "jsonrpc", JStr (u "2.0"));
            (u "result", JObj [
              (u "content", JArr [
                JObj [
                  (u "type", JStr (u "text"));
                  (u "text", JStr (json_dumps_indent2 result))
                ]
              ])
            ]);
            (u "id", request_id)
          ])
       else
         ret (JObj [
            (u "jsonrpc", JStr (u "2.0"));
            (u "error", JObj [
              (u "code", JInt (ERROR_CODES INVALID_PARAMETER));
              (u "message", JStr (u "Unknown tool: " ++ py_str tool_name))
            ]);
            (u "id", request_id)
          ]))
      (fun e =>
         '(error_id, sanitized) <-
           sanitize_error e (u "Tool execution: " ++ py_str tool_name) ;;
         let sanitized_message := JStr sanitized in
         ret (JObj [
          (u "jsonrpc", JStr (u "2.0"));
          (u "error", JObj [
            (u "code", JInt (ERROR_CODES TOOL_EXECUTION_FAILED));
            (u "message", sanitized_message)
          ]);
          (u "id", request_id)
        ]))
  else
    ret (JObj [
      (u "jsonrpc", JStr (u "2.0"));
      (u "error", JObj [
        (u "code", JInt (-32601));
        (u "message", JStr (u "Method not found: " ++ py_str method))
      ]);
      (u "id", request_id)
    ]).

End Dispatcher.

(** ** The HTTP handler ([class handler]) *)

(** A response as the handler produces it: the status passed to
    [send_response], the headers passed to [send_header] in order (the
    [Server] and [Date] headers [send_response] adds itself are left
    out), and the value passed to [json.dumps] for the body. *)
Record http_response := {
  status : Z;
  headers : list (pystr * pystr);
  payload : json
}.

Definition cors_json_headers : list (pystr * pystr) :=
  [(u "Content-Type", u "application/json"); (u "Access-Control-Allow-Origin", u "*")].

Definition security_headers : list (pystr * pystr) :=
  [(u "X-Content-Type-Options", u "nosniff"); (u "X-Frame-Options", u "DENY");
   (u "X-XSS-Protection", u "1; mode=block")].

Definition send_error_response (status_code : Z) (error_data : json) : http_response :=
  {| status := status_code; headers := cors_json_headers; payload := error_data |}.

(** [do_GET]; the body is written with [json.dumps(response_data, indent=2)]. *)
Definition do_GET : http_response :=
  {| status := 200;
     headers := cors_json_headers ++ security_headers;
     payload := JObj [
      (u "name", JStr (u "STRIDE GPT MCP Server"));
      (u "version", JStr (u "0.1.0"));
      (u "description", JStr (u "Professional threat modeling server using the STRIDE methodology"));
      (u "tools", JArr [
        JStr (u "get_stride_threat_framework");
        JStr (u "generate_threat_mitigations");
        JStr (u "create_threat_attack_trees");
        JStr (u "calculate_threat_risk_scores");
        JStr (u "generate_security_tests");
        JStr (u "generate_threat_report");
        JStr (u "validate_threat_coverage");
        JStr (u "get_repository_analysis_guide")
      ]);
      (u "endpoints", JObj [
        (u "POST /", JStr (u "MCP JSON-RPC endpoint"))
      ])
    ] |}.

(** [bool(v)] of a JSON value; a float is carried by its [repr]. *)
Definition py_truthy (v : json) : bool :=
  match v with
  | JNull => false
  | JBool b => b
  | JInt z => negb (z =? 0)
  | JFloat r => negb (str_eqb r (u "0.0") || str_eqb r (u "-0.0"))
  | JStr s => negb (str_eqb s [])
  | JArr xs => negb (Nat.eqb (List.length xs) 0)
  | JObj kvs => negb (Nat.eqb (List.length kvs) 0)
  end.

(** [str(x)] of an optional str ([None] formats as [None]). *)
Definition opt_str (x : option pystr) : pystr :=
  match x with
  | Some s => s
  | None => u "None"
  end.

(** A library call's outcome as a computation. *)
Definition lift {A} (r : exc + A) : PyM A :=
  match r with
  | inl e => raise e
  | inr a => ret a
  end.

Section HTTP.
(** As for the dispatcher. *)
Variable unicode_isprintable : Z -> bool.
(** [int(s)] of the [Content-Length] header; [None] when it raises
    [ValueError]. *)
Variable py_int : pystr -> option Z.
(** [self.rfile.read(n)], [bytes.decode('utf-8')] and [json.loads]: the
    library calls, with the exception each may raise. *)
Variable rfile_read : Z -> exc + list Byte.byte.
Variable utf8_decode : list Byte.byte -> exc + pystr.
Variable json_loads : pystr -> exc + json.

Definition invalid_request (request_id : json) : http_response :=
  send_error_response 400
    (JObj [(u "jsonrpc", JStr (u "2.0"));
           (u "error", JObj [(u "code", JInt (-32600)); (u "message", JStr (u "Invalid Request"))]);
           (u "id", request_id)]).

(** [do_POST], given the [Content-Length] header ([None] when absent). *)
Definition do_POST (content_length_header : option pystr) : PyM http_response :=
  try_except
    (content_length <-
       match content_length_header with
       | None => ret 0
       | Some s =>
           match py_int s with
           | Some n => ret n
           | None => raise {| exc_type := u "ValueError";
                              exc_str := u "invalid literal for int() with base 10: "
                                         ++ repr_str unicode_isprintable s;
                              exc_module := u "builtins" |}
           end
       end ;;
     if content_length >? MAX_PAYLOAD_SIZE then
       ret (send_error_response 413
         (JObj [(u "jsonrpc", JStr (u "2.0"));
                (u "error", JObj [(u "code", JInt (ERROR_CODES PAYLOAD_TOO_LARGE));
                                  (u "message", JStr (u "Payload size " ++ str_of_Z content_length
                                     ++ u " bytes exceeds maximum of " ++ str_of_Z MAX_PAYLOAD_SIZE
                                     ++ u " bytes"))]);
                (u "id", JNull)]))
     else
       post_data <- lift (rfile_read content_length) ;;
       text <- lift (utf8_decode post_data) ;;
       match json_loads text with
       | inl e =>
           if str_eqb (exc_type e) (u "JSONDecodeError") then
             ret (send_error_response 400
               (JObj [(u "jsonrpc", JStr (u "2.0"));
                      (u "error", JObj [(u "code", JInt (-32700)); (u "message", JStr (u "Parse error"))]);
                      (u "id", JNull)]))
           else raise e
       | inr body =>
           let complexity_result := validate_json_complexity body 0 in
           if negb (valid complexity_result) then
             body_d <- as_dict body ;;
             ret (send_error_response 400
               (JObj [(u "jsonrpc", JStr (u "2.0"));
                      (u "error", JObj [(u "code", JInt (ERROR_CODES PAYLOAD_TOO_COMPLEX));
                                        (u "message", JStr (u "Payload complexity validation failed: "
                                                            ++ opt_str (error complexity_result)))]);
                      (u "id", dict_get_none body_d (u "id"))]))
           else
             body_d <- as_dict body ;;
             if negb (is_str (dict_get_none body_d (u "jsonrpc")) (u "2.0"))
                || negb (py_truthy (dict_get_none body_d (u "method"))) then
               ret (invalid_request (dict_get_none body_d (u "id")))
             else
               response <- handle_mcp_request unicode_isprintable body_d ;;
               ret {| status := 200; headers := cors_json_headers ++ security_headers;
                      payload := response |}
       end)
    (fun e =>
       '(error_id, sanitized_message) <- sanitize_error e (u "HTTP POST request handling") ;;
       ret (send_error_response 500
         (JObj [(u "jsonrpc", JStr (u "2.0"));
                (u "error", JObj [(u "code", JInt (-32603)); (u "message", JStr sanitized_message)]);
                (u "id", JNull)]))).

End HTTP.

(** ** [src/server/errors.py] *)
Module ServerErrors.

Definition sanitize_error (error : exc) (context : pystr) : PyM (pystr * pystr) :=
  i <- uuid4 ;;
  let error_id := slice 0 8 (uuid_str i) in
  _ <- print_stderr (u "[ERROR " ++ error_id ++ u "] Context: " ++ context) ;;
  _ <- print_stderr (u "[ERROR " ++ error_id ++ u "] Exception Type: " ++ exc_type error) ;;
  _ <- print_stderr (u "[ERROR " ++ error_id ++ u "] Exception Message: " ++ exc_str error) ;;
  _ <- print_exc error ;;
  ret (error_id, u "An internal error occurred. Error ID: " ++ error_id).

End ServerErrors.

(** ** [src/server/validation.py] *)
Module ServerValidation.

Section server_validation.
(** [PAYLOAD_LIMITS] of [server/constants.py], which is not in the
    repository: a lookup by key. *)
Variable PAYLOAD_LIMITS : pystr -> Z.

(** The [for v in data.values()] loop; [for i in data] is
    [validate_elems] above. *)
Fixpoint validate_values (validate : json -> Z -> validation_result)
    (kvs : list (pystr * json)) (next_depth : Z) : validation_result :=
  match kvs with
  | [] => valid_result
  | (_, v) :: rest =>
      let r := validate v next_depth in
      if negb (valid r) then r else validate_values validate rest next_depth
  end.

Fixpoint validate_json_complexity (data : json) (depth : Z) : validation_result :=
  if depth >? PAYLOAD_LIMITS (u "MAX_JSON_DEPTH") then invalid (u "JSON depth exceeded")
  else
    match data with
    | JObj kvs =>
        if Z.of_nat (List.length kvs) >? PAYLOAD_LIMITS (u "MAX_OBJECT_KEYS")
        then invalid (u "Too many object keys")
        else validate_values validate_json_complexity kvs (depth + 1)
    | JArr xs =>
        if Z.of_nat (List.length xs) >? PAYLOAD_LIMITS (u "MAX_ARRAY_LENGTH")
        then invalid (u "Array too large")
        else validate_elems validate_json_complexity xs (depth + 1)
    | JStr s =>
        if str_len s >? PAYLOAD_LIMITS (u "MAX_STRING_LENGTH")
        then invalid (u "String too long")
        else valid_result
    | _ => valid_result
    end.

End server_validation.

End ServerValidation.

(** ** Accessors and requests used in the statements below *)

(** [env.get(k)] on a response value *)
Definition get_key (v : json) (k : pystr) : option json :=
  match v with
  | JObj kvs => dict_get kvs k
  | _ => None
  end.

(** [k in env] *)
Definition has_key (v : json) (k : pystr) : bool :=
  match get_key v k with
  | Some _ => true
  | None => false
  end.

Definition result_envelope (result request_id : json) : json :=
  JObj [(u "jsonrpc", JStr (u "2.0")); (u "result", result); (u "id", request_id)].

Definition error_envelope (err request_id : json) : json :=
  JObj [(u "jsonrpc", JStr (u "2.0")); (u "error", err); (u "id", request_id)].

(** [env['error']['code']] *)
Definition error_code (env : json) : option json :=
  match get_key env (u "error") with
  | Some err => get_key err (u "code")
  | None => None
  end.

(** [env['result']['content'][0]['text']] *)
Definition content_text (env : json) : option json :=
  match get_key env (u "result") with
  | Some r =>
      match get_key r (u "content") with
      | Some (JArr (c :: _)) => get_key c (u "text")
      | _ => None
      end
  | None => None
  end.

(** The [result] of a returned envelope; [None] for an error envelope or
    when [handle_mcp_request] raises. *)
Definition response_payload (r : exc + json) : option json :=
  match r with
  | inr env => get_key env (u "result")
  | inl _ => None
  end.

(** The catalogue of the spec (section 6), in its order. *)
Definition tool_names : list pystr :=
  [u "get_stride_threat_framework"; u "generate_threat_mitigations";
   u "create_threat_attack_trees"; u "calculate_threat_risk_scores";
   u "generate_security_tests"; u "generate_threat_report";
   u "validate_threat_coverage"; u "get_repository_analysis_guide"].

(** The [name] fields of a list of tool descriptors. *)
Fixpoint descriptor_names (ds : list json) : option (list pystr) :=
  match ds with
  | [] => Some []
  | d :: ds' =>
      match get_key d (u "name"), descriptor_names ds' with
      | Some (JStr n), Some ns => Some (n :: ns)
      | _, _ => None
      end
  end.

(** A [tools/call] request body. *)
Definition tools_call_request (name arguments request_id : json) : list (pystr * json) :=
  [(u "jsonrpc", JStr (u "2.0")); (u "method", JStr (u "tools/call"));
   (u "params", JObj [(u "name", name); (u "arguments", arguments)]);
   (u "id", request_id)].

(** A computation that neither reads nor changes the world: its outcome
    (value or exception) is the same from every world, which it leaves
    unchanged. *)
Definition world_independent {A B} (h : A -> PyM B) : Prop :=
  forall a w1 w2, fst (h a w1) = fst (h a w2) /\ snd (h a w1) = w1.

(** [str.isprintable] on non-ASCII code points, for concrete runs. *)
Definition all_printable (c : Z) : bool := true.

(** A world with a fixed random source and no traceback lines. *)
Definition world0 : world :=
  {| w_random := fun _ => 0; w_draws := 0; w_stderr := []; w_traceback := fun _ => ([], []) |}.

(** [c in string.hexdigits.lower()] *)
Definition is_lower_hex (c : Z) : bool :=
  ((48 <=? c) && (c <=? 57)) || ((97 <=? c) && (c <=? 102)).

(** [env['result']['tools']] *)
Definition result_tools (env : json) : option json :=
  match get_key env (u "result") with
  | Some r => get_key r (u "tools")
  | None => None
  end.

(** [result.content[0].text] of an outcome of [handle_mcp_request]. *)
Definition response_text (r : exc + json) : option json :=
  match r with
  | inr env => content_text env
  | inl _ => None
  end.

(** An outcome that is an envelope with a [result] and no [error]. *)
Definition is_success (r : exc + json) : bool :=
  match r with
  | inr env => has_key env (u "result") && negb (has_key env (u "error"))
  | inl _ => false
  end.

(** The arguments of the report example of the spec. *)
Definition report_arguments : json :=
  JObj [(u "threat_model",
         JArr [JObj [(u "id", JStr (u "T1"))]; JObj [(u "id", JStr (u "T2"))]])].

(** ** Shapes of outcomes *)

Definition env_shape (request_id env : json) : Prop :=
  (exists r, env = result_envelope r request_id) \/
  (exists e, env = error_envelope e request_id).

(** A computation that either raises or returns an envelope of that shape. *)
Definition raises_or_envelope (request_id : json) (m : PyM json) : Prop :=
  forall w, (exists e w', m w = (inl e, w')) \/
            (exists env w', m w = (inr env, w') /\ env_shape request_id env).

(** [m] has one outcome from every world and leaves the world unchanged. *)
Definition pure_m {A} (m : PyM A) : Prop := exists r, forall w, m w = (r, w).


(** ** Accessors for the extra properties *)

(** Every code point of [s] is ASCII. *)
Definition ascii_str (s : pystr) : bool := forallb (fun c => (0 <=? c) && (c <? 128)) s.

(** Every float of [v] has an ASCII [repr] (as [float.__repr__] always has). *)
Fixpoint floats_ascii (v : json) : bool :=
  match v with
  | JFloat r => ascii_str r
  | JArr xs => forallb floats_ascii xs
  | JObj kvs => forallb (fun kv => floats_ascii (snd kv)) kvs
  | _ => true
  end.

(** [s] contains [sub] as a substring. *)
Definition infix (sub s : pystr) : Prop := exists a b, s = a ++ sub ++ b.

(** The two shapes of a guard result. *)
Definition result_consistent (r : validation_result) : Prop :=
  (valid r = true /\ error r = None) \/ (valid r = false /\ exists m, error r = Some m).

(** A value [x in v] accepts: a str, list or dict. *)
Definition py_iterable (v : json) : bool :=
  match v with
  | JStr _ | JArr _ | JObj _ => true
  | _ => false
  end.

(** [isinstance(v, str)] *)
Definition is_jstr (v : json) : bool :=
  match v with
  | JStr _ => true
  | _ => false
  end.

(** The error responses of [do_POST]: status, JSON-RPC error code,
    message and [id]. *)
Definition post_error (status_code code : Z) (message : pystr) (request_id : json) : http_response :=
  send_error_response status_code
    (JObj [(u "jsonrpc", JStr (u "2.0"));
           (u "error", JObj [(u "code", JInt code); (u "message", JStr message)]);
           (u "id", request_id)]).

(** * Proofs *)

(** ** Payload guard *)

Lemma gtb_negb_leb : forall a b, (a >? b) = negb (a <=? b).
Proof. intros a b; rewrite Z.gtb_ltb, Z.ltb_antisym; reflexivity. Qed.

Lemma validate_items_valid : forall f kvs nd,
  valid (validate_items f kvs nd)
  = forallb (fun '(k, v) => (str_len k <=? MAX_STRING_LENGTH) && valid (f v nd)) kvs.
Proof.
  intros f kvs nd; induction kvs as [|[k v] rest IH]; [reflexivity|].
  cbn [validate_items forallb].
  rewrite Z.leb_antisym, <- Z.gtb_ltb.
  destruct (str_len k >? MAX_STRING_LENGTH); [reflexivity|].
  cbn [negb andb].
  destruct (valid (f v nd)) eqn:E; simpl; [exact IH | exact E].
Qed.

Lemma validate_elems_valid : forall f xs nd,
  valid (validate_elems f xs nd) = forallb (fun x => valid (f x nd)) xs.
Proof.
  intros f xs nd; induction xs as [|x rest IH]; [reflexivity|].
  cbn [validate_elems forallb].
  destruct (valid (f x nd)) eqn:E; simpl; [exact IH | exact E].
Qed.

Lemma validate_json_complexity_nodes : forall v d,
  valid (validate_json_complexity v d) = negb (existsb exceeds_limits (nodes_at v d)).
Proof.
  induction v as [| b | z | r | s | xs IH | kvs IH] using json_ind'; intro d;
    simpl; destruct (d >? MAX_JSON_DEPTH); simpl; try reflexivity.
  - (* string *)
    destruct (str_len s >? MAX_STRING_LENGTH); reflexivity.
  - (* array *)
    destruct (Z.of_nat (List.length xs) >? MAX_ARRAY_LENGTH); simpl; [reflexivity|].
    rewrite validate_elems_valid.
    induction IH as [|x xs Hx _ IHxs]; [reflexivity|].
    cbn [forallb flat_map]; rewrite existsb_app, Hx, IHxs; btauto.
  - (* object *)
    destruct (Z.of_nat (List.length kvs) >? MAX_OBJECT_KEYS); simpl; [reflexivity|].
    rewrite validate_items_valid.
    induction IH as [|[k x] kvs Hx _ IHkvs]; [reflexivity|].
    cbn [forallb existsb flat_map snd] in *.
    rewrite existsb_app, Hx, Z.leb_antisym, <- Z.gtb_ltb, IHkvs.
    btauto.
Qed.

(** The validator of [api/index.py] (at the default depth 0) reports
    [valid = false] exactly when some node of [V] violates one of the four
    limits (nesting depth above 20, more than 500 keys or a key longer than
    500,000 characters, more than 2000 elements, a string longer than
    500,000 characters), and [valid = true] otherwise. *)
Theorem validate_json_complexity_iff_violation : forall V,
  (valid (validate_json_complexity V 0) = false <-> violates_limits V) /\
  (valid (validate_json_complexity V 0) = true <-> ~ violates_limits V).
Proof.
  intro V; unfold violates_limits; rewrite validate_json_complexity_nodes.
  split; split.
  - intro H; apply negb_false_iff, existsb_exists in H; exact H.
  - intro H; apply negb_false_iff, existsb_exists; exact H.
  - intros H Hex; apply negb_true_iff in H.
    apply existsb_exists in Hex; congruence.
  - intro H; apply negb_true_iff.
    destruct (existsb exceeds_limits (nodes_at V 0)) eqn:E; [|reflexivity].
    apply existsb_exists in E; contradiction.
Qed.

(** On an object at depth [d], the validator of [api/index.py] is valid
    exactly when the depth is within the limit, the object has at most 500
    keys, and every entry has a key of at most 500,000 characters and a
    value that is itself valid at depth [d + 1]. *)
Theorem validate_json_complexity_object : forall kvs d,
  valid (validate_json_complexity (JObj kvs) d)
  = (d <=? MAX_JSON_DEPTH)
    && (Z.of_nat (List.length kvs) <=? MAX_OBJECT_KEYS)
    && forallb (fun '(k, v) => (str_len k <=? MAX_STRING_LENGTH)
                               && valid (validate_json_complexity v (d + 1))) kvs.
Proof.
  intros kvs d; cbn [validate_json_complexity].
  rewrite !gtb_negb_leb.
  destruct (d <=? MAX_JSON_DEPTH); [|reflexivity].
  destruct (Z.of_nat (List.length kvs) <=? MAX_OBJECT_KEYS); [|reflexivity].
  apply validate_items_valid.
Qed.

(** ** Error sanitizer *)

Lemma hex_fixed_length : forall n x, List.length (hex_fixed n x) = n.
Proof.
  induction n as [|n IH]; intro x; simpl; [reflexivity|].
  rewrite length_app, IH; simpl; lia.
Qed.

Lemma hex_char_is_lower_hex : forall x, is_lower_hex (hex_char (Z.land x 15)) = true.
Proof.
  intro x.
  assert (H : 0 <= Z.land x 15 < 16).
  { change 15 with (Z.ones 4). rewrite Z.land_ones by lia. apply Z.mod_pos_bound; lia. }
  unfold hex_char, is_lower_hex.
  destruct (Z.land x 15 <? 10) eqn:E; [apply Z.ltb_lt in E | apply Z.ltb_ge in E];
    apply orb_true_iff; [left | right]; apply andb_true_iff; split; apply Z.leb_le; lia.
Qed.

Lemma hex_fixed_is_lower_hex : forall n x, forallb is_lower_hex (hex_fixed n x) = true.
Proof.
  induction n as [|n IH]; intro x; simpl; [reflexivity|].
  rewrite forallb_app, IH; simpl; rewrite hex_char_is_lower_hex; reflexivity.
Qed.

Lemma forallb_firstn : forall (f : Z -> bool) n l,
  forallb f l = true -> forallb f (firstn n l) = true.
Proof.
  intros f n; induction n as [|n IH]; intros [|x l] H; simpl in *; try reflexivity.
  apply andb_true_iff in H as [H1 H2]; rewrite H1, IH by exact H2; reflexivity.
Qed.

Lemma uuid_str_prefix : forall i, slice 0 8 (uuid_str i) = firstn 8 (hex_fixed 32 i).
Proof.
  intro i; unfold uuid_str, slice.
  rewrite !skipn_O, Nat.sub_0_r.
  rewrite firstn_app, firstn_firstn, length_firstn, hex_fixed_length.
  replace (Nat.min 8 8) with 8%nat by reflexivity.
  replace (8 - Nat.min 8 32)%nat with 0%nat by reflexivity.
  rewrite firstn_O, app_nil_r; reflexivity.
Qed.

Lemma sanitize_error_id : forall E ctx w,
  fst (sanitize_error E ctx w)
  = inr (firstn 8 (hex_fixed 32 (uuid4_int (w_random w (w_draws w) mod 2 ^ 128))),
         u "An internal error occurred. Error ID: "
         ++ firstn 8 (hex_fixed 32 (uuid4_int (w_random w (w_draws w) mod 2 ^ 128)))).
Proof. intros E ctx w; rewrite <- uuid_str_prefix; reflexivity. Qed.

(** C3, as the code does it: [sanitize_error E ctx] returns
    [(error_id, "An internal error occurred. Error ID: " + error_id)] with
    [error_id] eight lowercase hex digits taken from a fresh [uuid4]; the
    message contains ["Error ID:"] and is the same for every exception and
    context, so nothing of [E] is copied into it. *)
Theorem sanitize_error_fixed_message : forall E ctx w,
  exists error_id,
    fst (sanitize_error E ctx w)
      = inr (error_id, u "An internal error occurred. Error ID: " ++ error_id) /\
    List.length error_id = 8%nat /\
    forallb is_lower_hex error_id = true /\
    str_contains (u "An internal error occurred. Error ID: " ++ error_id) (u "Error ID:") = true /\
    (forall E' ctx', fst (sanitize_error E' ctx' w) = fst (sanitize_error E ctx w)).
Proof.
  intros E ctx w.
  eexists; split; [apply sanitize_error_id|].
  split; [rewrite length_firstn, hex_fixed_length; reflexivity|].
  split; [apply forallb_firstn, hex_fixed_is_lower_hex|].
  split; [reflexivity|].
  intros E' ctx'; rewrite !sanitize_error_id; reflexivity.
Qed.

(** C3 fails as stated: an exception whose message is [internal error]
    (and whose class is named [Error]) has both its [str] and its type name
    inside the client message, which always reads
    "An internal error occurred. Error ID: ...". *)
Lemma sanitize_error_message_contains_exception_text :
  match fst (sanitize_error {| exc_type := u "Error"; exc_str := u "internal error";
                                             exc_module := u "__main__" |}
                            (u "Tool execution: get_stride_threat_framework") world0) with
  | inr (_, msg) => str_contains msg (u "internal error") && str_contains msg (u "Error")
  | inl _ => false
  end = true.
Proof. vm_compute; reflexivity. Qed.

(** ** Error codes *)

(** C5 fails: [TOOL_EXECUTION_FAILED] is neither -32600 nor -32603. *)
Lemma extension_codes_not_all_standard :
  ~ (forall c, In c [TOOL_EXECUTION_FAILED; PAYLOAD_TOO_LARGE; PAYLOAD_TOO_COMPLEX] ->
               ERROR_CODES c = -32600 \/ ERROR_CODES c = -32603).
Proof.
  intro H; destruct (H TOOL_EXECUTION_FAILED) as [E|E]; [simpl; auto | discriminate | discriminate].
Qed.

(** ** [params] that is not an object *)

(** C4 fails on [{"jsonrpc": "2.0", "method": "tools/call", "params": null,
    "id": 1}]: [params.get('name')] runs outside the [try] and raises
    [AttributeError], so no envelope is returned. *)
Theorem handle_mcp_request_null_params_raises : forall up w,
  fst (handle_mcp_request up
         [(u "jsonrpc", JStr (u "2.0")); (u "method", JStr (u "tools/call"));
          (u "params", JNull); (u "id", JInt 1)] w)
  = inl {| exc_type := u "AttributeError";
           exc_str := u "'NoneType' object has no attribute 'get'";
           exc_module := u "builtins" |}.
Proof. intros up w; reflexivity. Qed.

(** ** Shape of the dispatcher's envelopes *)

Lemma raises_or_envelope_ret : forall rid env,
  env_shape rid env -> raises_or_envelope rid (ret env).
Proof. intros rid env H w; right; exists env, w; split; [reflexivity | exact H]. Qed.

Lemma raises_or_envelope_bind : forall B rid (m : PyM B) (f : B -> json),
  (forall b, env_shape rid (f b)) ->
  raises_or_envelope rid (bind m (fun b => ret (f b))).
Proof.
  intros B rid m f Hf w; unfold bind.
  destruct (m w) as [[e|b] w']; [left; eauto | right; exists (f b), w'; split; auto].
Qed.

Lemma sanitize_error_returns : forall e ctx w,
  exists error_id msg w', sanitize_error e ctx w = (inr (error_id, msg), w').
Proof.
  intros e ctx w; pose proof (sanitize_error_id e ctx w) as H.
  destruct (sanitize_error e ctx w) as [r w']; cbn [fst] in H; subst r; eauto.
Qed.

Lemma try_except_envelope : forall rid m (handler : exc -> PyM json),
  raises_or_envelope rid m ->
  (forall e w, exists env w', handler e w = (inr env, w') /\ env_shape rid env) ->
  forall w, exists env w', try_except m handler w = (inr env, w') /\ env_shape rid env.
Proof.
  intros rid m handler Hm Hh w; unfold try_except.
  destruct (Hm w) as [(e & w' & E) | (env & w' & E & Hs)]; rewrite E; eauto.
Qed.

Lemma is_str_true : forall v s, is_str v s = true -> v = JStr s.
Proof.
  intros [| | | | t | |] s H; try discriminate; simpl in H.
  unfold str_eqb in H; destruct (list_eq_dec Z.eq_dec t s); [subst; reflexivity | discriminate].
Qed.

Ltac envelope_result := left; eexists; reflexivity.
Ltac envelope_error := right; eexists; reflexivity.

(** Every envelope [handle_mcp_request] returns has [jsonrpc = "2.0"],
    the request's [id] and exactly one of [result] and [error]; it returns
    one for every body except a [tools/call] whose [params] is present and
    not an object. *)
Lemma handle_mcp_request_envelope : forall up body w,
  is_str (dict_get_none body (u "method")) (u "tools/call") = false \/
  (exists p, dict_get_default body (u "params") (JObj []) = JObj p) ->
  exists env w', handle_mcp_request up body w = (inr env, w') /\
                 env_shape (dict_get_none body (u "id")) env.
Proof.
  intros up body w Hp; unfold handle_mcp_request; cbv zeta.
  destruct (is_str (dict_get_none body (u "method")) (u "initialize")).
  { do 2 eexists; split; [reflexivity | envelope_result]. }
  destruct (is_str (dict_get_none body (u "method")) (u "tools/list")).
  { do 2 eexists; split; [reflexivity | envelope_result]. }
  destruct (is_str (dict_get_none body (u "method")) (u "tools/call")) eqn:Hc.
  2: { do 2 eexists; split; [reflexivity | envelope_error]. }
  destruct Hp as [Hp | [p Hp]]; [discriminate|]; rewrite Hp; cbn [as_dict bind ret].
  apply try_except_envelope.
  - repeat match goal with
           | |- raises_or_envelope _ (if ?c then _ else _) =>
               destruct c; [apply raises_or_envelope_bind; intro; envelope_result|]
           end.
    apply raises_or_envelope_ret; envelope_error.
  - intros e w1; unfold bind.
    destruct (sanitize_error_returns e (u "Tool execution: " ++ py_str up (dict_get_none p (u "name"))) w1)
      as (error_id & msg & w2 & Hs); rewrite Hs.
    do 2 eexists; split; [reflexivity | envelope_error].
Qed.

(** ** Purity of the tool handlers *)

Lemma pure_ret : forall A (a : A), pure_m (ret a).
Proof. intros A a; exists (inr a); reflexivity. Qed.

Lemma pure_raise : forall A e, pure_m (@raise A e).
Proof. intros A e; exists (inl e); reflexivity. Qed.

Lemma pure_bind : forall A B (m : PyM A) (k : A -> PyM B),
  pure_m m -> (forall a, pure_m (k a)) -> pure_m (bind m k).
Proof.
  intros A B m k [r Hr] Hk; unfold bind.
  destruct r as [e|a].
  - exists (inl e); intro w; rewrite Hr; reflexivity.
  - destruct (Hk a) as [r' Hr']; exists r'; intro w; rewrite Hr; apply Hr'.
Qed.

Lemma pure_as_dict : forall v, pure_m (as_dict v).
Proof. intros []; first [apply pure_ret | apply pure_raise]. Qed.

Lemma pure_py_in : forall s v, pure_m (py_in s v).
Proof. intros s []; first [apply pure_ret | apply pure_raise]. Qed.

Lemma pure_py_lower : forall v, pure_m (py_lower v).
Proof. intros []; first [apply pure_ret | apply pure_raise]. Qed.

Lemma pure_world_independent : forall A B (h : A -> PyM B),
  (forall a, pure_m (h a)) -> world_independent h.
Proof.
  intros A B h Hh a w1 w2; destruct (Hh a) as [r Hr].
  rewrite !Hr; split; reflexivity.
Qed.

Create HintDb pure.
#[export] Hint Resolve pure_ret pure_raise pure_as_dict pure_py_in pure_py_lower : pure.

Ltac pure_tac :=
  repeat match goal with
         | |- pure_m (bind _ _) => apply pure_bind; [| intro; cbv beta zeta]
         | |- pure_m (if ?c then _ else _) => destruct c
         | |- pure_m (match ?x with pair _ _ => _ end) => destruct x
         | |- pure_m (let _ := _ in _) => cbv zeta
         | |- pure_m _ => solve [eauto with pure]
         end.

Lemma get_stride_threat_framework_pure : forall a, pure_m (get_stride_threat_framework a).
Proof. intro a; unfold get_stride_threat_framework; pure_tac. Qed.

Lemma generate_threat_mitigations_pure : forall a, pure_m (generate_threat_mitigations a).
Proof. intro a; unfold generate_threat_mitigations; pure_tac. Qed.

Lemma calculate_threat_risk_scores_pure : forall a, pure_m (calculate_threat_risk_scores a).
Proof. intro a; unfold calculate_threat_risk_scores; pure_tac. Qed.

Lemma create_threat_attack_trees_pure : forall a, pure_m (create_threat_attack_trees a).
Proof. intro a; unfold create_threat_attack_trees; pure_tac. Qed.

Lemma generate_security_tests_pure : forall a, pure_m (generate_security_tests a).
Proof. intro a; unfold generate_security_tests; pure_tac. Qed.

Lemma generate_threat_report_pure : forall a, pure_m (generate_threat_report a).
Proof. intro a; unfold generate_threat_report; pure_tac. Qed.

Lemma validate_threat_coverage_pure : forall a, pure_m (validate_threat_coverage a).
Proof. intro a; unfold validate_threat_coverage; pure_tac. Qed.

Lemma get_repository_analysis_guide_pure : forall a, pure_m (get_repository_analysis_guide a).
Proof. intro a; unfold get_repository_analysis_guide; pure_tac. Qed.

#[export] Hint Resolve get_stride_threat_framework_pure generate_threat_mitigations_pure
  calculate_threat_risk_scores_pure create_threat_attack_trees_pure
  generate_security_tests_pure generate_threat_report_pure
  validate_threat_coverage_pure get_repository_analysis_guide_pure : pure.

(** ** Evaluating the dispatcher on a [tools/call] request *)

Lemma is_str_excl : forall v a b, is_str v a = true -> is_str v b = true -> a = b.
Proof.
  intros v a b Ha Hb; apply is_str_true in Ha; apply is_str_true in Hb.
  rewrite Ha in Hb; injection Hb; auto.
Qed.

Lemma bind_ret_inr : forall A B (m : PyM A) (f : A -> B) a w w',
  m w = (inr a, w') -> bind m (fun x => ret (f x)) w = (inr (f a), w').
Proof. intros A B m f a w w' H; unfold bind; rewrite H; reflexivity. Qed.

Lemma try_except_inr : forall A (m : PyM A) h a w w',
  m w = (inr a, w') -> try_except m h w = (inr a, w').
Proof. intros A m h a w w' H; unfold try_except; rewrite H; reflexivity. Qed.

Lemma bind_inl : forall A B (m : PyM A) (k : A -> PyM B) e w w',
  m w = (inl e, w') -> bind m k w = (inl e, w').
Proof. intros A B m k e w w' H; unfold bind; rewrite H; reflexivity. Qed.

Lemma bind_inr : forall A B (m : PyM A) (k : A -> PyM B) a w w',
  m w = (inr a, w') -> bind m k w = k a w'.
Proof. intros A B m k a w w' H; unfold bind; rewrite H; reflexivity. Qed.

Lemma try_except_inl : forall A (m : PyM A) h e w w',
  m w = (inl e, w') -> try_except m h w = h e w'.
Proof. intros A m h e w w' H; unfold try_except; rewrite H; reflexivity. Qed.

Lemma as_dict_non_dict : forall v w,
  (forall kvs, v <> JObj kvs) -> exists e, as_dict v w = (inl e, w).
Proof.
  intros [| | | | | |kvs] w H; try (eexists; reflexivity).
  destruct (H kvs eq_refl).
Qed.

(** A handler called with a non-dict [arguments] raises at its first
    [args.get], and the [except] branch answers with an error envelope. *)
Ltac handler_raises Hna :=
  match goal with
  | |- context [try_except (bind (?h ?a) ?k) ?hd ?w] =>
      let e := fresh "e" in
      let He := fresh "He" in
      destruct (as_dict_non_dict a w Hna) as [e He];
      rewrite (@try_except_inl _ (bind (h a) k) hd e w w)
        by (apply bind_inl; unfold h; cbv beta; apply bind_inl; exact He);
      cbv beta;
      match goal with
      | |- context [bind (sanitize_error ?e' ?ctx) ?k' ?w'] =>
          let i := fresh "i" in let msg := fresh "msg" in
          let w2 := fresh "w2" in let Hs := fresh "Hs" in
          destruct (sanitize_error_returns e' ctx w') as (i & msg & w2 & Hs);
          rewrite (bind_inr _ _ _ k' _ _ _ Hs)
      end
  end.

Lemma tcr_method : forall n a r,
  dict_get_none (tools_call_request n a r) (u "method") = JStr (u "tools/call").
Proof. reflexivity. Qed.

Lemma tcr_params : forall n a r,
  dict_get_default (tools_call_request n a r) (u "params") (JObj [])
  = JObj [(u "name", n); (u "arguments", a)].
Proof. reflexivity. Qed.

Lemma tcr_name : forall n a,
  dict_get_none [(u "name", n); (u "arguments", a)] (u "name") = n.
Proof. reflexivity. Qed.

Lemma tcr_arguments : forall n a,
  dict_get_default [(u "name", n); (u "arguments", a)] (u "arguments") (JObj []) = a.
Proof. reflexivity. Qed.

Lemma str_eqb_refl : forall s, str_eqb s s = true.
Proof. intro s; unfold str_eqb; destruct (list_eq_dec Z.eq_dec s s); congruence. Qed.

Lemma dict_get_default_head : forall k v d D, dict_get_default ((k, v) :: d) k D = v.
Proof. intros; unfold dict_get_default; cbn [dict_get]; rewrite str_eqb_refl; reflexivity. Qed.

Lemma dict_get_default_next : forall k k' v d D,
  str_eqb k k' = false -> dict_get_default ((k', v) :: d) k D = dict_get_default d k D.
Proof. intros k k' v d D H; unfold dict_get_default; cbn [dict_get]; rewrite H; reflexivity. Qed.

(** Decide [is_str] on two literals. *)
Ltac eval_is_str :=
  repeat match goal with
         | |- context [is_str (JStr ?a) ?b] =>
             let v := eval vm_compute in (is_str (JStr a) b) in
             lazymatch v with
             | true => change (is_str (JStr a) b) with true
             | false => change (is_str (JStr a) b) with false
             end
         end.

(** Reduce [handle_mcp_request] on [tools_call_request] to its [try] block. *)
Ltac tools_call_prelude :=
  unfold handle_mcp_request; cbv zeta;
  rewrite ?tcr_method, ?tcr_params; eval_is_str; cbv beta iota;
  cbn [as_dict bind ret]; rewrite ?tcr_name, ?tcr_arguments; eval_is_str; cbv beta iota.

(** The repository guide succeeds for a stage outside the declared enum,
    whatever the repository context. *)
Lemma get_repository_analysis_guide_other_stage : forall stage ctx,
  is_str stage (u "initial") = false ->
  is_str stage (u "deep_dive") = false ->
  is_str stage (u "validation") = false ->
  exists r, forall w,
    get_repository_analysis_guide
      (JObj [(u "analysis_stage", stage); (u "repository_context", ctx)]) w = (inr r, w).
Proof.
  intros stage ctx H1 H2 H3.
  unfold get_repository_analysis_guide; cbn [as_dict bind ret].
  rewrite dict_get_default_head, dict_get_default_next by reflexivity.
  rewrite dict_get_default_head, H1, H2, H3; cbn [bind ret].
  eexists; intro w; reflexivity.
Qed.

(** The payload of a response does not depend on the world: only the
    error path draws random bits, and an error envelope has no [result]. *)
Lemma handle_mcp_request_payload_world : forall up body w1 w2,
  response_payload (fst (handle_mcp_request up body w1))
  = response_payload (fst (handle_mcp_request up body w2)).
Proof.
  intros up body w1 w2; unfold handle_mcp_request; cbv zeta.
  destruct (is_str (dict_get_none body (u "method")) (u "initialize")); [reflexivity|].
  destruct (is_str (dict_get_none body (u "method")) (u "tools/list")); [reflexivity|].
  destruct (is_str (dict_get_none body (u "method")) (u "tools/call")); [|reflexivity].
  destruct (dict_get_default body (u "params") (JObj [])) as [| | | | | |p];
    try reflexivity.
  cbn [as_dict bind ret].
  match goal with
  | |- context [try_except ?m ?h] =>
      assert (Hm : pure_m m) by pure_tac;
      destruct Hm as [r Hr]; unfold try_except; rewrite !Hr
  end.
  destruct r as [e|env]; [|reflexivity].
  unfold bind.
  match goal with
  | |- context [sanitize_error e ?ctx w1] =>
      destruct (sanitize_error_returns e ctx w1) as (i1 & m1 & v1 & Hs1);
      destruct (sanitize_error_returns e ctx w2) as (i2 & m2 & v2 & Hs2);
      rewrite Hs1, Hs2
  end.
  reflexivity.
Qed.

(** C5 (amended): [PAYLOAD_TOO_LARGE] and [PAYLOAD_TOO_COMPLEX] are -32600,
    but [TOOL_EXECUTION_FAILED] is -32604, a value outside the standard
    codes, and it reaches the wire: a [tools/call] of any catalogued tool
    whose [arguments] is not an object answers with [error.code] -32604. *)
Theorem extension_codes_wire_values :
  ERROR_CODES PAYLOAD_TOO_LARGE = -32600 /\
  ERROR_CODES PAYLOAD_TOO_COMPLEX = -32600 /\
  ERROR_CODES TOOL_EXECUTION_FAILED = -32604 /\
  forall up name arguments request_id w,
    In name tool_names ->
    (forall kvs, arguments <> JObj kvs) ->
    exists env w',
      handle_mcp_request up (tools_call_request (JStr name) arguments request_id) w
      = (inr env, w') /\
      error_code env = Some (JInt (-32604)).
Proof.
  split; [reflexivity|]; split; [reflexivity|]; split; [reflexivity|].
  intros up name arguments request_id w Hin Hna.
  destruct Hin as [<-|[<-|[<-|[<-|[<-|[<-|[<-|[<-|[]]]]]]]]];
    tools_call_prelude; handler_raises Hna; do 2 eexists; split; reflexivity.
Qed.

Lemma extension_codes_wire_values_witness :
  (In (u "generate_threat_report") tool_names /\
   (forall kvs, JNull <> JObj kvs)) /\
  exists env w',
    handle_mcp_request all_printable
      (tools_call_request (JStr (u "generate_threat_report")) JNull (JInt 3)) world0
    = (inr env, w') /\ error_code env = Some (JInt (-32604)).
Proof.
  split; [split; [vm_compute; tauto | discriminate]|].
  apply (proj2 (proj2 (proj2 extension_codes_wire_values))).
  - vm_compute; tauto.
  - discriminate.
Defined.

(** C6: a [tools/call] whose [params] is an object (or absent) and whose
    [params.name] is none of the eight catalogued names is answered, in the
    unchanged world, by an envelope whose [error.code] is the
    [INVALID_PARAMETER] code -32603 and which has no [result] key. *)
Theorem handle_mcp_request_unknown_tool : forall up body w p,
  is_str (dict_get_none body (u "method")) (u "tools/call") = true ->
  dict_get_default body (u "params") (JObj []) = JObj p ->
  existsb (is_str (dict_get_none p (u "name"))) tool_names = false ->
  exists env,
    handle_mcp_request up body w = (inr env, w) /\
    error_code env = Some (JInt (ERROR_CODES INVALID_PARAMETER)) /\
    ERROR_CODES INVALID_PARAMETER = -32603 /\
    has_key env (u "result") = false.
Proof.
  intros up body w p Hm Hp Hn.
  unfold handle_mcp_request; cbv zeta.
  destruct (is_str (dict_get_none body (u "method")) (u "initialize")) eqn:E1.
  { pose proof (is_str_excl _ _ _ E1 Hm) as H; vm_compute in H; discriminate H. }
  destruct (is_str (dict_get_none body (u "method")) (u "tools/list")) eqn:E2.
  { pose proof (is_str_excl _ _ _ E2 Hm) as H; vm_compute in H; discriminate H. }
  rewrite Hm, Hp; cbn [as_dict bind ret].
  unfold tool_names in Hn; cbn [existsb] in Hn.
  repeat match goal with H : _ || _ = false |- _ => apply orb_false_elim in H; destruct H end.
  repeat match goal with H : is_str _ _ = false |- _ => rewrite H; clear H end.
  eexists; split; [reflexivity | repeat split].
Qed.

Lemma handle_mcp_request_unknown_tool_witness :
  (is_str (dict_get_none (tools_call_request (JStr (u "no_such_tool")) (JObj []) (JInt 7))
             (u "method")) (u "tools/call") = true /\
   dict_get_default (tools_call_request (JStr (u "no_such_tool")) (JObj []) (JInt 7))
     (u "params") (JObj [])
   = JObj [(u "name", JStr (u "no_such_tool")); (u "arguments", JObj [])] /\
   existsb (is_str (JStr (u "no_such_tool"))) tool_names = false) /\
  exists env,
    handle_mcp_request all_printable
      (tools_call_request (JStr (u "no_such_tool")) (JObj []) (JInt 7)) world0
    = (inr env, world0) /\
    error_code env = Some (JInt (ERROR_CODES INVALID_PARAMETER)) /\
    ERROR_CODES INVALID_PARAMETER = -32603 /\
    has_key env (u "result") = false.
Proof.
  split; [repeat split; vm_compute; reflexivity|].
  apply (handle_mcp_request_unknown_tool all_printable _ world0
           [(u "name", JStr (u "no_such_tool")); (u "arguments", JObj [])]);
    vm_compute; reflexivity.
Defined.

(** C7: each of the eight handlers neither reads nor changes the world (no
    random bits, clock or output), so equal arguments give the same value;
    and the [result] of every response of [handle_mcp_request] is the same
    from every world. *)
Theorem tool_handlers_deterministic :
  world_independent get_stride_threat_framework /\
  world_independent generate_threat_mitigations /\
  world_independent calculate_threat_risk_scores /\
  world_independent create_threat_attack_trees /\
  world_independent generate_security_tests /\
  world_independent generate_threat_report /\
  world_independent validate_threat_coverage /\
  world_independent get_repository_analysis_guide /\
  (forall up body w1 w2,
     response_payload (fst (handle_mcp_request up body w1))
     = response_payload (fst (handle_mcp_request up body w2))).
Proof.
  repeat split; try (apply pure_world_independent; auto with pure);
    apply handle_mcp_request_payload_world.
Qed.

(** C8: [tools/list] answers, in the unchanged world, with [result.tools]
    equal to the fixed list [tools], whose eight descriptors carry exactly
    the catalogued names in the catalogue's order. *)
Theorem handle_mcp_request_tools_list : forall up body w,
  is_str (dict_get_none body (u "method")) (u "tools/list") = true ->
  exists env,
    handle_mcp_request up body w = (inr env, w) /\
    result_tools env = Some tools /\
    exists ds, tools = JArr ds /\ List.length ds = 8%nat /\
               descriptor_names ds = Some tool_names.
Proof.
  intros up body w Hl.
  unfold handle_mcp_request; cbv zeta.
  destruct (is_str (dict_get_none body (u "method")) (u "initialize")) eqn:E1.
  { pose proof (is_str_excl _ _ _ E1 Hl) as H; vm_compute in H; discriminate H. }
  rewrite Hl.
  eexists; split; [reflexivity | split; [reflexivity |]].
  eexists; split; [reflexivity | split; vm_compute; reflexivity].
Qed.

Lemma handle_mcp_request_tools_list_witness :
  is_str (dict_get_none [(u "method", JStr (u "tools/list")); (u "id", JInt 2)] (u "method"))
    (u "tools/list") = true /\
  exists env,
    handle_mcp_request all_printable
      [(u "method", JStr (u "tools/list")); (u "id", JInt 2)] world0 = (inr env, world0) /\
    result_tools env = Some tools /\
    exists ds, tools = JArr ds /\ List.length ds = 8%nat /\
               descriptor_names ds = Some tool_names.
Proof.
  split; [vm_compute; reflexivity|].
  apply handle_mcp_request_tools_list; vm_compute; reflexivity.
Defined.

(** C9: for the spec's report request, [generate_threat_report] returns a
    str that [handle_mcp_request] places unchanged in
    [result.content[0].text]; it contains the report title and the count
    2 of the [threat_model] list. *)
Theorem generate_threat_report_example : forall up w,
  exists report,
    fst (generate_threat_report report_arguments w) = inr report /\
    response_text (fst (handle_mcp_request up
      (tools_call_request (JStr (u "generate_threat_report")) report_arguments (JInt 6)) w))
    = Some (JStr report) /\
    str_contains report (u "# STRIDE Threat Model Report") = true /\
    str_contains report (u "Total Threats Identified:** 2") = true.
Proof.
  intros up w.
  destruct (generate_threat_report_pure report_arguments) as [r Hr].
  assert (E : r = fst (generate_threat_report report_arguments world0))
    by (rewrite Hr; reflexivity).
  vm_compute in E; subst r.
  eexists; split; [rewrite Hr; reflexivity|].
  split; [| split; vm_compute; reflexivity].
  tools_call_prelude.
  rewrite (try_except_inr _ _ _ _ _ _ (bind_ret_inr _ _ _ _ _ _ _ (Hr w))).
  reflexivity.
Qed.

(** C10: no input schema is enforced.  A [tools/call] of any catalogued
    tool with an empty [arguments] object succeeds (an envelope with
    [result] and no [error]); so does the repository guide for an
    [analysis_stage] outside its declared enum, whatever the
    [repository_context]. *)
Theorem tools_accept_missing_arguments :
  (forall up name request_id w,
     In name tool_names ->
     is_success (fst (handle_mcp_request up
       (tools_call_request (JStr name) (JObj []) request_id) w)) = true) /\
  (forall up stage ctx request_id w,
     is_str stage (u "initial") = false ->
     is_str stage (u "deep_dive") = false ->
     is_str stage (u "validation") = false ->
     is_success (fst (handle_mcp_request up
       (tools_call_request (JStr (u "get_repository_analysis_guide"))
          (JObj [(u "analysis_stage", stage); (u "repository_context", ctx)])
          request_id) w)) = true).
Proof.
  split.
  - intros up name request_id w Hin.
    destruct Hin as [<-|[<-|[<-|[<-|[<-|[<-|[<-|[<-|[]]]]]]]]];
      tools_call_prelude;
      match goal with
      | |- context [try_except (bind (?h ?a) _) _ ?w] =>
          let Hp := fresh "Hp" in
          assert (Hp : pure_m (h a)) by auto with pure;
          let r := fresh "r" in let Hr := fresh "Hr" in
          destruct Hp as [r Hr];
          let E := fresh "E" in
          assert (E : r = fst (h a world0)) by (rewrite Hr; reflexivity);
          vm_compute in E; subst r;
          rewrite (try_except_inr _ _ _ _ _ _ (bind_ret_inr _ _ _ _ _ _ _ (Hr w)));
          reflexivity
      end.
  - intros up stage ctx request_id w H1 H2 H3.
    destruct (get_repository_analysis_guide_other_stage stage ctx H1 H2 H3) as [r Hr].
    tools_call_prelude.
    rewrite (try_except_inr _ _ _ _ _ _ (bind_ret_inr _ _ _ _ _ _ _ (Hr w))).
    reflexivity.
Qed.

Lemma tools_accept_missing_arguments_witness :
  (In (u "get_repository_analysis_guide") tool_names /\
   is_success (fst (handle_mcp_request all_printable
     (tools_call_request (JStr (u "get_repository_analysis_guide")) (JObj []) (JInt 9))
     world0)) = true) /\
  ((is_str (JStr (u "final")) (u "initial") = false /\
    is_str (JStr (u "final")) (u "deep_dive") = false /\
    is_str (JStr (u "final")) (u "validation") = false) /\
   is_success (fst (handle_mcp_request all_printable
     (tools_call_request (JStr (u "get_repository_analysis_guide"))
        (JObj [(u "analysis_stage", JStr (u "final")); (u "repository_context", JNull)])
        (JInt 10)) world0)) = true).
Proof.
  split; split.
  - vm_compute; tauto.
  - apply (proj1 tools_accept_missing_arguments); vm_compute; tauto.
  - repeat split; vm_compute; reflexivity.
  - apply (proj2 tools_accept_missing_arguments); vm_compute; reflexivity.
Defined.

(** ** More of the payload guard *)

Lemma gtb_false_le : forall d d' m, (d >? m) = false -> d' <= d -> (d' >? m) = false.
Proof. intros d d' m H Hle; rewrite gtb_negb_leb in *; apply negb_false_iff in H; apply negb_false_iff, Z.leb_le; apply Z.leb_le in H; lia. Qed.

(** Starting the check at a smaller depth never turns a valid value
    invalid: the limits other than depth do not depend on it. *)
Theorem validate_json_complexity_depth_mono : forall v d d',
  d' <= d ->
  valid (validate_json_complexity v d) = true ->
  valid (validate_json_complexity v d') = true.
Proof.
  induction v as [| b | z | r | s | xs IH | kvs IH] using json_ind'; intros d d' Hle H;
    cbn [validate_json_complexity] in *;
    (destruct (d >? MAX_JSON_DEPTH) eqn:E; [discriminate H|]);
    rewrite (gtb_false_le d d' MAX_JSON_DEPTH E Hle); try exact H.
  - destruct (Z.of_nat (List.length xs) >? MAX_ARRAY_LENGTH); [exact H|].
    rewrite validate_elems_valid in *; rewrite forallb_forall in *.
    intros x Hx; rewrite Forall_forall in IH.
    apply (IH x Hx (d + 1)); [lia | exact (H x Hx)].
  - destruct (Z.of_nat (List.length kvs) >? MAX_OBJECT_KEYS); [exact H|].
    rewrite validate_items_valid in *; rewrite forallb_forall in *.
    intros [k x] Hx; specialize (H (k, x) Hx); apply andb_true_iff in H as [Hk Hv].
    rewrite Forall_forall in IH; apply andb_true_iff; split; [exact Hk|].
    apply (IH (k, x) Hx (d + 1)); [lia | exact Hv].
Qed.

(** The guard of [api/index.py] on arrays, strings and scalars, as the
    lemma above on objects. *)
Theorem validate_json_complexity_other_values : forall d,
  (forall xs, valid (validate_json_complexity (JArr xs) d)
     = (d <=? MAX_JSON_DEPTH) && (Z.of_nat (List.length xs) <=? MAX_ARRAY_LENGTH)
       && forallb (fun x => valid (validate_json_complexity x (d + 1))) xs) /\
  (forall s, valid (validate_json_complexity (JStr s) d)
     = (d <=? MAX_JSON_DEPTH) && (str_len s <=? MAX_STRING_LENGTH)) /\
  (forall v, (forall xs, v <> JArr xs) -> (forall kvs, v <> JObj kvs) -> (forall s, v <> JStr s) ->
     valid (validate_json_complexity v d) = (d <=? MAX_JSON_DEPTH)).
Proof.
  intro d; split; [|split].
  - intro xs; cbn [validate_json_complexity]; rewrite !gtb_negb_leb.
    destruct (d <=? MAX_JSON_DEPTH); [|reflexivity].
    destruct (Z.of_nat (List.length xs) <=? MAX_ARRAY_LENGTH); [|reflexivity].
    apply validate_elems_valid.
  - intro s; cbn [validate_json_complexity]; rewrite !gtb_negb_leb.
    destruct (d <=? MAX_JSON_DEPTH); [|reflexivity].
    destruct (str_len s <=? MAX_STRING_LENGTH); reflexivity.
  - intros [| b | z | r | s | xs | kvs] Ha Ho Hs;
      try (destruct (Ha xs eq_refl)); try (destruct (Ho kvs eq_refl)); try (destruct (Hs s eq_refl));
      cbn [validate_json_complexity]; rewrite gtb_negb_leb;
      destruct (d <=? MAX_JSON_DEPTH); reflexivity.
Qed.

Lemma validate_items_consistent : forall f kvs nd,
  Forall (fun kv => result_consistent (f (snd kv) nd)) kvs ->
  result_consistent (validate_items f kvs nd).
Proof.
  intros f kvs nd H; induction H as [|[k v] rest Hv _ IH]; [left; split; reflexivity|].
  cbn [validate_items]; destruct (str_len k >? MAX_STRING_LENGTH);
    [right; split; [reflexivity | eexists; reflexivity]|].
  cbv zeta; destruct (valid (f v nd)) eqn:E; [exact IH|].
  exact Hv.
Qed.

Lemma validate_elems_consistent : forall f xs nd,
  Forall (fun x => result_consistent (f x nd)) xs ->
  result_consistent (validate_elems f xs nd).
Proof.
  intros f xs nd H; induction H as [|x rest Hx _ IH]; [left; split; reflexivity|].
  cbn [validate_elems]; cbv zeta; destruct (valid (f x nd)) eqn:E; [exact IH | exact Hx].
Qed.

(** Every result of the guard is [{'valid': True, 'error': None}] or has
    [valid] false and an error message (which [do_POST] formats). *)
Theorem validate_json_complexity_result_shape : forall v d,
  (valid (validate_json_complexity v d) = true /\ error (validate_json_complexity v d) = None) \/
  (valid (validate_json_complexity v d) = false /\
   exists m, error (validate_json_complexity v d) = Some m).
Proof.
  induction v as [| b | z | r | s | xs IH | kvs IH] using json_ind'; intro d;
    match goal with |- context [validate_json_complexity ?v ?d] =>
      change (result_consistent (validate_json_complexity v d)) end;
    cbn [validate_json_complexity];
    (destruct (d >? MAX_JSON_DEPTH); [right; split; [reflexivity | eexists; reflexivity]|]);
    try (left; split; reflexivity).
  - destruct (str_len s >? MAX_STRING_LENGTH); [right; split; [reflexivity | eexists; reflexivity]|].
    left; split; reflexivity.
  - destruct (Z.of_nat (List.length xs) >? MAX_ARRAY_LENGTH);
      [right; split; [reflexivity | eexists; reflexivity]|].
    apply validate_elems_consistent; rewrite Forall_forall in *; intros x Hx; apply IH; exact Hx.
  - destruct (Z.of_nat (List.length kvs) >? MAX_OBJECT_KEYS);
      [right; split; [reflexivity | eexists; reflexivity]|].
    apply validate_items_consistent; rewrite Forall_forall in *; intros kv Hkv; apply IH; exact Hkv.
Qed.

Lemma validate_values_valid : forall f kvs nd,
  valid (ServerValidation.validate_values f kvs nd) = forallb (fun kv => valid (f (snd kv) nd)) kvs.
Proof.
  intros f kvs nd; induction kvs as [|[k v] rest IH]; [reflexivity|].
  cbn [ServerValidation.validate_values forallb snd]; cbv zeta.
  destruct (valid (f v nd)) eqn:E; [exact IH | exact E].
Qed.

Lemma server_accepts_api_valid : forall L,
  L (u "MAX_JSON_DEPTH") = MAX_JSON_DEPTH ->
  L (u "MAX_OBJECT_KEYS") = MAX_OBJECT_KEYS ->
  L (u "MAX_ARRAY_LENGTH") = MAX_ARRAY_LENGTH ->
  L (u "MAX_STRING_LENGTH") = MAX_STRING_LENGTH ->
  forall v d, valid (validate_json_complexity v d) = true ->
              valid (ServerValidation.validate_json_complexity L v d) = true.
Proof.
  intros L HD HK HA HS v.
  induction v as [| b | z | r | s | xs IH | kvs IH] using json_ind'; intros d H;
    cbn [validate_json_complexity ServerValidation.validate_json_complexity] in *;
    rewrite ?HD, ?HK, ?HA, ?HS;
    (destruct (d >? MAX_JSON_DEPTH); [discriminate H|]); try reflexivity.
  - destruct (str_len s >? MAX_STRING_LENGTH); [discriminate H | reflexivity].
  - destruct (Z.of_nat (List.length xs) >? MAX_ARRAY_LENGTH); [discriminate H|].
    rewrite validate_elems_valid in *; rewrite forallb_forall in *; rewrite Forall_forall in IH.
    intros x Hx; exact (IH x Hx (d + 1) (H x Hx)).
  - destruct (Z.of_nat (List.length kvs) >? MAX_OBJECT_KEYS); [discriminate H|].
    rewrite validate_items_valid in H; rewrite validate_values_valid.
    rewrite forallb_forall in *; rewrite Forall_forall in IH.
    intros [k x] Hx; specialize (H (k, x) Hx); apply andb_true_iff in H as [_ Hv].
    exact (IH (k, x) Hx (d + 1) Hv).
Qed.

(** [server/validation.py] with the limits of [api/index.py] accepts
    every value [api/index.py] accepts, and more: it never checks key
    lengths, so an object with a 500001-character key passes it. *)
Theorem server_validation_weaker : forall L,
  L (u "MAX_JSON_DEPTH") = MAX_JSON_DEPTH ->
  L (u "MAX_OBJECT_KEYS") = MAX_OBJECT_KEYS ->
  L (u "MAX_ARRAY_LENGTH") = MAX_ARRAY_LENGTH ->
  L (u "MAX_STRING_LENGTH") = MAX_STRING_LENGTH ->
  (forall v d, valid (validate_json_complexity v d) = true ->
               valid (ServerValidation.validate_json_complexity L v d) = true) /\
  (forall k, str_len k > MAX_STRING_LENGTH ->
     valid (ServerValidation.validate_json_complexity L (JObj [(k, JNull)]) 0) = true /\
     valid (validate_json_complexity (JObj [(k, JNull)]) 0) = false).
Proof.
  intros L HD HK HA HS; split; [apply server_accepts_api_valid; assumption|].
  intros k Hk; split.
  - cbn [ServerValidation.validate_json_complexity ServerValidation.validate_values];
    rewrite !HD, HK; reflexivity.
  - cbn [validate_json_complexity validate_items].
    replace (str_len k >? MAX_STRING_LENGTH) with true by (symmetry; apply Z.gtb_lt; lia).
    reflexivity.
Qed.
(** ** The two copies of the payload guard *)

(** C1 (code bug in [server/validation.py]): with the limits of
    [api/index.py], the validator of [api/index.py] reports
    [valid = false] exactly when some node violates one of the four limits,
    but the validator of [server/validation.py] reports [valid = true] on an
    object with one key longer than 500,000 characters, which violates them. *)
Theorem validate_json_complexity_server_misses_long_key : forall L,
  L (u "MAX_JSON_DEPTH") = MAX_JSON_DEPTH ->
  L (u "MAX_OBJECT_KEYS") = MAX_OBJECT_KEYS ->
  L (u "MAX_ARRAY_LENGTH") = MAX_ARRAY_LENGTH ->
  L (u "MAX_STRING_LENGTH") = MAX_STRING_LENGTH ->
  (forall V, valid (validate_json_complexity V 0) = false <-> violates_limits V) /\
  (forall k, str_len k > MAX_STRING_LENGTH ->
     violates_limits (JObj [(k, JNull)]) /\
     valid (ServerValidation.validate_json_complexity L (JObj [(k, JNull)]) 0) = true).
Proof.
  intros L HD HK HA HS; split; [intro V; apply validate_json_complexity_iff_violation|].
  intros k Hk; split.
  - apply validate_json_complexity_iff_violation.
    cbn [validate_json_complexity validate_items].
    replace (str_len k >? MAX_STRING_LENGTH) with true by (symmetry; apply Z.gtb_lt; lia).
    reflexivity.
  - cbn [ServerValidation.validate_json_complexity ServerValidation.validate_values];
    rewrite !HD, HK; reflexivity.
Qed.

(** C2 (code bug in [server/validation.py]): with the limits of
    [api/index.py], the validator of [server/validation.py] is valid on an
    object at depth [d] exactly when [d] is within the depth limit, the
    object has at most 500 keys and every value is valid at depth [d + 1]:
    it checks no key length, so an object with one key longer than 500,000
    characters passes it, while the validator of [api/index.py] fails it. *)
Theorem server_validate_json_complexity_object : forall L,
  L (u "MAX_JSON_DEPTH") = MAX_JSON_DEPTH ->
  L (u "MAX_OBJECT_KEYS") = MAX_OBJECT_KEYS ->
  (forall kvs d,
     valid (ServerValidation.validate_json_complexity L (JObj kvs) d)
     = (d <=? MAX_JSON_DEPTH) && (Z.of_nat (List.length kvs) <=? MAX_OBJECT_KEYS)
       && forallb (fun kv => valid (ServerValidation.validate_json_complexity L (snd kv) (d + 1))) kvs) /\
  (forall k, str_len k > MAX_STRING_LENGTH ->
     valid (ServerValidation.validate_json_complexity L (JObj [(k, JNull)]) 0) = true /\
     valid (validate_json_complexity (JObj [(k, JNull)]) 0) = false).
Proof.
  intros L HD HK; split.
  - intros kvs d; cbn [ServerValidation.validate_json_complexity]; rewrite HD, HK, !gtb_negb_leb.
    destruct (d <=? MAX_JSON_DEPTH); [|reflexivity].
    destruct (Z.of_nat (List.length kvs) <=? MAX_OBJECT_KEYS); [|reflexivity].
    apply validate_values_valid.
  - intros k Hk; split.
    + cbn [ServerValidation.validate_json_complexity ServerValidation.validate_values];
      rewrite !HD, HK; reflexivity.
    + cbn [validate_json_complexity validate_items].
      replace (str_len k >? MAX_STRING_LENGTH) with true by (symmetry; apply Z.gtb_lt; lia).
      reflexivity.
Qed.
(** ** Error logging *)

Lemma sanitize_error_id_length : forall i, List.length (slice 0 8 (uuid_str i)) = 8%nat.
Proof. intro i; rewrite uuid_str_prefix, length_firstn, hex_fixed_length; reflexivity. Qed.

Lemma sanitize_error_run : forall E ctx w,
  exists error_id,
    List.length error_id = 8%nat /\
    sanitize_error E ctx w =
      (inr (error_id, u "An internal error occurred. Error ID: " ++ error_id),
       {| w_random := w_random w; w_draws := S (w_draws w);
          w_stderr := w_stderr w ++
            [u "[ERROR " ++ error_id ++ u "] Context: " ++ ctx;
             u "[ERROR " ++ error_id ++ u "] Exception Type: " ++ exc_type E;
             u "[ERROR " ++ error_id ++ u "] Exception Message: " ++ exc_str E;
             u "[ERROR " ++ error_id ++ u "] Stack Trace:"]
            ++ fst (w_traceback w E)
            ++ u "Traceback (most recent call last):" :: snd (w_traceback w E)
            ++ [exc_final_line E];
          w_traceback := w_traceback w |}).
Proof.
  intros E ctx w; eexists; split; [apply sanitize_error_id_length|].
  unfold sanitize_error, uuid4, urandom_128, print_exc, print_stderr, bind, ret.
  cbn [w_random w_draws w_stderr w_traceback]; rewrite <- !app_assoc; reflexivity.
Qed.

(** [sanitize_error] draws one UUID and writes to stderr four lines tagged
    with the 8-character error id it returns (the context, the exception
    type, the exception message and [Stack Trace:]), then what
    [traceback.print_exc] writes: the chained exceptions, the
    [Traceback (most recent call last):] header, the frame lines and the
    exception's final line. *)
Theorem sanitize_error_log : forall E ctx w,
  exists error_id,
    List.length error_id = 8%nat /\
    sanitize_error E ctx w =
      (inr (error_id, u "An internal error occurred. Error ID: " ++ error_id),
       {| w_random := w_random w; w_draws := S (w_draws w);
          w_stderr := w_stderr w ++
            [u "[ERROR " ++ error_id ++ u "] Context: " ++ ctx;
             u "[ERROR " ++ error_id ++ u "] Exception Type: " ++ exc_type E;
             u "[ERROR " ++ error_id ++ u "] Exception Message: " ++ exc_str E;
             u "[ERROR " ++ error_id ++ u "] Stack Trace:"]
            ++ fst (w_traceback w E)
            ++ u "Traceback (most recent call last):" :: snd (w_traceback w E)
            ++ [exc_final_line E];
          w_traceback := w_traceback w |}).
Proof. exact sanitize_error_run. Qed.

(** The [sanitize_error] of [server/errors.py] returns the same id and
    message as the one of [api/index.py] from the same random source; its
    log has the same lines but the tagged [Stack Trace:] one. *)
Theorem server_sanitize_error_same_result : forall E ctx w,
  exists error_id,
    fst (sanitize_error E ctx w) = inr (error_id, u "An internal error occurred. Error ID: " ++ error_id) /\
    ServerErrors.sanitize_error E ctx w =
      (inr (error_id, u "An internal error occurred. Error ID: " ++ error_id),
       {| w_random := w_random w; w_draws := S (w_draws w);
          w_stderr := w_stderr w ++
            [u "[ERROR " ++ error_id ++ u "] Context: " ++ ctx;
             u "[ERROR " ++ error_id ++ u "] Exception Type: " ++ exc_type E;
             u "[ERROR " ++ error_id ++ u "] Exception Message: " ++ exc_str E]
            ++ fst (w_traceback w E)
            ++ u "Traceback (most recent call last):" :: snd (w_traceback w E)
            ++ [exc_final_line E];
          w_traceback := w_traceback w |}).
Proof.
  intros E ctx w; eexists; split; [reflexivity|].
  unfold ServerErrors.sanitize_error, uuid4, urandom_128, print_exc, print_stderr, bind, ret.
  cbn [w_random w_draws w_stderr w_traceback]; rewrite <- !app_assoc; reflexivity.
Qed.

(** ** The report *)

Lemma infix_app_l : forall s a b, infix s b -> infix s (a ++ b).
Proof. intros s a b (x & y & H); exists (a ++ x), y; rewrite H, app_assoc; reflexivity. Qed.

Lemma infix_mid : forall a s b, infix s (a ++ s ++ b).
Proof. intros a s b; exists a, b; reflexivity. Qed.

(** The last section of the report, formatted. *)
Lemma report_appendix_format : forall v,
  str_format (u "## Security Testing Plan

*Outline test cases to validate mitigation effectiveness. Include:*
- Test scenarios for each major threat
- Acceptance criteria
- Testing methodology (unit, integration, penetration)

## Implementation Roadmap

*Provide timeline and sequencing for mitigation implementation:*
- Phase 1 (0-30 days): Critical mitigations
- Phase 2 (30-90 days): High-priority mitigations
- Phase 3 (90+ days): Medium and low-priority mitigations

## Appendix

### Threat Model Data
*Technical details about the threat model*

**Total Threats Identified:** {threat_count}

### STRIDE Coverage
*Breakdown of threats by STRIDE category*

### References
*Standards, frameworks, and resources referenced*
- STRIDE Threat Modeling Methodology
- DREAD Risk Assessment Framework
- OWASP Top 10
- CWE/SANS Top 25

---

**Report Generated:** [Date]
**Threat Modeling Framework:** STRIDE
**Risk Scoring Method:** DREAD

*This report was generated using the STRIDE GPT MCP Server threat modeling framework. The LLM client should populate each section with specific analysis based on the provided threat model data.*
") (u "threat_count") v
  = firstn 535 (u "## Security Testing Plan

*Outline test cases to validate mitigation effectiveness. Include:*
- Test scenarios for each major threat
- Acceptance criteria
- Testing methodology (unit, integration, penetration)

## Implementation Roadmap

*Provide timeline and sequencing for mitigation implementation:*
- Phase 1 (0-30 days): Critical mitigations
- Phase 2 (30-90 days): High-priority mitigations
- Phase 3 (90+ days): Medium and low-priority mitigations

## Appendix

### Threat Model Data
*Technical details about the threat model*

**Total Threats Identified:** {threat_count}

### STRIDE Coverage
*Breakdown of threats by STRIDE category*

### References
*Standards, frameworks, and resources referenced*
- STRIDE Threat Modeling Methodology
- DREAD Risk Assessment Framework
- OWASP Top 10
- CWE/SANS Top 25

---

**Report Generated:** [Date]
**Threat Modeling Framework:** STRIDE
**Risk Scoring Method:** DREAD

*This report was generated using the STRIDE GPT MCP Server threat modeling framework. The LLM client should populate each section with specific analysis based on the provided threat model data.*
") ++ (u "**Total Threats Identified:** " ++ v ++ [10])
    ++ skipn 580 (u "## Security Testing Plan

*Outline test cases to validate mitigation effectiveness. Include:*
- Test scenarios for each major threat
- Acceptance criteria
- Testing methodology (unit, integration, penetration)

## Implementation Roadmap

*Provide timeline and sequencing for mitigation implementation:*
- Phase 1 (0-30 days): Critical mitigations
- Phase 2 (30-90 days): High-priority mitigations
- Phase 3 (90+ days): Medium and low-priority mitigations

## Appendix

### Threat Model Data
*Technical details about the threat model*

**Total Threats Identified:** {threat_count}

### STRIDE Coverage
*Breakdown of threats by STRIDE category*

### References
*Standards, frameworks, and resources referenced*
- STRIDE Threat Modeling Methodology
- DREAD Risk Assessment Framework
- OWASP Top 10
- CWE/SANS Top 25

---

**Report Generated:** [Date]
**Threat Modeling Framework:** STRIDE
**Risk Scoring Method:** DREAD

*This report was generated using the STRIDE GPT MCP Server threat modeling framework. The LLM client should populate each section with specific analysis based on the provided threat model data.*
").
Proof.
  intro v; rewrite <- app_assoc.
  change (u "**Total Threats Identified:** " ++ v ++ [10] ++ skipn 580 (u "## Security Testing Plan

*Outline test cases to validate mitigation effectiveness. Include:*
- Test scenarios for each major threat
- Acceptance criteria
- Testing methodology (unit, integration, penetration)

## Implementation Roadmap

*Provide timeline and sequencing for mitigation implementation:*
- Phase 1 (0-30 days): Critical mitigations
- Phase 2 (30-90 days): High-priority mitigations
- Phase 3 (90+ days): Medium and low-priority mitigations

## Appendix

### Threat Model Data
*Technical details about the threat model*

**Total Threats Identified:** {threat_count}

### STRIDE Coverage
*Breakdown of threats by STRIDE category*

### References
*Standards, frameworks, and resources referenced*
- STRIDE Threat Modeling Methodology
- DREAD Risk Assessment Framework
- OWASP Top 10
- CWE/SANS Top 25

---

**Report Generated:** [Date]
**Threat Modeling Framework:** STRIDE
**Risk Scoring Method:** DREAD

*This report was generated using the STRIDE GPT MCP Server threat modeling framework. The LLM client should populate each section with specific analysis based on the provided threat model data.*
"))
    with (u "**Total Threats Identified:** " ++ (v ++ [10]) ++ skipn 580 (u "## Security Testing Plan

*Outline test cases to validate mitigation effectiveness. Include:*
- Test scenarios for each major threat
- Acceptance criteria
- Testing methodology (unit, integration, penetration)

## Implementation Roadmap

*Provide timeline and sequencing for mitigation implementation:*
- Phase 1 (0-30 days): Critical mitigations
- Phase 2 (30-90 days): High-priority mitigations
- Phase 3 (90+ days): Medium and low-priority mitigations

## Appendix

### Threat Model Data
*Technical details about the threat model*

**Total Threats Identified:** {threat_count}

### STRIDE Coverage
*Breakdown of threats by STRIDE category*

### References
*Standards, frameworks, and resources referenced*
- STRIDE Threat Modeling Methodology
- DREAD Risk Assessment Framework
- OWASP Top 10
- CWE/SANS Top 25

---

**Report Generated:** [Date]
**Threat Modeling Framework:** STRIDE
**Risk Scoring Method:** DREAD

*This report was generated using the STRIDE GPT MCP Server threat modeling framework. The LLM client should populate each section with specific analysis based on the provided threat model data.*
")).
  rewrite <- app_assoc; vm_compute; reflexivity.
Qed.

Lemma report_appendix_threat_count : forall X v,
  infix (u "**Total Threats Identified:** " ++ v ++ [10])
        (X ++ str_format (u "## Security Testing Plan

*Outline test cases to validate mitigation effectiveness. Include:*
- Test scenarios for each major threat
- Acceptance criteria
- Testing methodology (unit, integration, penetration)

## Implementation Roadmap

*Provide timeline and sequencing for mitigation implementation:*
- Phase 1 (0-30 days): Critical mitigations
- Phase 2 (30-90 days): High-priority mitigations
- Phase 3 (90+ days): Medium and low-priority mitigations

## Appendix

### Threat Model Data
*Technical details about the threat model*

**Total Threats Identified:** {threat_count}

### STRIDE Coverage
*Breakdown of threats by STRIDE category*

### References
*Standards, frameworks, and resources referenced*
- STRIDE Threat Modeling Methodology
- DREAD Risk Assessment Framework
- OWASP Top 10
- CWE/SANS Top 25

---

**Report Generated:** [Date]
**Threat Modeling Framework:** STRIDE
**Risk Scoring Method:** DREAD

*This report was generated using the STRIDE GPT MCP Server threat modeling framework. The LLM client should populate each section with specific analysis based on the provided threat model data.*
") (u "threat_count") v).
Proof. intros X v; rewrite report_appendix_format; apply infix_app_l, infix_mid. Qed.

(** Whenever the report is produced, it states the number of threats:
    the length of [threat_model] when that is a list, 0 otherwise. *)
Theorem generate_threat_report_threat_count : forall kvs w,
  match fst (generate_threat_report (JObj kvs) w) with
  | inr report =>
      infix (u "**Total Threats Identified:** "
             ++ str_of_Z (match dict_get_default kvs (u "threat_model") (JArr []) with
                          | JArr xs => Z.of_nat (List.length xs)
                          | _ => 0
                          end) ++ [10]) report
  | inl _ => True
  end.
Proof.
  intros kvs w; unfold generate_threat_report; cbv zeta; cbn [as_dict bind ret].
  destruct (dict_get_default kvs (u "include_sections") (JArr [
    JStr (u "executive_summary");
    JStr (u "threats");
    JStr (u "mitigations");
    JStr (u "risk_scores")
  ]));
    cbn [py_in bind ret raise fst]; try exact I.
  all: apply report_appendix_threat_count.
Qed.

(** The report raises exactly when [include_sections] is not a str, list
    or dict: the first [in] test raises [TypeError]. *)
Theorem generate_threat_report_raises_iff : forall kvs w,
  (exists e, fst (generate_threat_report (JObj kvs) w) = inl e /\ exc_type e = u "TypeError")
  <-> py_iterable (dict_get_default kvs (u "include_sections") (JArr [
    JStr (u "executive_summary");
    JStr (u "threats");
    JStr (u "mitigations");
    JStr (u "risk_scores")
  ])) = false.
Proof.
  intros kvs w; unfold generate_threat_report; cbv zeta; cbn [as_dict bind ret].
  destruct (dict_get_default kvs (u "include_sections") (JArr [
    JStr (u "executive_summary");
    JStr (u "threats");
    JStr (u "mitigations");
    JStr (u "risk_scores")
  ]));
    cbn [py_in bind ret raise fst py_iterable]; split; intro H;
    try reflexivity; try discriminate H;
    try (destruct H as (e & He & _); discriminate He);
    eexists; split; reflexivity.
Qed.
(** ** The repository guide *)

Lemma dict_get_setitem_same : forall d k v, dict_get (dict_setitem d k v) k = Some v.
Proof.
  induction d as [|[k' v'] d IH]; intros k v; cbn [dict_setitem dict_get].
  - rewrite str_eqb_refl; reflexivity.
  - destruct (str_eqb k k') eqn:E; cbn [dict_get]; [rewrite E | rewrite E, IH]; reflexivity.
Qed.

Lemma str_eqb_true : forall a b, str_eqb a b = true -> a = b.
Proof. intros a b; unfold str_eqb; destruct (list_eq_dec Z.eq_dec a b); congruence. Qed.

Lemma dict_get_setitem_other : forall d k k' v,
  str_eqb k' k = false -> dict_get (dict_setitem d k v) k' = dict_get d k'.
Proof.
  induction d as [|[k0 v0] d IH]; intros k k' v H; cbn [dict_setitem dict_get].
  - rewrite H; reflexivity.
  - destruct (str_eqb k k0) eqn:E; cbn [dict_get].
    + apply str_eqb_true in E; subst k0; rewrite H; reflexivity.
    + rewrite IH by exact H; reflexivity.
Qed.

(** The three keys the guide sets last. *)
Lemma guide_final_keys : forall bf g stage ctx,
  get_key (JObj (dict_setitem (dict_setitem (dict_setitem bf (u "analysis_guidance") g)
                   (u "current_stage") stage) (u "repository_context") ctx)) (u "current_stage")
    = Some stage /\
  get_key (JObj (dict_setitem (dict_setitem (dict_setitem bf (u "analysis_guidance") g)
                   (u "current_stage") stage) (u "repository_context") ctx)) (u "repository_context")
    = Some ctx.
Proof.
  intros bf g stage ctx; cbn [get_key]; split.
  - rewrite dict_get_setitem_other by reflexivity; apply dict_get_setitem_same.
  - apply dict_get_setitem_same.
Qed.

(** Case analysis of the guide: the stage, then in [deep_dive] the
    context and its two fields read with [.lower()]. *)
Ltac guide_cases :=
  intros kvs w; unfold get_repository_analysis_guide, as_dict, py_lower, bind, ret, raise;
  cbv beta iota zeta;
  destruct (is_str (dict_get_default kvs (u "analysis_stage") (JStr (u "initial"))) (u "initial")) eqn:E1;
  [| destruct (is_str (dict_get_default kvs (u "analysis_stage") (JStr (u "initial"))) (u "deep_dive")) eqn:E2;
     [ destruct (dict_get_default kvs (u "repository_context") (JObj [])) as [| | | | | |c];
       cbv beta iota;
       try (destruct (dict_get_default c (u "primary_language") (JStr [])); cbv beta iota;
            try (destruct (dict_get_default c (u "framework_detected") (JStr [])); cbv beta iota))
     | destruct (is_str (dict_get_default kvs (u "analysis_stage") (JStr (u "initial"))) (u "validation")) eqn:E3 ]];
  cbv beta iota; cbn [fst is_jstr andb].

(** Whenever the guide returns, it echoes [analysis_stage] (default
    ['initial']) as [current_stage] and [repository_context] (default
    [{}]); when it raises, the exception is an [AttributeError]. *)
Theorem get_repository_analysis_guide_echo : forall kvs w,
  match fst (get_repository_analysis_guide (JObj kvs) w) with
  | inr r =>
      get_key r (u "current_stage") = Some (dict_get_default kvs (u "analysis_stage") (JStr (u "initial"))) /\
      get_key r (u "repository_context")
        = Some (dict_get_default kvs (u "repository_context") (JObj []))
  | inl e => exc_type e = u "AttributeError"
  end.
Proof. guide_cases; first [reflexivity | apply guide_final_keys]. Qed.

(** The guide raises exactly in the [deep_dive] stage, when
    [repository_context] is not a dict or one of its [primary_language]
    and [framework_detected] fields is present and not a str. *)
Theorem get_repository_analysis_guide_raises_iff : forall kvs w,
  (exists e, fst (get_repository_analysis_guide (JObj kvs) w) = inl e) <->
  is_str (dict_get_default kvs (u "analysis_stage") (JStr (u "initial"))) (u "deep_dive") = true /\
  match dict_get_default kvs (u "repository_context") (JObj []) with
  | JObj c => is_jstr (dict_get_default c (u "primary_language") (JStr [])) &&
              is_jstr (dict_get_default c (u "framework_detected") (JStr [])) = false
  | _ => True
  end.
Proof.
  guide_cases; try rewrite E2;
    (split;
     [ intros (e & He); first [ discriminate He | split; [reflexivity | first [exact I | reflexivity]] ]
     | intros (H & H');
       first [ eexists; reflexivity | discriminate H | discriminate H'
             | exfalso; pose proof (is_str_excl _ _ _ E1 H) as Heq; vm_compute in Heq; discriminate Heq ] ]).
Qed.
(** ** The dispatcher on other methods *)

(** A [method] other than [initialize], [tools/list] and [tools/call] is
    answered with error -32601 naming the method, without touching the
    world. *)
Theorem handle_mcp_request_unknown_method : forall up body w,
  is_str (dict_get_none body (u "method")) (u "initialize") = false ->
  is_str (dict_get_none body (u "method")) (u "tools/list") = false ->
  is_str (dict_get_none body (u "method")) (u "tools/call") = false ->
  handle_mcp_request up body w =
    (inr (error_envelope
            (JObj [(u "code", JInt (-32601));
                   (u "message", JStr (u "Method not found: " ++ py_str up (dict_get_none body (u "method"))))])
            (dict_get_none body (u "id"))), w).
Proof. intros up body w H1 H2 H3; unfold handle_mcp_request; cbv zeta; rewrite H1, H2, H3; reflexivity. Qed.

(** ** [do_POST] *)

Lemma sanitize_error_ret : forall e ctx w,
  exists error_id w', sanitize_error e ctx w
    = (inr (error_id, u "An internal error occurred. Error ID: " ++ error_id), w').
Proof.
  intros e ctx w; pose proof (sanitize_error_id e ctx w) as H.
  destruct (sanitize_error e ctx w) as [r w']; cbn [fst] in H; subst r; eauto.
Qed.

Lemma gtb_max_payload_false : forall n, n <= MAX_PAYLOAD_SIZE -> (n >? MAX_PAYLOAD_SIZE) = false.
Proof. intros n H; rewrite Z.gtb_ltb; apply Z.ltb_ge; exact H. Qed.

(** Unfold [do_POST] and read the header: [Hn] gives the content length. *)
Ltac post_prelude hdr Hn :=
  unfold do_POST, try_except, as_dict, bind, lift, ret, raise;
  destruct hdr as [s|]; cbv beta iota in Hn; [rewrite Hn | subst]; cbv beta iota.

(** Past the size check, the read, the decoding and [json.loads]. *)
Ltac post_read Hle Hrd Hdec Hld :=
  rewrite (gtb_max_payload_false _ Hle); cbv beta iota;
  rewrite Hrd; cbv beta iota; rewrite Hdec; cbv beta iota; rewrite Hld; cbv beta iota.

(** The [except] branch of [do_POST]: a 500 response with the sanitized
    message and [id] null. *)
Ltac post_500 :=
  match goal with
  | |- context [sanitize_error ?e ?ctx ?w'] =>
      let i := fresh "error_id" in let w2 := fresh "w" in let Hs := fresh "Hs" in
      destruct (sanitize_error_ret e ctx w') as (i & w2 & Hs); rewrite Hs; exists i, w2; reflexivity
  end.

(** A [Content-Length] above [MAX_PAYLOAD_SIZE] is refused with 413
    before anything is read. *)
Theorem do_POST_payload_too_large : forall up py_int rfile_read utf8_decode json_loads s n w,
  py_int s = Some n ->
  n > MAX_PAYLOAD_SIZE ->
  do_POST up py_int rfile_read utf8_decode json_loads (Some s) w =
    (inr (post_error 413 (-32600)
            (u "Payload size " ++ str_of_Z n ++ u " bytes exceeds maximum of 5242880 bytes") JNull), w).
Proof.
  intros up py_int rd dec ld s n w Hn Hgt.
  unfold do_POST, try_except, bind, lift, ret, raise; rewrite Hn; cbv beta iota.
  replace (n >? MAX_PAYLOAD_SIZE) with true by (symmetry; apply Z.gtb_lt; lia).
  reflexivity.
Qed.

(** A body [json.loads] rejects with [JSONDecodeError] gets 400, code
    -32700, [id] null. *)
Theorem do_POST_parse_error : forall up py_int rfile_read utf8_decode json_loads hdr n data text e w,
  match hdr with None => n = 0 | Some s => py_int s = Some n end ->
  n <= MAX_PAYLOAD_SIZE ->
  rfile_read n = inr data ->
  utf8_decode data = inr text ->
  json_loads text = inl e ->
  exc_type e = u "JSONDecodeError" ->
  do_POST up py_int rfile_read utf8_decode json_loads hdr w =
    (inr (post_error 400 (-32700) (u "Parse error") JNull), w).
Proof.
  intros up py_int rd dec ld hdr n data text e w Hn Hle Hrd Hdec Hld He.
  post_prelude hdr Hn; post_read Hle Hrd Hdec Hld; rewrite He; reflexivity.
Qed.

(** An object that fails the payload guard gets 400 with the guard's
    message and the request's [id]. *)
Theorem do_POST_too_complex : forall up py_int rfile_read utf8_decode json_loads hdr n data text kvs w,
  match hdr with None => n = 0 | Some s => py_int s = Some n end ->
  n <= MAX_PAYLOAD_SIZE ->
  rfile_read n = inr data ->
  utf8_decode data = inr text ->
  json_loads text = inr (JObj kvs) ->
  valid (validate_json_complexity (JObj kvs) 0) = false ->
  do_POST up py_int rfile_read utf8_decode json_loads hdr w =
    (inr (post_error 400 (-32600)
            (u "Payload complexity validation failed: "
             ++ opt_str (error (validate_json_complexity (JObj kvs) 0)))
            (dict_get_none kvs (u "id"))), w).
Proof.
  intros up py_int rd dec ld hdr n data text kvs w Hn Hle Hrd Hdec Hld Hv.
  post_prelude hdr Hn; post_read Hle Hrd Hdec Hld; rewrite Hv; reflexivity.
Qed.

(** An object that passes the guard but whose [jsonrpc] is not ["2.0"] or
    whose [method] is falsy gets 400 Invalid Request with its [id]. *)
Theorem do_POST_invalid_request : forall up py_int rfile_read utf8_decode json_loads hdr n data text kvs w,
  match hdr with None => n = 0 | Some s => py_int s = Some n end ->
  n <= MAX_PAYLOAD_SIZE ->
  rfile_read n = inr data ->
  utf8_decode data = inr text ->
  json_loads text = inr (JObj kvs) ->
  valid (validate_json_complexity (JObj kvs) 0) = true ->
  is_str (dict_get_none kvs (u "jsonrpc")) (u "2.0") = false \/
  py_truthy (dict_get_none kvs (u "method")) = false ->
  do_POST up py_int rfile_read utf8_decode json_loads hdr w =
    (inr (post_error 400 (-32600) (u "Invalid Request") (dict_get_none kvs (u "id"))), w).
Proof.
  intros up py_int rd dec ld hdr n data text kvs w Hn Hle Hrd Hdec Hld Hv Hr.
  post_prelude hdr Hn; post_read Hle Hrd Hdec Hld; rewrite Hv; cbv beta iota;
  destruct Hr as [Hr | Hr]; rewrite Hr; first [reflexivity | cbn [negb]; rewrite orb_true_r; reflexivity].
Qed.

(** A well-formed request is answered with 200, the security headers and
    the envelope of [handle_mcp_request]. *)
Theorem do_POST_success : forall up py_int rfile_read utf8_decode json_loads hdr n data text kvs w resp w',
  match hdr with None => n = 0 | Some s => py_int s = Some n end ->
  n <= MAX_PAYLOAD_SIZE ->
  rfile_read n = inr data ->
  utf8_decode data = inr text ->
  json_loads text = inr (JObj kvs) ->
  valid (validate_json_complexity (JObj kvs) 0) = true ->
  is_str (dict_get_none kvs (u "jsonrpc")) (u "2.0") = true ->
  py_truthy (dict_get_none kvs (u "method")) = true ->
  handle_mcp_request up kvs w = (inr resp, w') ->
  do_POST up py_int rfile_read utf8_decode json_loads hdr w =
    (inr {| status := 200; headers := cors_json_headers ++ security_headers; payload := resp |}, w').
Proof.
  intros up py_int rd dec ld hdr n data text kvs w resp w' Hn Hle Hrd Hdec Hld Hv Hj Hm Hh.
  post_prelude hdr Hn; post_read Hle Hrd Hdec Hld; rewrite Hv, Hj, Hm; cbn [negb orb];
  rewrite Hh; reflexivity.
Qed.

(** When [handle_mcp_request] raises (a [tools/call] whose [params] is
    not an object), the request gets 500, code -32603, the sanitized
    message and [id] null. *)
Theorem do_POST_handler_raises : forall up py_int rfile_read utf8_decode json_loads hdr n data text kvs w e w',
  match hdr with None => n = 0 | Some s => py_int s = Some n end ->
  n <= MAX_PAYLOAD_SIZE ->
  rfile_read n = inr data ->
  utf8_decode data = inr text ->
  json_loads text = inr (JObj kvs) ->
  valid (validate_json_complexity (JObj kvs) 0) = true ->
  is_str (dict_get_none kvs (u "jsonrpc")) (u "2.0") = true ->
  py_truthy (dict_get_none kvs (u "method")) = true ->
  handle_mcp_request up kvs w = (inl e, w') ->
  exists error_id w'',
    do_POST up py_int rfile_read utf8_decode json_loads hdr w =
      (inr (post_error 500 (-32603) (u "An internal error occurred. Error ID: " ++ error_id) JNull), w'').
Proof.
  intros up py_int rd dec ld hdr n data text kvs w e w' Hn Hle Hrd Hdec Hld Hv Hj Hm Hh.
  post_prelude hdr Hn; post_read Hle Hrd Hdec Hld; rewrite Hv, Hj, Hm; cbn [negb orb];
  rewrite Hh; cbv beta iota; post_500.
Qed.

(** A body that is valid JSON but not an object (a JSON-RPC batch, a
    number) gets 500: [body.get] raises, whatever the guard says. *)
Theorem do_POST_non_object_body : forall up py_int rfile_read utf8_decode json_loads hdr n data text body w,
  match hdr with None => n = 0 | Some s => py_int s = Some n end ->
  n <= MAX_PAYLOAD_SIZE ->
  rfile_read n = inr data ->
  utf8_decode data = inr text ->
  json_loads text = inr body ->
  (forall kvs, body <> JObj kvs) ->
  exists error_id w',
    do_POST up py_int rfile_read utf8_decode json_loads hdr w =
      (inr (post_error 500 (-32603) (u "An internal error occurred. Error ID: " ++ error_id) JNull), w').
Proof.
  intros up py_int rd dec ld hdr n data text body w Hn Hle Hrd Hdec Hld Hb.
  post_prelude hdr Hn; post_read Hle Hrd Hdec Hld;
  destruct body as [| | | | | |kvs]; try (exfalso; exact (Hb kvs eq_refl));
    destruct (valid (validate_json_complexity _ 0)); cbn [negb]; post_500.
Qed.

(** A [Content-Length] that is not an integer gets 500, not 400: the
    [ValueError] of [int()] reaches the outer [except]. *)
Theorem do_POST_bad_content_length : forall up py_int rfile_read utf8_decode json_loads s w,
  py_int s = None ->
  exists error_id w',
    do_POST up py_int rfile_read utf8_decode json_loads (Some s) w =
      (inr (post_error 500 (-32603) (u "An internal error occurred. Error ID: " ++ error_id) JNull), w').
Proof.
  intros up py_int rd dec ld s w Hn.
  unfold do_POST, try_except, bind, lift, ret, raise; rewrite Hn; cbv beta iota; post_500.
Qed.

Lemma try_except_responds : forall (m : PyM http_response) h (P : http_response -> Prop) w,
  (forall w, (exists e w', m w = (inl e, w')) \/ (exists r w', m w = (inr r, w') /\ P r)) ->
  (forall e w, exists r w', h e w = (inr r, w') /\ P r) ->
  exists r w', try_except m h w = (inr r, w') /\ P r.
Proof.
  intros m h P w Hm Hh; unfold try_except.
  destruct (Hm w) as [(e & w' & E) | (r & w' & E & Hr)]; rewrite E; [apply Hh | eauto].
Qed.

(** [do_POST] never lets an exception escape: it always sends a
    response, 200 with the security headers or an error status (400, 413
    or 500) with only the JSON and CORS headers. *)
Theorem do_POST_always_responds : forall up py_int rfile_read utf8_decode json_loads hdr w,
  exists r w',
    do_POST up py_int rfile_read utf8_decode json_loads hdr w = (inr r, w') /\
    ((status r = 200 /\ headers r = cors_json_headers ++ security_headers) \/
     (In (status r) [400; 413; 500] /\ headers r = cors_json_headers)).
Proof.
  intros up py_int rd dec ld hdr w; unfold do_POST; apply try_except_responds.
  - intro w0; unfold as_dict, bind, lift, ret, raise;
      repeat (cbv beta iota; match goal with
                             | |- context [match ?x with _ => _ end] => destruct x
                             end);
      first [ left; do 2 eexists; reflexivity
            | right; do 2 eexists; split; [reflexivity|];
              first [left; split; reflexivity | right; split; [cbn; tauto | reflexivity]] ].
  - intros e w0; unfold bind, ret.
    destruct (sanitize_error_ret e (u "HTTP POST request handling") w0) as (i & w2 & Hs); rewrite Hs.
    do 2 eexists; split; [reflexivity | right; split; [cbn; tauto | reflexivity]].
Qed.
(** ** The discovery endpoint *)

(** [GET /] advertises the same tool names, in the same order, as the
    descriptors [tools/list] returns. *)
Theorem do_GET_tools_match_tools_list :
  exists ds names,
    tools = JArr ds /\ descriptor_names ds = Some names /\
    get_key (payload do_GET) (u "tools") = Some (JArr (map JStr names)).
Proof. do 2 eexists; split; [reflexivity|]; split; vm_compute; reflexivity. Qed.

(** ** [json.dumps] output is ASCII *)

Lemma ascii_str_app : forall a b, ascii_str (a ++ b) = ascii_str a && ascii_str b.
Proof. intros a b; apply forallb_app. Qed.

Lemma str_of_uint_ascii : forall d, ascii_str (u (NilEmpty.string_of_uint d)) = true.
Proof.
  induction d as [|d IH|d IH|d IH|d IH|d IH|d IH|d IH|d IH|d IH|d IH]; [reflexivity|..];
    unfold ascii_str, u in *; cbn [NilEmpty.string_of_uint list_ascii_of_string map forallb];
    rewrite IH; reflexivity.
Qed.

Lemma str_of_Z_ascii : forall z, ascii_str (str_of_Z z) = true.
Proof.
  intro z; unfold str_of_Z, NilEmpty.string_of_int; destruct (Z.to_int z) as [d|d];
    [apply str_of_uint_ascii|].
  pose proof (str_of_uint_ascii d) as H; unfold ascii_str, u in *.
  cbn [list_ascii_of_string map forallb]; rewrite H; reflexivity.
Qed.

Lemma lower_hex_ascii : forall s, forallb is_lower_hex s = true -> ascii_str s = true.
Proof.
  induction s as [|c s IH]; intro H; [reflexivity|].
  cbn [forallb] in H; apply andb_true_iff in H as [Hc Hs].
  unfold ascii_str; cbn [forallb]; fold (ascii_str s); rewrite IH by exact Hs.
  unfold is_lower_hex in Hc; rewrite andb_true_r; apply andb_true_iff.
  apply orb_true_iff in Hc as [Hc | Hc]; apply andb_true_iff in Hc as [H1 H2];
    apply Z.leb_le in H1; apply Z.leb_le in H2; (split; [apply Z.leb_le | apply Z.ltb_lt]); lia.
Qed.

Lemma escape_u_ascii : forall n, ascii_str (escape_u n) = true.
Proof.
  intro n; unfold escape_u; rewrite ascii_str_app.
  rewrite (lower_hex_ascii _ (hex_fixed_is_lower_hex 4 n)); reflexivity.
Qed.

Lemma encode_char_ascii : forall c, ascii_str (encode_char c) = true.
Proof.
  intro c; unfold encode_char.
  destruct (c =? 92); [reflexivity|]. destruct (c =? 34); [reflexivity|].
  destruct (c =? 8); [reflexivity|]. destruct (c =? 12); [reflexivity|].
  destruct (c =? 10); [reflexivity|]. destruct (c =? 13); [reflexivity|].
  destruct (c =? 9); [reflexivity|].
  destruct ((32 <=? c) && (c <=? 126)) eqn:E.
  - apply andb_true_iff in E as [H1 H2]; apply Z.leb_le in H1; apply Z.leb_le in H2.
    unfold ascii_str; cbn [forallb]; rewrite andb_true_r; apply andb_true_iff;
      split; [apply Z.leb_le | apply Z.ltb_lt]; lia.
  - destruct (c <? 65536); [apply escape_u_ascii|].
    rewrite ascii_str_app, !escape_u_ascii; reflexivity.
Qed.

Lemma encode_basestring_ascii_ascii : forall s, ascii_str (encode_basestring_ascii s) = true.
Proof.
  intro s; unfold encode_basestring_ascii; rewrite !ascii_str_app.
  replace (ascii_str (flat_map encode_char s)) with true; [reflexivity|].
  induction s as [|c s IH]; [reflexivity|].
  cbn [flat_map]; rewrite ascii_str_app, encode_char_ascii, <- IH; reflexivity.
Qed.

Lemma newline_indent_ascii : forall level, ascii_str (newline_indent level) = true.
Proof.
  intro level; unfold newline_indent, ascii_str; cbn [forallb].
  induction (2 * level)%nat as [|k IH]; [reflexivity|]; cbn [repeat forallb] in *.
  rewrite andb_true_iff in IH; destruct IH as [_ IH]; rewrite IH; reflexivity.
Qed.

Lemma join_ascii : forall sep parts,
  ascii_str sep = true -> forallb ascii_str parts = true -> ascii_str (join sep parts) = true.
Proof.
  intros sep parts Hs; induction parts as [|p ps IH]; intro H; [reflexivity|].
  cbn [forallb] in H; apply andb_true_iff in H as [Hp Hps].
  destruct ps as [|p' ps']; [exact Hp|].
  cbn [join]; rewrite !ascii_str_app, Hp, Hs; exact (IH Hps).
Qed.

Lemma forallb_map_Forall : forall {A} (f : A -> pystr) (P : A -> Prop) (ok : A -> bool) xs,
  Forall P xs -> (forall x, P x -> ok x = true -> ascii_str (f x) = true) ->
  forallb ok xs = true -> forallb ascii_str (map f xs) = true.
Proof.
  intros A f P ok xs HP Hf; induction HP as [|x xs Hx _ IH]; intro H; [reflexivity|].
  cbn [forallb map] in *; apply andb_true_iff in H as [H1 H2].
  rewrite (Hf x Hx H1); exact (IH H2).
Qed.

Lemma iterencode_ascii : forall v level,
  floats_ascii v = true -> ascii_str (iterencode v level) = true.
Proof.
  induction v as [| b | z | r | s | xs IH | kvs IH] using json_ind'; intros level H.
  - reflexivity.
  - destruct b; reflexivity.
  - apply str_of_Z_ascii.
  - cbn [iterencode floats_ascii] in *; unfold floatstr.
    destruct (str_eqb r (u "nan")); [reflexivity|].
    destruct (str_eqb r (u "inf")); [reflexivity|].
    destruct (str_eqb r (u "-inf")); [reflexivity | exact H].
  - apply encode_basestring_ascii_ascii.
  - destruct xs as [|x xs']; [reflexivity|].
    cbn [floats_ascii] in H; cbn [iterencode]; rewrite !ascii_str_app, !newline_indent_ascii.
    rewrite join_ascii; [reflexivity | rewrite ascii_str_app, newline_indent_ascii; reflexivity|].
    apply (forallb_map_Forall _ _ floats_ascii _ IH); [|exact H].
    intros x0 Hx0 Hf; exact (Hx0 (S level) Hf).
  - destruct kvs as [|kv kvs']; [reflexivity|].
    cbn [floats_ascii] in H; cbn [iterencode]; rewrite !ascii_str_app, !newline_indent_ascii.
    rewrite join_ascii; [reflexivity | rewrite ascii_str_app, newline_indent_ascii; reflexivity|].
    apply (forallb_map_Forall _ _ (fun kv => floats_ascii (snd kv)) _ IH); [|exact H].
    intros [k x] Hx Hf; cbn [snd] in Hx, Hf.
    rewrite !ascii_str_app, encode_basestring_ascii_ascii, (Hx (S level) Hf); reflexivity.
Qed.

(** [json.dumps(result, indent=2)] (the [text] of every tool result)
    contains only ASCII characters: non-ASCII code points of strings and
    keys are written as [\uXXXX] escapes. *)
Theorem json_dumps_indent2_ascii : forall v,
  floats_ascii v = true -> ascii_str (json_dumps_indent2 v) = true.
Proof. intros v H; apply iterencode_ascii; exact H. Qed.
(** ** A failing tool call *)

Lemma as_dict_non_dict_exc : forall v w,
  (forall kvs, v <> JObj kvs) ->
  as_dict v w = (inl {| exc_type := u "AttributeError";
                        exc_str := u "'" ++ type_name v ++ u "' object has no attribute 'get'";
                        exc_module := u "builtins" |}, w).
Proof. intros [| | | | | |kvs] w H; try reflexivity; destruct (H kvs eq_refl). Qed.

(** A catalogued tool called with non-object [arguments] fails at its
    first [args.get]: the client gets error -32604 with only the error id,
    and the exception's type and message go to stderr, tagged with that id
    and the tool's name, followed by the traceback [print_exc] writes. *)
Theorem handle_mcp_request_tool_failure_logged : forall up n a rid w,
  In n tool_names ->
  (forall kvs, a <> JObj kvs) ->
  exists error_id w',
    handle_mcp_request up (tools_call_request (JStr n) a rid) w =
      (inr (error_envelope
              (JObj [(u "code", JInt (-32604));
                     (u "message", JStr (u "An internal error occurred. Error ID: " ++ error_id))])
              rid), w') /\
    w_stderr w' = w_stderr w ++
      [u "[ERROR " ++ error_id ++ u "] Context: Tool execution: " ++ n;
       u "[ERROR " ++ error_id ++ u "] Exception Type: AttributeError";
       u "[ERROR " ++ error_id ++ u "] Exception Message: '" ++ type_name a
         ++ u "' object has no attribute 'get'";
       u "[ERROR " ++ error_id ++ u "] Stack Trace:"]
      ++ fst (w_traceback w
               {| exc_type := u "AttributeError";
                  exc_str := u "'" ++ type_name a ++ u "' object has no attribute 'get'";
                  exc_module := u "builtins" |})
      ++ u "Traceback (most recent call last):"
      :: snd (w_traceback w
                {| exc_type := u "AttributeError";
                   exc_str := u "'" ++ type_name a ++ u "' object has no attribute 'get'";
                   exc_module := u "builtins" |})
      ++ [u "AttributeError: '" ++ type_name a ++ u "' object has no attribute 'get'"].
Proof.
  intros up n a rid w Hin Hna.
  destruct Hin as [<-|[<-|[<-|[<-|[<-|[<-|[<-|[<-|[]]]]]]]]]; tools_call_prelude;
  match goal with
  | |- context [try_except (bind (?h ?a) ?k) ?hd ?w] =>
      rewrite (@try_except_inl _ (bind (h a) k) hd _ w w)
        by (apply bind_inl; unfold h; cbv beta; apply bind_inl; exact (as_dict_non_dict_exc a w Hna));
      cbv beta;
      match goal with
      | |- context [bind (sanitize_error ?e' ?ctx) ?k' ?w'] =>
          destruct (sanitize_error_run e' ctx w') as (i & _ & Hs);
          rewrite (bind_inr _ _ _ k' _ _ _ Hs)
      end
  end;
  do 2 eexists; split; reflexivity.
Qed.
(** ** Instances of the properties above *)

Lemma validate_json_complexity_depth_mono_witness :
  valid (validate_json_complexity (JArr [JArr [JNull]]) 5) = true /\
  valid (validate_json_complexity (JArr [JArr [JNull]]) 0) = true.
Proof.
  split; [vm_compute; reflexivity|].
  apply (validate_json_complexity_depth_mono (JArr [JArr [JNull]]) 5 0); [lia | vm_compute; reflexivity].
Defined.

Lemma validate_json_complexity_other_values_witness :
  valid (validate_json_complexity (JInt 7) 21) = (21 <=? MAX_JSON_DEPTH).
Proof.
  apply (proj2 (proj2 (validate_json_complexity_other_values 21))); intros ? H; discriminate H.
Defined.

Lemma server_validation_weaker_witness :
  valid (ServerValidation.validate_json_complexity
           (fun k => if str_eqb k (u "MAX_JSON_DEPTH") then 20
                     else if str_eqb k (u "MAX_OBJECT_KEYS") then 500
                     else if str_eqb k (u "MAX_ARRAY_LENGTH") then 2000 else 500000)
           (JObj [(u "a", JArr [JStr (u "b")])]) 0) = true.
Proof.
  apply (proj1 (server_validation_weaker
           (fun k => if str_eqb k (u "MAX_JSON_DEPTH") then 20
                     else if str_eqb k (u "MAX_OBJECT_KEYS") then 500
                     else if str_eqb k (u "MAX_ARRAY_LENGTH") then 2000 else 500000)
           eq_refl eq_refl eq_refl eq_refl)).
  vm_compute; reflexivity.
Defined.

Lemma handle_mcp_request_unknown_method_witness :
  handle_mcp_request all_printable [(u "method", JStr (u "ping")); (u "id", JInt 4)] world0 =
    (inr (error_envelope (JObj [(u "code", JInt (-32601));
                                (u "message", JStr (u "Method not found: ping"))]) (JInt 4)), world0).
Proof.
  refine (handle_mcp_request_unknown_method all_printable _ world0 _ _ _); vm_compute; reflexivity.
Defined.

Lemma do_POST_payload_too_large_witness :
  do_POST all_printable (fun _ => Some 6000000) (fun _ => inr []) (fun _ => inr [])
    (fun _ => inr JNull) (Some (u "6000000")) world0 =
    (inr (post_error 413 (-32600)
            (u "Payload size 6000000 bytes exceeds maximum of 5242880 bytes") JNull), world0).
Proof.
  refine (do_POST_payload_too_large all_printable _ _ _ _ (u "6000000") 6000000 world0 _ _);
    [reflexivity | unfold MAX_PAYLOAD_SIZE; lia].
Defined.

Lemma do_POST_parse_error_witness :
  do_POST all_printable (fun _ => None) (fun _ => inr []) (fun _ => inr [])
    (fun _ => inl {| exc_type := u "JSONDecodeError";
                     exc_str := u "Expecting value: line 1 column 1 (char 0)";
                     exc_module := u "json.decoder" |}) None world0 =
    (inr (post_error 400 (-32700) (u "Parse error") JNull), world0).
Proof.
  refine (do_POST_parse_error all_printable _ _ _ _ None 0 [] []
            {| exc_type := u "JSONDecodeError"; exc_str := u "Expecting value: line 1 column 1 (char 0)";
               exc_module := u "json.decoder" |}
            world0 _ _ _ _ _ _);
    first [reflexivity | unfold MAX_PAYLOAD_SIZE; lia].
Defined.

Lemma do_POST_too_complex_witness :
  valid (validate_json_complexity
           (JObj [(u "id", JInt 1); (u "params", Nat.iter 21 (fun v => JArr [v]) JNull)]) 0) = false /\
  do_POST all_printable (fun _ => Some 120) (fun _ => inr []) (fun _ => inr [])
    (fun _ => inr (JObj [(u "id", JInt 1); (u "params", Nat.iter 21 (fun v => JArr [v]) JNull)]))
    (Some (u "120")) world0 =
    (inr (post_error 400 (-32600) (u "Payload complexity validation failed: JSON nesting depth exceeds maximum of 20")
            (JInt 1)), world0).
Proof.
  split; [vm_compute; reflexivity|].
  refine (do_POST_too_complex all_printable _ _ _ _ (Some (u "120")) 120 [] []
            [(u "id", JInt 1); (u "params", Nat.iter 21 (fun v => JArr [v]) JNull)]
            world0 _ _ _ _ _ _);
    first [reflexivity | unfold MAX_PAYLOAD_SIZE; lia | vm_compute; reflexivity].
Defined.

Lemma do_POST_invalid_request_witness :
  do_POST all_printable (fun _ => None) (fun _ => inr []) (fun _ => inr [])
    (fun _ => inr (JObj [(u "jsonrpc", JStr (u "1.0")); (u "method", JStr (u "ping")); (u "id", JInt 2)]))
    None world0 =
    (inr (post_error 400 (-32600) (u "Invalid Request") (JInt 2)), world0).
Proof.
  refine (do_POST_invalid_request all_printable _ _ _ _ None 0 [] []
            [(u "jsonrpc", JStr (u "1.0")); (u "method", JStr (u "ping")); (u "id", JInt 2)]
            world0 _ _ _ _ _ _ _);
    first [reflexivity | unfold MAX_PAYLOAD_SIZE; lia | vm_compute; reflexivity | left; vm_compute; reflexivity].
Defined.

Lemma do_POST_success_witness :
  do_POST all_printable (fun _ => None) (fun _ => inr []) (fun _ => inr [])
    (fun _ => inr (JObj [(u "jsonrpc", JStr (u "2.0")); (u "method", JStr (u "ping")); (u "id", JInt 5)]))
    None world0 =
    (inr {| status := 200; headers := cors_json_headers ++ security_headers;
            payload := error_envelope (JObj [(u "code", JInt (-32601));
                                             (u "message", JStr (u "Method not found: ping"))]) (JInt 5) |},
     world0).
Proof.
  refine (do_POST_success all_printable _ _ _ _ None 0 [] []
            [(u "jsonrpc", JStr (u "2.0")); (u "method", JStr (u "ping")); (u "id", JInt 5)] world0
            (error_envelope (JObj [(u "code", JInt (-32601));
                                   (u "message", JStr (u "Method not found: ping"))]) (JInt 5))
            world0 _ _ _ _ _ _ _ _ _);
    first [reflexivity | unfold MAX_PAYLOAD_SIZE; lia | vm_compute; reflexivity].
Defined.

Lemma do_POST_handler_raises_witness :
  exists error_id w',
    do_POST all_printable (fun _ => None) (fun _ => inr []) (fun _ => inr [])
      (fun _ => inr (JObj [(u "jsonrpc", JStr (u "2.0")); (u "method", JStr (u "tools/call"));
                           (u "params", JInt 5); (u "id", JInt 6)]))
      None world0 =
      (inr (post_error 500 (-32603) (u "An internal error occurred. Error ID: " ++ error_id) JNull), w').
Proof.
  refine (do_POST_handler_raises all_printable _ _ _ _ None 0 [] []
            [(u "jsonrpc", JStr (u "2.0")); (u "method", JStr (u "tools/call"));
             (u "params", JInt 5); (u "id", JInt 6)] world0
            {| exc_type := u "AttributeError"; exc_str := u "'int' object has no attribute 'get'";
               exc_module := u "builtins" |}
            world0 _ _ _ _ _ _ _ _ _);
    first [reflexivity | unfold MAX_PAYLOAD_SIZE; lia | vm_compute; reflexivity].
Defined.

Lemma do_POST_non_object_body_witness :
  exists error_id w',
    do_POST all_printable (fun _ => None) (fun _ => inr []) (fun _ => inr [])
      (fun _ => inr (JArr [])) None world0 =
      (inr (post_error 500 (-32603) (u "An internal error occurred. Error ID: " ++ error_id) JNull), w').
Proof.
  refine (do_POST_non_object_body all_printable _ _ _ _ None 0 [] [] (JArr []) world0 _ _ _ _ _ _);
    first [reflexivity | unfold MAX_PAYLOAD_SIZE; lia | intros ? H; discriminate H].
Defined.

Lemma do_POST_bad_content_length_witness :
  exists error_id w',
    do_POST all_printable (fun _ => None) (fun _ => inr []) (fun _ => inr [])
      (fun _ => inr JNull) (Some (u "abc")) world0 =
      (inr (post_error 500 (-32603) (u "An internal error occurred. Error ID: " ++ error_id) JNull), w').
Proof.
  exact (do_POST_bad_content_length all_printable _ _ _ _ (u "abc") world0 eq_refl).
Defined.

Lemma json_dumps_indent2_ascii_witness :
  floats_ascii (JObj [(u "name", JStr [233; 8364]); (u "n", JFloat (u "1.5"))]) = true /\
  ascii_str (json_dumps_indent2 (JObj [(u "name", JStr [233; 8364]); (u "n", JFloat (u "1.5"))])) = true.
Proof.
  split; [reflexivity|].
  apply json_dumps_indent2_ascii; reflexivity.
Defined.

Lemma handle_mcp_request_tool_failure_logged_witness :
  exists error_id w',
    handle_mcp_request all_printable
      (tools_call_request (JStr (u "generate_threat_mitigations")) (JInt 3) (JInt 9)) world0 =
      (inr (error_envelope
              (JObj [(u "code", JInt (-32604));
                     (u "message", JStr (u "An internal error occurred. Error ID: " ++ error_id))])
              (JInt 9)), w') /\
    w_stderr w' =
      [u "[ERROR " ++ error_id ++ u "] Context: Tool execution: generate_threat_mitigations";
       u "[ERROR " ++ error_id ++ u "] Exception Type: AttributeError";
       u "[ERROR " ++ error_id ++ u "] Exception Message: 'int' object has no attribute 'get'";
       u "[ERROR " ++ error_id ++ u "] Stack Trace:";
       u "Traceback (most recent call last):";
       u "AttributeError: 'int' object has no attribute 'get'"].
Proof.
  refine (handle_mcp_request_tool_failure_logged all_printable (u "generate_threat_mitigations")
            (JInt 3) (JInt 9) world0 _ _);
    [vm_compute; tauto | intros ? H; discriminate H].
Defined.

Lemma validate_json_complexity_server_misses_long_key_witness :
  violates_limits (JObj [(repeat 97 (Z.to_nat 500001), JNull)]) /\
  valid (ServerValidation.validate_json_complexity
           (fun k => if str_eqb k (u "MAX_JSON_DEPTH") then 20
                     else if str_eqb k (u "MAX_OBJECT_KEYS") then 500
                     else if str_eqb k (u "MAX_ARRAY_LENGTH") then 2000 else 500000)
           (JObj [(repeat 97 (Z.to_nat 500001), JNull)]) 0) = true.
Proof.
  refine (proj2 (validate_json_complexity_server_misses_long_key
                   (fun k => if str_eqb k (u "MAX_JSON_DEPTH") then 20
                             else if str_eqb k (u "MAX_OBJECT_KEYS") then 500
                             else if str_eqb k (u "MAX_ARRAY_LENGTH") then 2000 else 500000)
                   _ _ _ _) _ _);
    first [reflexivity | vm_compute; reflexivity].
Defined.

Lemma server_validate_json_complexity_object_witness :
  valid (ServerValidation.validate_json_complexity
           (fun k => if str_eqb k (u "MAX_JSON_DEPTH") then 20
                     else if str_eqb k (u "MAX_OBJECT_KEYS") then 500
                     else if str_eqb k (u "MAX_ARRAY_LENGTH") then 2000 else 500000)
           (JObj [(repeat 97 (Z.to_nat 500001), JNull)]) 0) = true /\
  valid (validate_json_complexity (JObj [(repeat 97 (Z.to_nat 500001), JNull)]) 0) = false.
Proof.
  refine (proj2 (server_validate_json_complexity_object
                   (fun k => if str_eqb k (u "MAX_JSON_DEPTH") then 20
                             else if str_eqb k (u "MAX_OBJECT_KEYS") then 500
                             else if str_eqb k (u "MAX_ARRAY_LENGTH") then 2000 else 500000)
                   _ _) _ _);
    first [reflexivity | vm_compute; reflexivity].
Defined.
